(** * gosker: rule registry, server lifecycle and traffic accounting

    A shallow embedding of [app.go].  The Go program keeps one [App]
    object (rule list plus three id-keyed maps), heap-allocated
    [TrafficCounter] objects that are shared by pointer between the
    [counters] map, the listener wrapper and every wrapped connection,
    and talks to the operating system (TCP ports, the configuration
    file, the clock).  All of that is one explicit [State] here; every
    Go method is a function [State -> result * State].

    Conventions
    - [int64] fields are [Z] with the wrap-around of Go's [+=] written
      out ([add64]).
    - a pointer to a [TrafficCounter] is an index into [heap]; the
      object is never copied, so aliasing between the map, the listener
      and the connections is visible.
    - [sync.Mutex] calls are recorded, in program order, in [locklog].
    - [time.Now()] reads [clock] (nanoseconds, like [time.Duration]).
    - [encoding/json] is not part of the repository: the configuration
      file holds the decoded array of records it denotes.
    - the SOCKS5 library is opaque: a server is the options it was built
      with, its accept loop is the environment calling [accept_on].
    - console output, [Greet] and [TestUDP] (which only probes a UDP
      port and formats a message) are left out. *)

From Stdlib Require Import ZArith Lia.
From stdpp Require Import gmap strings list fin_maps pretty.

Local Open Scope Z_scope.

(* ===================================================================== *)
(** ** Machine integers *)
(* ===================================================================== *)

Definition int64_min : Z := - 2 ^ 63.
Definition int64_max : Z := 2 ^ 63 - 1.

Definition in_int64 (z : Z) : Prop := int64_min <= z <= int64_max.

(** Two's-complement wrap-around of a 64-bit signed integer. *)
Definition wrap64 (z : Z) : Z := (z + 2 ^ 63) mod 2 ^ 64 - 2 ^ 63.

(** Go's [a += b] on [int64]. *)
Definition add64 (a b : Z) : Z := wrap64 (a + b).

(* ===================================================================== *)
(** ** Data model *)
(* ===================================================================== *)

(** [type SocksRule struct] *)
Record SocksRule := mkRule {
  ID : string;
  Name : string;
  Port : Z;
  Username : string;
  Password : string;
  NoAuth : bool;
  Running : bool;
  EnableUDP : bool;
  UploadBytes : Z;
  DownloadBytes : Z
}.

Definition set_ID (v : string) (r : SocksRule) : SocksRule :=
  mkRule v (Name r) (Port r) (Username r) (Password r) (NoAuth r)
         (Running r) (EnableUDP r) (UploadBytes r) (DownloadBytes r).

Definition set_Running (v : bool) (r : SocksRule) : SocksRule :=
  mkRule (ID r) (Name r) (Port r) (Username r) (Password r) (NoAuth r)
         v (EnableUDP r) (UploadBytes r) (DownloadBytes r).

Definition set_traffic (up down : Z) (r : SocksRule) : SocksRule :=
  mkRule (ID r) (Name r) (Port r) (Username r) (Password r) (NoAuth r)
         (Running r) (EnableUDP r) up down.

(** Address of a [TrafficCounter] object. *)
Definition ptr := nat.

(** [type TrafficCounter struct]; the [app] back pointer is the single
    [App] of the state, the mutex lives in [locklog]. *)
Record TrafficCounter := mkCounter {
  uploadBytes : Z;
  downloadBytes : Z;
  ruleID : string;
  lastSync : Z
}.

(** [type TrafficConnWrapper struct]: the embedded [net.Conn] is the
    environment's; what the wrapper adds is the counter it reports to. *)
Record TrafficConnWrapper := mkConn {
  c_counter : ptr
}.

(** A raw [net.Listener] of the operating system. *)
Record RawListener := mkRaw {
  l_port : Z;
  l_open : bool
}.

(** [type StatsListener struct]; [Listener] is a handle into [sockets]. *)
Record StatsListener := mkStats {
  Listener : nat;
  counter : option ptr;
  l_ruleID : string
}.

(** Options handed to [socks5.NewServer]. *)
Inductive Option_ :=
  | WithBindIP (ip : string)
  | WithRule (enableConnect enableBind enableAssociate : bool)
  | WithCredential (user pass : string).

(** A [*socks5.Server]: opaque apart from the options it was built with. *)
Record Server := mkServer {
  srv_opts : list Option_
}.

Definition socks5_NewServer (opts : list Option_) : Server := mkServer opts.

(** The mutexes of the program. *)
Inductive Mutex :=
  | AppMu
  | CounterMu (p : ptr).

Inductive LockEvent :=
  | Acquire (m : Mutex)
  | Release (m : Mutex).

(** Go [error] values produced by the program. *)
Inductive error :=
  | ErrMkdirOrWrite
  | ErrReadFile
  | ErrUnmarshal
  | ErrRuleNotFound (id : string).

(** The [App] object together with the part of the world it acts on. *)
Record State := mkState {
  (* type App struct *)
  rules : list SocksRule;
  servers : gmap string Server;
  listeners : gmap string StatsListener;
  counters : gmap string ptr;
  (* Go heap *)
  heap : list TrafficCounter;
  conns : list TrafficConnWrapper;
  (* operating system *)
  sockets : list RawListener;
  foreign_ports : list Z;
  cfg_file : option (option (list SocksRule));
  fs_writable : bool;
  fs_readable : bool;
  clock : Z;
  (* goroutines started with [go a.saveRules()] *)
  spawned_saves : nat;
  (* mutex operations, oldest first *)
  locklog : list LockEvent
}.

Definition set_rules (v : list SocksRule) (s : State) : State :=
  mkState v (servers s) (listeners s) (counters s) (heap s) (conns s)
          (sockets s) (foreign_ports s) (cfg_file s) (fs_writable s)
          (fs_readable s) (clock s) (spawned_saves s) (locklog s).

Definition set_servers (v : gmap string Server) (s : State) : State :=
  mkState (rules s) v (listeners s) (counters s) (heap s) (conns s)
          (sockets s) (foreign_ports s) (cfg_file s) (fs_writable s)
          (fs_readable s) (clock s) (spawned_saves s) (locklog s).

Definition set_listeners (v : gmap string StatsListener) (s : State) : State :=
  mkState (rules s) (servers s) v (counters s) (heap s) (conns s)
          (sockets s) (foreign_ports s) (cfg_file s) (fs_writable s)
          (fs_readable s) (clock s) (spawned_saves s) (locklog s).

Definition set_counters (v : gmap string ptr) (s : State) : State :=
  mkState (rules s) (servers s) (listeners s) v (heap s) (conns s)
          (sockets s) (foreign_ports s) (cfg_file s) (fs_writable s)
          (fs_readable s) (clock s) (spawned_saves s) (locklog s).

Definition set_heap (v : list TrafficCounter) (s : State) : State :=
  mkState (rules s) (servers s) (listeners s) (counters s) v (conns s)
          (sockets s) (foreign_ports s) (cfg_file s) (fs_writable s)
          (fs_readable s) (clock s) (spawned_saves s) (locklog s).

Definition set_conns (v : list TrafficConnWrapper) (s : State) : State :=
  mkState (rules s) (servers s) (listeners s) (counters s) (heap s) v
          (sockets s) (foreign_ports s) (cfg_file s) (fs_writable s)
          (fs_readable s) (clock s) (spawned_saves s) (locklog s).

Definition set_sockets (v : list RawListener) (s : State) : State :=
  mkState (rules s) (servers s) (listeners s) (counters s) (heap s) (conns s)
          v (foreign_ports s) (cfg_file s) (fs_writable s)
          (fs_readable s) (clock s) (spawned_saves s) (locklog s).

Definition set_cfg_file (v : option (option (list SocksRule))) (s : State)
  : State :=
  mkState (rules s) (servers s) (listeners s) (counters s) (heap s) (conns s)
          (sockets s) (foreign_ports s) v (fs_writable s)
          (fs_readable s) (clock s) (spawned_saves s) (locklog s).

Definition set_clock (v : Z) (s : State) : State :=
  mkState (rules s) (servers s) (listeners s) (counters s) (heap s) (conns s)
          (sockets s) (foreign_ports s) (cfg_file s) (fs_writable s)
          (fs_readable s) v (spawned_saves s) (locklog s).

Definition set_spawned_saves (v : nat) (s : State) : State :=
  mkState (rules s) (servers s) (listeners s) (counters s) (heap s) (conns s)
          (sockets s) (foreign_ports s) (cfg_file s) (fs_writable s)
          (fs_readable s) (clock s) v (locklog s).

Definition set_locklog (v : list LockEvent) (s : State) : State :=
  mkState (rules s) (servers s) (listeners s) (counters s) (heap s) (conns s)
          (sockets s) (foreign_ports s) (cfg_file s) (fs_writable s)
          (fs_readable s) (clock s) (spawned_saves s) v.

(** [m.Lock()] and [m.Unlock()]. *)
Definition Lock (m : Mutex) (s : State) : State :=
  set_locklog (locklog s ++ [Acquire m]) s.

Definition Unlock (m : Mutex) (s : State) : State :=
  set_locklog (locklog s ++ [Release m]) s.

(** [NewApp()] in a given environment. *)
Definition NewApp (foreign : list Z) (file : option (option (list SocksRule)))
    (now : Z) : State :=
  mkState [] ∅ ∅ ∅ [] [] [] foreign file true true now 0%nat [].

(** The first rule whose id is [id], with its index: the
    [for i := range a.rules { if a.rules[i].ID == id { ...; break } }]
    loop that every method starts with. *)
Definition findRule (id : string) (rs : list SocksRule)
  : option (nat * SocksRule) :=
  list_find (λ r, ID r = id) rs.

(* ===================================================================== *)
(** ** Persistence: [saveRules], [loadRules] *)
(* ===================================================================== *)

(** [func (a *App) saveRules() error]: a copy of the rule list with
    [Running] cleared is written to the configuration file.  Creating
    the directory or writing the file can fail. *)
Definition saveRules (s : State) : option error * State :=
  let saveRules_ := map (set_Running false) (rules s) in
  if fs_writable s
  then (None, set_cfg_file (Some (Some saveRules_)) s)
  else (Some ErrMkdirOrWrite, s).

(** [fmt.Sprintf("rule_%d", n)] *)
Definition rule_name (n : nat) : string := "rule_" +:+ pretty n.

(** The loop of [loadRules] that gives an id to the records without one. *)
Definition assign_missing_ids (loaded : list SocksRule) : list SocksRule :=
  imap (λ i r, if bool_decide (ID r = "") then set_ID (rule_name (i + 1)) r
               else r) loaded.

(** [func (a *App) loadRules() error] *)
Definition loadRules (s : State) : option error * State :=
  let s := Lock AppMu s in
  let '(err, s) :=
    match cfg_file s with
    | None => (None, s)
    | Some content =>
        if negb (fs_readable s) then (Some ErrReadFile, s)
        else match content with
             | None => (Some ErrUnmarshal, s)
             | Some loadedRules =>
                 (None, set_rules (assign_missing_ids loadedRules) s)
             end
    end in
  (err, Unlock AppMu s).

(* ===================================================================== *)
(** ** Traffic counter and instrumented connection *)
(* ===================================================================== *)

(** [3*time.Second] in nanoseconds. *)
Definition sync_interval : Z := 3 * 1000000000.

(** [NewTrafficCounter(app, ruleID)]: allocates the object. *)
Definition NewTrafficCounter (id : string) (s : State) : ptr * State :=
  (length (heap s),
   set_heap (heap s ++ [mkCounter 0 0 id (clock s)]) s).

(** [func (t *TrafficCounter) syncToRule()]; the caller holds [t.mu]. *)
Definition syncToRule (p : ptr) (s : State) : State :=
  let s := Lock AppMu s in
  let s :=
    match heap s !! p with
    | None => s
    | Some t =>
        match findRule (ruleID t) (rules s) with
        | None => s
        | Some (i, rule) =>
            let s := set_rules
                       (<[i := set_traffic
                                 (add64 (UploadBytes rule) (uploadBytes t))
                                 (add64 (DownloadBytes rule) (downloadBytes t))
                                 rule]> (rules s)) s in
            let s := set_heap
                       (<[p := mkCounter 0 0 (ruleID t) (clock s)]> (heap s))
                       s in
            if (i mod 10 =? 0)%nat
            then set_spawned_saves (S (spawned_saves s)) s
            else s
        end
    end in
  Unlock AppMu s.

(** [func (t *TrafficCounter) CountUpload(n int)] *)
Definition CountUpload (p : ptr) (n : Z) (s : State) : State :=
  let s := Lock (CounterMu p) s in
  let s :=
    match heap s !! p with
    | None => s
    | Some t =>
        let s := set_heap
                   (<[p := mkCounter (add64 (uploadBytes t) n)
                                     (downloadBytes t) (ruleID t)
                                     (lastSync t)]> (heap s)) s in
        if clock s - lastSync t >? sync_interval then syncToRule p s else s
    end in
  Unlock (CounterMu p) s.

(** [func (t *TrafficCounter) CountDownload(n int)] *)
Definition CountDownload (p : ptr) (n : Z) (s : State) : State :=
  let s := Lock (CounterMu p) s in
  let s :=
    match heap s !! p with
    | None => s
    | Some t =>
        let s := set_heap
                   (<[p := mkCounter (uploadBytes t)
                                     (add64 (downloadBytes t) n) (ruleID t)
                                     (lastSync t)]> (heap s)) s in
        if clock s - lastSync t >? sync_interval then syncToRule p s else s
    end in
  Unlock (CounterMu p) s.

(** [func (t *TrafficCounter) GetStats() (int64, int64)] *)
Definition GetStats (p : ptr) (s : State) : (Z * Z) * State :=
  let s := Lock (CounterMu p) s in
  let r := match heap s !! p with
           | Some t => (uploadBytes t, downloadBytes t)
           | None => (0, 0)
           end in
  (r, Unlock (CounterMu p) s).

(** [func (c *TrafficConnWrapper) Read(b []byte) (int, error)]: [n] and
    [err] are what the wrapped connection's [Read] returned. *)
Definition TrafficConnWrapper_Read (c : nat) (n : Z) (err : bool) (s : State)
  : (Z * bool) * State :=
  match conns s !! c with
  | None => ((n, err), s)
  | Some w =>
      ((n, err), if n >? 0 then CountDownload (c_counter w) n s else s)
  end.

(** [func (c *TrafficConnWrapper) Write(b []byte) (int, error)] *)
Definition TrafficConnWrapper_Write (c : nat) (n : Z) (err : bool) (s : State)
  : (Z * bool) * State :=
  match conns s !! c with
  | None => ((n, err), s)
  | Some w =>
      ((n, err), if n >? 0 then CountUpload (c_counter w) n s else s)
  end.

(** Time passing between two calls. *)
Definition tick (d : Z) (s : State) : State := set_clock (clock s + d) s.

(* ===================================================================== *)
(** ** Operating system: TCP listeners *)
(* ===================================================================== *)

Definition port_in_use (p : Z) (s : State) : bool :=
  existsb (λ l, l_open l && (l_port l =? p)) (sockets s)
  || existsb (Z.eqb p) (foreign_ports s).

(** [net.Listen("tcp", fmt.Sprintf(":%d", port))]: fails on a port
    outside 0..65535 and on a port that is taken; port 0 asks for any
    free port. *)
Definition net_Listen (port : Z) (s : State) : option (nat * State) :=
  if (0 <=? port) && (port <=? 65535)
     && ((port =? 0) || negb (port_in_use port s))
  then Some (length (sockets s),
             set_sockets (sockets s ++ [mkRaw port true]) s)
  else None.

(** [l.Listener.Close()] of the raw listener: [true] is a [nil] error. *)
Definition raw_Close (h : nat) (s : State) : bool * State :=
  match sockets s !! h with
  | Some l =>
      if l_open l
      then (true, set_sockets (<[h := mkRaw (l_port l) false]> (sockets s)) s)
      else (false, s)
  | None => (false, s)
  end.

(** [func (l *StatsListener) Accept() (net.Conn, error)]: a client
    connects; the new connection is wrapped with the listener's counter
    (never [nil] for a listener built by [startServerLocked]). *)
Definition StatsListener_Accept (l : StatsListener) (s : State)
  : option nat * State :=
  match sockets s !! Listener l, counter l with
  | Some raw, Some p =>
      if l_open raw
      then (Some (length (conns s)), set_conns (conns s ++ [mkConn p]) s)
      else (None, s)
  | _, _ => (None, s)
  end.

(** [func (l *StatsListener) Close() error]: the goroutine it starts
    takes and releases the counter's mutex and does nothing else (the
    flush was taken out of it); then the raw listener is closed. *)
Definition StatsListener_Close (l : StatsListener) (s : State)
  : bool * State :=
  raw_Close (Listener l) s.

(** The accept loop of the instance [id] ([server.Serve(statsListener)])
    takes one client. *)
Definition accept_on (id : string) (s : State) : State :=
  match listeners s !! id with
  | Some l => (StatsListener_Accept l s).2
  | None => s
  end.

(* ===================================================================== *)
(** ** Server lifecycle manager *)
(* ===================================================================== *)

(** The options [startServerLocked] collects in [serverOpts]. *)
Definition serverOpts (rule : SocksRule) : list Option_ :=
  (if EnableUDP rule
   then [WithBindIP "0.0.0.0"; WithRule true true true]
   else [])
  ++ (if negb (NoAuth rule)
      then [WithCredential (Username rule) (Password rule)]
      else []).

(** [func (a *App) startServerLocked(id string) bool].  The UDP
    preflight ([net.ListenUDP] followed at once by [Close]) only prints;
    the goroutine running [server.Serve(statsListener)] shows up as the
    environment calling [StatsListener_Accept]. *)
Definition startServerLocked (id : string) (s : State) : bool * State :=
  match findRule id (rules s) with
  | None => (false, s)
  | Some (i, rule) =>
      if Running rule then (true, s)
      else
        let '(p, s) := NewTrafficCounter id s in
        let s := set_counters (<[id := p]> (counters s)) s in
        let server := socks5_NewServer (serverOpts rule) in
        match net_Listen (Port rule) s with
        | None => (false, s)
        | Some (listener, s) =>
            let statsListener := mkStats listener (counters s !! id) id in
            let s := set_servers (<[id := server]> (servers s)) s in
            let s := set_listeners (<[id := statsListener]> (listeners s)) s in
            let s := set_rules (<[i := set_Running true rule]> (rules s)) s in
            let s := (saveRules s).2 in
            (true, s)
        end
  end.

(** The block of [stopServerLocked] that folds the live counter into the
    rule ("手动同步流量数据"): it reads the counter under its mutex and
    leaves the counter object as it is. *)
Definition drainCounter (id : string) (s : State) : State :=
  match counters s !! id with
  | None => s
  | Some p =>
      let s := Lock (CounterMu p) s in
      let s :=
        match heap s !! p with
        | None => s
        | Some c =>
            if (uploadBytes c >? 0) || (downloadBytes c >? 0)
            then match findRule id (rules s) with
                 | None => s
                 | Some (i, r) =>
                     set_rules
                       (<[i := set_traffic
                                 (add64 (UploadBytes r) (uploadBytes c))
                                 (add64 (DownloadBytes r) (downloadBytes c))
                                 r]> (rules s)) s
                 end
            else s
        end in
      Unlock (CounterMu p) s
  end.

(** The end of [stopServerLocked]: forget counter and server, close and
    forget the listener, persist. *)
Definition teardown (id : string) (s : State) : State :=
  let s := set_counters (delete id (counters s)) s in
  let s := set_servers (delete id (servers s)) s in
  let s :=
    match listeners s !! id with
    | Some listener =>
        let s := (StatsListener_Close listener s).2 in
        set_listeners (delete id (listeners s)) s
    | None => s
    end in
  (saveRules s).2.

(** [func (a *App) stopServerLocked(id string) bool] *)
Definition stopServerLocked (id : string) (s : State) : bool * State :=
  match findRule id (rules s) with
  | None => (false, s)
  | Some (i, rule) =>
      if negb (Running rule) then (false, s)
      else
        let s := set_rules (<[i := set_Running false rule]> (rules s)) s in
        let s := drainCounter id s in
        (true, teardown id s)
  end.

(** [func (a *App) StartServer(id string) bool] *)
Definition StartServer (id : string) (s : State) : bool * State :=
  let s := Lock AppMu s in
  let '(ok, s) := startServerLocked id s in
  (ok, Unlock AppMu s).

(** [func (a *App) StopServer(id string) bool] *)
Definition StopServer (id : string) (s : State) : bool * State :=
  let s := Lock AppMu s in
  let '(ok, s) := stopServerLocked id s in
  (ok, Unlock AppMu s).

(* ===================================================================== *)
(** ** Rule registry *)
(* ===================================================================== *)

(** [func (a *App) GetRules() []SocksRule] *)
Definition GetRules (s : State) : list SocksRule * State :=
  let s := Lock AppMu s in
  (rules s, Unlock AppMu s).

(** [func (a *App) AddRule(rule SocksRule) string] *)
Definition AddRule (rule : SocksRule) (s : State) : string * State :=
  let s := Lock AppMu s in
  let rule := if bool_decide (ID rule = "")
              then set_ID (rule_name (length (rules s) + 1)) rule
              else rule in
  let s := set_rules (rules s ++ [rule]) s in
  let s := (saveRules s).2 in
  (ID rule, Unlock AppMu s).

(** [func (a *App) UpdateRule(rule SocksRule) bool] *)
Definition UpdateRule (rule : SocksRule) (s : State) : bool * State :=
  let s := Lock AppMu s in
  let '(ok, s) :=
    match findRule (ID rule) (rules s) with
    | None => (false, s)
    | Some (i, r) =>
        let originalUploadBytes := UploadBytes r in
        let originalDownloadBytes := DownloadBytes r in
        let wasRunning := Running r in
        let s := if wasRunning then (stopServerLocked (ID rule) s).2 else s in
        let rule := set_traffic originalUploadBytes originalDownloadBytes
                                rule in
        let s := set_rules (<[i := rule]> (rules s)) s in
        let s := if wasRunning && Running rule
                 then (startServerLocked (ID rule) s).2 else s in
        let s := (saveRules s).2 in
        (true, s)
    end in
  (ok, Unlock AppMu s).

(** [func (a *App) DeleteRule(id string) bool] *)
Definition DeleteRule (id : string) (s : State) : bool * State :=
  let s := Lock AppMu s in
  let '(ok, s) :=
    match findRule id (rules s) with
    | None => (false, s)
    | Some (i, rule) =>
        let s := if Running rule then (stopServerLocked id s).2 else s in
        let s := set_rules (take i (rules s) ++ drop (i + 1) (rules s)) s in
        let s := (saveRules s).2 in
        (true, s)
    end in
  (ok, Unlock AppMu s).

(** [func (a *App) GetTrafficStats(id string) (int64, int64, error)] *)
Definition GetTrafficStats (id : string) (s : State)
  : (Z * Z * option error) * State :=
  let s := Lock AppMu s in
  let r := match findRule id (rules s) with
           | Some (_, rule) => (UploadBytes rule, DownloadBytes rule, None)
           | None => (0, 0, Some (ErrRuleNotFound id))
           end in
  (r, Unlock AppMu s).

(** [func (a *App) ResetTrafficStats(id string) error] *)
Definition ResetTrafficStats (id : string) (s : State)
  : option error * State :=
  let s := Lock AppMu s in
  let '(err, s) :=
    match findRule id (rules s) with
    | Some (i, rule) =>
        let s := set_rules (<[i := set_traffic 0 0 rule]> (rules s)) s in
        let s := (saveRules s).2 in
        (None, s)
    | None => (Some (ErrRuleNotFound id), s)
    end in
  (err, Unlock AppMu s).

(* ===================================================================== *)
(** ** Lock discipline *)
(* ===================================================================== *)

Definition is_counter_mutex (m : Mutex) : bool :=
  match m with CounterMu _ => true | AppMu => false end.

Global Instance Mutex_eq_dec : EqDecision Mutex.
Proof. solve_decision. Defined.

(** [order_ok held log]: replaying [log] from the set [held] of mutexes
    already taken, the registry mutex is never requested while a counter
    mutex is held. *)
Fixpoint order_ok (held : list Mutex) (log : list LockEvent) : bool :=
  match log with
  | [] => true
  | Acquire m :: log' =>
      (if m is AppMu then negb (existsb is_counter_mutex held) else true)
      && order_ok (m :: held) log'
  | Release m :: log' =>
      order_ok (filter (λ m', m' ≠ m) held) log'
  end.

(** The mutex operations a call performed: what it appended to the log. *)
Definition lock_trace (s s' : State) : list LockEvent :=
  drop (length (locklog s)) (locklog s').

(** Two goroutines, each with the mutex operations it still has to
    perform, and the mutexes each one holds.  A goroutine can take a
    mutex nobody holds and release one it holds. *)
Record Threads := mkThreads {
  todo1 : list LockEvent;
  held1 : list Mutex;
  todo2 : list LockEvent;
  held2 : list Mutex
}.

Definition can_run (todo : list LockEvent) (mine others : list Mutex) : bool :=
  match todo with
  | [] => false
  | Acquire m :: _ => negb (bool_decide (m ∈ mine)) && negb (bool_decide (m ∈ others))
  | Release m :: _ => bool_decide (m ∈ mine)
  end.

Definition run_event (todo : list LockEvent) (mine : list Mutex)
  : list LockEvent * list Mutex :=
  match todo with
  | [] => ([], mine)
  | Acquire m :: todo' => (todo', m :: mine)
  | Release m :: todo' => (todo', filter (λ m', m' ≠ m) mine)
  end.

(** One scheduling step: [true] runs the first goroutine. *)
Definition sched_step (first : bool) (t : Threads) : option Threads :=
  if first then
    if can_run (todo1 t) (held1 t) (held2 t)
    then let '(td, h) := run_event (todo1 t) (held1 t) in
         Some (mkThreads td h (todo2 t) (held2 t))
    else None
  else
    if can_run (todo2 t) (held2 t) (held1 t)
    then let '(td, h) := run_event (todo2 t) (held2 t) in
         Some (mkThreads (todo1 t) (held1 t) td h)
    else None.

Fixpoint sched_run (sch : list bool) (t : Threads) : option Threads :=
  match sch with
  | [] => Some t
  | b :: sch' =>
      match sched_step b t with
      | Some t' => sched_run sch' t'
      | None => None
      end
  end.

(** Both goroutines have work left and neither can make a step. *)
Definition deadlocked (t : Threads) : bool :=
  negb (bool_decide (todo1 t = [])) && negb (bool_decide (todo2 t = []))
  && negb (can_run (todo1 t) (held1 t) (held2 t))
  && negb (can_run (todo2 t) (held2 t) (held1 t)).

(* ===================================================================== *)
(** ** Traffic as a sequence of events *)
(* ===================================================================== *)

(** What happens to the wrapped connections between two control calls:
    a read or a write returns [n] bytes, or time passes. *)
Inductive IOEvent :=
  | EvRead (c : nat) (n : Z) (err : bool)
  | EvWrite (c : nat) (n : Z) (err : bool)
  | EvTick (d : Z).

Definition io_step (s : State) (e : IOEvent) : State :=
  match e with
  | EvRead c n err => (TrafficConnWrapper_Read c n err s).2
  | EvWrite c n err => (TrafficConnWrapper_Write c n err s).2
  | EvTick d => tick d s
  end.

Definition run_io (evs : list IOEvent) (s : State) : State :=
  foldl io_step s evs.

(** Bytes the interception reports to [CountUpload] / [CountDownload]. *)
Definition counted_up (e : IOEvent) : Z :=
  match e with
  | EvWrite _ n _ => if n >? 0 then n else 0
  | _ => 0
  end.

Definition counted_down (e : IOEvent) : Z :=
  match e with
  | EvRead _ n _ => if n >? 0 then n else 0
  | _ => 0
  end.

Definition total_up (evs : list IOEvent) : Z :=
  foldr (λ e acc, counted_up e + acc) 0 evs.

Definition total_down (evs : list IOEvent) : Z :=
  foldr (λ e acc, counted_down e + acc) 0 evs.

(** The connection an event belongs to reports to counter [p]. *)
Definition event_on (p : ptr) (s : State) (e : IOEvent) : Prop :=
  match e with
  | EvRead c _ _ | EvWrite c _ _ => conns s !! c = Some (mkConn p)
  | EvTick _ => True
  end.

(* ===================================================================== *)
(** ** Auxiliary notions used in the statements *)
(* ===================================================================== *)

(** The state with only the lock log extended: what a call that changes
    no data returns. *)
Definition logged (evs : list LockEvent) (s : State) : State :=
  set_locklog (locklog s ++ evs) s.

(** Every rule has an id: true of the empty registry and kept by every
    operation, see [no_blank_ids_*]. *)
Definition no_blank_ids (rs : list SocksRule) : Prop :=
  Forall (λ r, ID r ≠ "") rs.

(** The id [AddRule] gives to [rule] in a registry of [n] rules. *)
Definition assigned_id (rule : SocksRule) (n : nat) : string :=
  if bool_decide (ID rule = "") then rule_name (n + 1) else ID rule.

(** How many rules carry the id [id]. *)
Definition count_id (id : string) (rs : list SocksRule) : nat :=
  length (filter (λ r, ID r = id) rs).

(** The counter after [t.uploadBytes += int64(n)]. *)
Definition bump_up (n : Z) (t : TrafficCounter) : TrafficCounter :=
  mkCounter (add64 (uploadBytes t) n) (downloadBytes t) (ruleID t) (lastSync t).

Definition bump_down (n : Z) (t : TrafficCounter) : TrafficCounter :=
  mkCounter (uploadBytes t) (add64 (downloadBytes t) n) (ruleID t) (lastSync t).

(** The books of a running instance [id] whose counter object is [p]:
    the rule found for [id] sits at index [i] and is marked running, the
    counter belongs to it, nothing is negative, and the rule's totals
    plus the counter's content come to [U] uploaded and [D] downloaded
    bytes, which fit an [int64]. *)
Definition accounted (id : string) (i : nat) (p : ptr) (U D : Z) (s : State)
  : Prop :=
  ∃ rule c,
    findRule id (rules s) = Some (i, rule) ∧ Running rule = true
    ∧ counters s !! id = Some p ∧ heap s !! p = Some c ∧ ruleID c = id
    ∧ 0 <= UploadBytes rule ∧ 0 <= DownloadBytes rule
    ∧ 0 <= uploadBytes c ∧ 0 <= downloadBytes c
    ∧ UploadBytes rule + uploadBytes c = U
    ∧ DownloadBytes rule + downloadBytes c = D
    ∧ U <= int64_max ∧ D <= int64_max.

(** Counter [p] can be flushed into the rule at index [i]: the object
    exists, its rule is found at [i], and its last flush is not in the
    future. *)
Definition flushable (p : ptr) (i : nat) (s : State) : Prop :=
  ∃ t rule,
    heap s !! p = Some t
    ∧ findRule (ruleID t) (rules s) = Some (i, rule)
    ∧ lastSync t <= clock s.

(* ===================================================================== *)
(** ** Concrete states used as examples *)
(* ===================================================================== *)

(** A fresh application in which port 1080 belongs to another process,
    with one rule asking for that port. *)
Definition busy_state : State :=
  (AddRule (mkRule "" "test" 1080 "" "" true false false 0 0)
           (NewApp [1080] None 0)).2.

(** A fresh application with one rule on port 1080, started. *)
Definition started_state : State :=
  (StartServer "rule_1"
     (AddRule (mkRule "" "test" 1080 "" "" true false false 0 0)
              (NewApp [] None 0)).2).2.

(** The rule the editor sends back for [rule_1]: new port, still marked
    running, byte counts of its own. *)
Definition edited_rule : SocksRule :=
  mkRule "rule_1" "test" 1081 "" "" true true false 999 999.

(** Two rules, both started, one accepted connection each: connection 0
    belongs to [rule_1] (index 0), connection 1 to [rule_2] (index 1). *)
Definition two_rules_state : State :=
  let s := NewApp [] None 0 in
  let s := (AddRule (mkRule "" "a" 1080 "" "" true false false 0 0) s).2 in
  let s := (AddRule (mkRule "" "b" 1081 "" "" true false false 0 0) s).2 in
  let s := (StartServer "rule_1" s).2 in
  let s := (StartServer "rule_2" s).2 in
  accept_on "rule_2" (accept_on "rule_1" s).

(** [k] times: four seconds pass, then one byte is written on
    connection [c]; each write finds the last flush more than three
    seconds old and flushes. *)
Definition flushing_writes (c : nat) (k : nat) : list IOEvent :=
  mjoin (replicate k [EvTick 4000000000; EvWrite c 1 false]).

(** Two rules agree on everything but the running flag. *)
Definition same_config (r r' : SocksRule) : Prop :=
  ID r = ID r' ∧ Name r = Name r' ∧ Port r = Port r'
  ∧ Username r = Username r' ∧ Password r = Password r'
  ∧ NoAuth r = NoAuth r' ∧ EnableUDP r = EnableUDP r'
  ∧ UploadBytes r = UploadBytes r' ∧ DownloadBytes r = DownloadBytes r'.

(** The property claimed of [AddRule]: afterwards exactly one rule has
    the returned id, and that rule has no traffic. *)
Definition addRule_claim (rule : SocksRule) (s : State) : Prop :=
  let id := (AddRule rule s).1 in
  let s' := (AddRule rule s).2 in
  count_id id (rules s') = 1%nat
  ∧ Forall (λ r, ID r = id → UploadBytes r = 0 ∧ DownloadBytes r = 0)
           (rules s').

(** A fresh application with one rule whose id is [a]. *)
Definition one_rule_state : State :=
  (AddRule (mkRule "a" "first" 1080 "" "" true false false 0 0)
           (NewApp [] None 0)).2.

(** [rule_1] running with one connection: 40 bytes written and flushed
    into the rule, then 6 bytes read and 5 written that are still in
    the live counter. *)
Definition traffic_state : State :=
  run_io [EvTick 4000000000; EvWrite 0 40 false;
          EvRead 0 6 false; EvWrite 0 5 false]
         (accept_on "rule_1" started_state).

(* ===================================================================== *)
(** ** Start-up and shutdown *)
(* ===================================================================== *)

(** [func (a *App) startup(ctx context.Context)] *)
Definition startup (s : State) : State := (loadRules s).2.

(** [func (a *App) shutdown(ctx context.Context)]; [order] is the order
    in which [for id := range a.servers] yields the ids. *)
Definition shutdown (order : list string) (s : State) : State :=
  let s := Lock AppMu s in
  let s := (saveRules s).2 in
  let s := foldl (λ s id, (stopServerLocked id s).2) s order in
  let s := set_servers ∅ s in
  let s := set_listeners ∅ s in
  let s := set_counters ∅ s in
  Unlock AppMu s.

(* ===================================================================== *)
(** ** The program as a transition system *)
(* ===================================================================== *)

(** What can happen to the application: start-up, a call of the
    control surface, an accept loop taking a client, traffic and time
    on the wrapped connections, shutdown. *)
Inductive Call :=
  | CallStartup
  | CallGetRules
  | CallAddRule (rule : SocksRule)
  | CallUpdateRule (rule : SocksRule)
  | CallDeleteRule (id : string)
  | CallStartServer (id : string)
  | CallStopServer (id : string)
  | CallGetTrafficStats (id : string)
  | CallResetTrafficStats (id : string)
  | CallAccept (id : string)
  | CallIO (e : IOEvent)
  | CallShutdown (order : list string).

Definition call_step (s : State) (c : Call) : State :=
  match c with
  | CallStartup => startup s
  | CallGetRules => (GetRules s).2
  | CallAddRule rule => (AddRule rule s).2
  | CallUpdateRule rule => (UpdateRule rule s).2
  | CallDeleteRule id => (DeleteRule id s).2
  | CallStartServer id => (StartServer id s).2
  | CallStopServer id => (StopServer id s).2
  | CallGetTrafficStats id => (GetTrafficStats id s).2
  | CallResetTrafficStats id => (ResetTrafficStats id s).2
  | CallAccept id => accept_on id s
  | CallIO e => io_step s e
  | CallShutdown order => shutdown order s
  end.

Definition run_calls (cs : list Call) (s : State) : State :=
  foldl call_step s cs.

(** The rule as [stopServerLocked] leaves it when the counter held [c]:
    stopped, with the counter's bytes added. *)
Definition drained_rule (c : TrafficCounter) (rule : SocksRule) : SocksRule :=
  set_traffic (add64 (UploadBytes rule) (uploadBytes c))
              (add64 (DownloadBytes rule) (downloadBytes c))
              (set_Running false rule).

(* ===================================================================== *)
(** ** Proof automation *)
(* ===================================================================== *)

(** Projections commute with the setters. *)
Ltac proj :=
  cbn [rules servers listeners counters heap conns sockets foreign_ports
       cfg_file fs_writable fs_readable clock spawned_saves locklog
       Lock Unlock logged tick set_rules set_servers set_listeners
       set_counters set_heap set_conns set_sockets set_cfg_file set_clock
       set_spawned_saves set_locklog fst snd].

(* ===================================================================== *)
(** ** The rest of the counter *)
(* ===================================================================== *)

(** [func (t *TrafficCounter) Reset()] *)
Definition Reset (p : ptr) (s : State) : State :=
  let s := Lock (CounterMu p) s in
  let s :=
    match heap s !! p with
    | None => s
    | Some t =>
        set_heap (<[p := mkCounter 0 0 (ruleID t) (lastSync t)]> (heap s)) s
    end in
  Unlock (CounterMu p) s.

(* ===================================================================== *)
(** ** Notions used in the further statements *)
(* ===================================================================== *)

(** The runtime maps agree: a server handle and a listener are
    registered under the same ids, and each of these ids has a
    counter. *)
Definition maps_ok (s : State) : Prop :=
  dom (servers s) = dom (listeners s)
  ∧ dom (listeners s) ⊆ dom (counters s).

(** Every registered listener belongs to a rule that is marked
    running. *)
Definition live_ok (s : State) : Prop :=
  ∀ id l, listeners s !! id = Some l →
          ∃ i r, findRule id (rules s) = Some (i, r) ∧ Running r = true.

(** The configuration file is the one found at start or a snapshot in
    which every record is stopped. *)
Definition file_ok (file0 f : option (option (list SocksRule))) : Prop :=
  f = file0
  ∨ ∃ doc, f = Some (Some doc) ∧ Forall (λ r, Running r = false) doc.

(** The calls of the control surface, start-up and shutdown: everything
    but the traffic on the connections. *)
Definition control_call (c : Call) : bool :=
  match c with
  | CallIO (EvRead _ _ _) | CallIO (EvWrite _ _ _) => false
  | _ => true
  end.

(** A sequence of mutex operations in which counter mutexes are taken
    and released one at a time. *)
Inductive counter_pairs : list LockEvent → Prop :=
  | pairs_nil : counter_pairs []
  | pairs_cons p evs :
      counter_pairs evs →
      counter_pairs (Acquire (CounterMu p) :: Release (CounterMu p) :: evs).

(** Two rules, stopped, that ask for the same port. *)
Definition same_port_state : State :=
  let s := NewApp [] None 0 in
  let s := (AddRule (mkRule "" "a" 1080 "" "" true false false 0 0) s).2 in
  (AddRule (mkRule "" "b" 1080 "u" "pw" false false true 0 0) s).2.

(** One step of the configuration file: left alone, or overwritten with
    a snapshot of some rule list with the running flags cleared. *)
Definition file_step (f f' : option (option (list SocksRule))) : Prop :=
  f' = f ∨ ∃ rs, f' = Some (Some (set_Running false <$> rs)).

(** The mutex operations of a call that respects the order: none at
    all, or the registry mutex around counter mutexes taken one at a
    time. *)
Definition registry_first (tr : list LockEvent) : Prop :=
  tr = []
  ∨ ∃ inner, counter_pairs inner
             ∧ tr = Acquire AppMu :: inner ++ [Release AppMu].

(** A rule before and after some stops: same id, and not running
    afterwards unless it was running before. *)
Definition no_restart (r r' : SocksRule) : Prop :=
  ID r' = ID r ∧ (Running r' = true → Running r = true).

(** The configuration file is a snapshot of the rules in memory. *)
Definition file_in_sync (s : State) : Prop :=
  cfg_file s = Some (Some (set_Running false <$> rules s)).

(** Time an event lets pass, and the time a run of events takes. *)
Definition waited (e : IOEvent) : Z :=
  match e with
  | EvTick d => d
  | _ => 0
  end.

Definition elapsed (evs : list IOEvent) : Z :=
  foldr (λ e acc, waited e + acc) 0 evs.

(** The clock does not run backwards. *)
Definition forward (e : IOEvent) : Prop := 0 <= waited e.

(** What a run of events leaves in counter [p], seen from the counter
    [t] it started with: same rule, same time of the last flush, and the
    counted bytes added where they fit an [int64]. *)
Definition grown_by (evs : list IOEvent) (t t' : TrafficCounter) : Prop :=
  ruleID t' = ruleID t
  ∧ lastSync t' = lastSync t
  ∧ (0 <= uploadBytes t → uploadBytes t + total_up evs <= int64_max →
     uploadBytes t' = uploadBytes t + total_up evs)
  ∧ (0 <= downloadBytes t → downloadBytes t + total_down evs <= int64_max →
     downloadBytes t' = downloadBytes t + total_down evs).

(** The rule [a] is started, a client connects, and the rule is deleted
    while the connection is still open. *)
Definition deleted_rule_state : State :=
  (DeleteRule "a" (accept_on "a" (StartServer "a" one_rule_state).2)).2.

(** What the user entered for a rule: everything but the running flag
    and the traffic totals. *)
Definition settings (r : SocksRule)
  : string * string * Z * string * string * bool * bool :=
  (ID r, Name r, Port r, Username r, Password r, NoAuth r, EnableUDP r).

(** The calls that edit the list of rules. *)
Definition editing_call (c : Call) : bool :=
  match c with
  | CallStartup | CallAddRule _ | CallUpdateRule _ | CallDeleteRule _ => true
  | _ => false
  end.

(* ===================================================================== *)
(** ** The UDP test *)
(* ===================================================================== *)

(** [func (a *App) TestUDP(id string) string].  [resolveErr] and
    [listenErr] are the errors [net.ResolveUDPAddr] and [net.ListenUDP]
    return when they are called ([None]: no error); the socket a
    successful [ListenUDP] opens is closed before the function
    returns. *)
Definition TestUDP (id : string) (resolveErr listenErr : option string)
    (s : State) : string * State :=
  let s := Lock AppMu s in
  let reply :=
    match findRule id (rules s) with
    | None => "错误：未找到规则"
    | Some (_, rule) =>
        if negb (Running rule) then "错误：服务器未运行，请先启动服务器"
        else if negb (EnableUDP rule)
        then "错误：未启用UDP转发，请先启用UDP功能"
        else
          match resolveErr with
          | Some err => "UDP地址解析错误: " +:+ err
          | None =>
              match listenErr with
              | Some err =>
                  "UDP端口 " +:+ pretty (Port rule) +:+ " 监听失败: " +:+ err
              | None =>
                  "UDP端口 " +:+ pretty (Port rule)
                  +:+ " 测试成功：端口可用于UDP通信"
              end
          end
    end in
  (reply, Unlock AppMu s).

(** [edited_rule] with the UDP association switched on. *)
Definition edited_udp_rule : SocksRule :=
  mkRule "rule_1" "test" 1081 "" "" true true true 0 0.

(** From [s] to [s'] the application did not gain or lose the right to
    write its configuration, and if it cannot write, the file is as it
    was. *)
Definition unwritten (s s' : State) : Prop :=
  fs_writable s' = fs_writable s
  ∧ (fs_writable s = false → cfg_file s' = cfg_file s).

(** The environment takes away the right to write the configuration
    directory. *)
Definition revoke_write (s : State) : State :=
  mkState (rules s) (servers s) (listeners s) (counters s) (heap s) (conns s)
          (sockets s) (foreign_ports s) (cfg_file s) false
          (fs_readable s) (clock s) (spawned_saves s) (locklog s).

(* ===================================================================== *)
(** ** Basic facts *)
(* ===================================================================== *)

Lemma wrap64_id z : in_int64 z → wrap64 z = z.
Proof.
  unfold in_int64, int64_min, int64_max, wrap64. intros H.
  rewrite Z.mod_small by lia. lia.
Qed.

Lemma add64_exact a b : in_int64 (a + b) → add64 a b = a + b.
Proof. apply wrap64_id. Qed.

Lemma add64_zero_l a : in_int64 a → add64 0 a = a.
Proof. intros H. unfold add64. rewrite Z.add_0_l. by apply wrap64_id. Qed.

Lemma findRule_Some id rs i r :
  findRule id rs = Some (i, r) → rs !! i = Some r ∧ ID r = id.
Proof.
  unfold findRule. rewrite list_find_Some. intros (H1 & H2 & _). by split.
Qed.

Lemma findRule_lt id rs i r : findRule id rs = Some (i, r) → (i < length rs)%nat.
Proof. intros [H _]%findRule_Some. by eapply lookup_lt_Some. Qed.

(** Overwriting the entry that [findRule] returns with a rule of the same
    id leaves it the first match. *)
Lemma findRule_insert_same id rs i r r' :
  findRule id rs = Some (i, r) → ID r' = id →
  findRule id (<[i := r']> rs) = Some (i, r').
Proof.
  unfold findRule. intros (Hi & _ & Hleast)%list_find_Some Hid.
  apply list_find_insert_Some. right; left.
  split_and!; eauto using lookup_lt_Some.
Qed.

Lemma findRule_None id rs :
  findRule id rs = None ↔ Forall (λ r, ID r ≠ id) rs.
Proof. unfold findRule. apply list_find_None. Qed.

Lemma Unlock_Lock m1 m2 s : Unlock m2 (Lock m1 s) = logged [Acquire m1; Release m2] s.
Proof.
  unfold Unlock, Lock, logged, set_locklog. cbn. by rewrite <- app_assoc.
Qed.

(** [net.Listen] looks at the sockets and the foreign ports only. *)
Lemma net_Listen_frame port s s' :
  sockets s' = sockets s → foreign_ports s' = foreign_ports s →
  net_Listen port s = None → net_Listen port s' = None.
Proof.
  unfold net_Listen, port_in_use. intros -> ->.
  by destruct (_ && _).
Qed.

(* ===================================================================== *)
(** ** Starting a server *)
(* ===================================================================== *)

(** C8.  Starting an instance that is already running (its rule is
    marked running and a listener is registered for the id) returns
    success and changes nothing but the lock log: no counter object and
    no socket is allocated, the three maps are the same, the one
    listener registered for the id is still the same one, and a second
    call behaves in the same way. *)
Theorem StartServer_idempotent id s i rule l :
  findRule id (rules s) = Some (i, rule) →
  Running rule = true →
  listeners s !! id = Some l →
  let s' := (StartServer id s).2 in
  (StartServer id s).1 = true
  ∧ s' = logged [Acquire AppMu; Release AppMu] s
  ∧ heap s' = heap s ∧ sockets s' = sockets s
  ∧ counters s' = counters s ∧ servers s' = servers s
  ∧ listeners s' = listeners s
  ∧ listeners s' !! id = Some l
  ∧ (StartServer id s').1 = true
  ∧ listeners (StartServer id s').2 = listeners s.
Proof.
  intros Hf Hr Hl.
  assert (Hrun : ∀ s0, rules s0 = rules s →
            StartServer id s0 = (true, logged [Acquire AppMu; Release AppMu] s0)).
  { intros s0 E. unfold StartServer, startServerLocked. cbn -[findRule].
    rewrite E, Hf, Hr. by rewrite Unlock_Lock. }
  cbn zeta. rewrite (Hrun s eq_refl). cbn [fst snd].
  rewrite (Hrun (logged _ s) eq_refl). cbn [fst snd].
  split_and!; done.
Qed.

(** On [started_state], where [rule_1] runs. *)
Lemma StartServer_idempotent_witness :
  (StartServer "rule_1" started_state).1 = true
  ∧ listeners (StartServer "rule_1" started_state).2 !! "rule_1"
    = Some (mkStats 0 (Some 0%nat) "rule_1")
  ∧ sockets (StartServer "rule_1" started_state).2 = [mkRaw 1080 true].
Proof.
  pose proof (StartServer_idempotent "rule_1" started_state 0%nat
                (mkRule "rule_1" "test" 1080 "" "" true true false 0 0)
                (mkStats 0 (Some 0%nat) "rule_1")
                eq_refl eq_refl eq_refl) as H.
  cbn zeta in H. destruct H as (H1 & _ & _ & H2 & _ & _ & _ & H3 & _).
  split_and!; [exact H1 | exact H3 | rewrite H2; reflexivity].
Defined.

(** C2.  A stopped rule is started and the bind of its port fails.  The
    call returns failure and leaves the rule list, the servers and the
    listeners as they were, and no socket was created; but the traffic
    counter that [startServerLocked] allocated and registered before
    the bind is still registered under the id. *)
Theorem StartServer_bind_failure id s i rule :
  findRule id (rules s) = Some (i, rule) →
  Running rule = false →
  net_Listen (Port rule) s = None →
  let s' := (StartServer id s).2 in
  (StartServer id s).1 = false
  ∧ counters s' = <[id := length (heap s)]> (counters s)
  ∧ heap s' = heap s ++ [mkCounter 0 0 id (clock s)]
  ∧ servers s' = servers s ∧ listeners s' = listeners s
  ∧ rules s' = rules s ∧ sockets s' = sockets s.
Proof.
  intros Hf Hr Hl. unfold StartServer, startServerLocked.
  cbn -[findRule net_Listen]. rewrite Hf, Hr.
  cbn -[findRule net_Listen].
  erewrite net_Listen_frame; [| | |exact Hl]; [|done..].
  cbn. split_and!; done.
Qed.

(** On [busy_state], where another process holds port 1080. *)
Lemma StartServer_bind_failure_witness :
  (StartServer "rule_1" busy_state).1 = false
  ∧ counters busy_state !! "rule_1" = None
  ∧ counters (StartServer "rule_1" busy_state).2 !! "rule_1" = Some 0%nat.
Proof.
  pose proof (StartServer_bind_failure "rule_1" busy_state 0%nat
                (mkRule "rule_1" "test" 1080 "" "" true false false 0 0)
                eq_refl eq_refl eq_refl) as H.
  cbv zeta in H. destruct H as (H1 & H2 & _).
  split_and!; [exact H1 | reflexivity |].
  rewrite H2. apply lookup_insert_eq.
Defined.

(** The whole picture on [busy_state]: [StartServer] fails, the rule
    stays stopped, no server and no listener is registered, and a
    counter is registered for the id that was not there before. *)
Lemma StartServer_bind_failure_leaves_counter :
  let s' := (StartServer "rule_1" busy_state).2 in
  (StartServer "rule_1" busy_state).1 = false
  ∧ Running <$> rules s' = [false]
  ∧ servers s' !! "rule_1" = None
  ∧ listeners s' !! "rule_1" = None
  ∧ counters busy_state !! "rule_1" = None
  ∧ counters s' !! "rule_1" = Some 0%nat
  ∧ heap s' = [mkCounter 0 0 "rule_1" 0].
Proof. vm_compute. split_and!; reflexivity. Qed.

(* ===================================================================== *)
(** ** Stopping a server *)
(* ===================================================================== *)

Lemma teardown_rules id s : rules (teardown id s) = rules s.
Proof.
  unfold teardown, saveRules, StatsListener_Close, raw_Close. cbn.
  repeat (case_match; cbn; try done).
Qed.

Lemma teardown_heap id s : heap (teardown id s) = heap s.
Proof.
  unfold teardown, saveRules, StatsListener_Close, raw_Close. cbn.
  repeat (case_match; cbn; try done).
Qed.

Lemma teardown_conns id s : conns (teardown id s) = conns s.
Proof.
  unfold teardown, saveRules, StatsListener_Close, raw_Close. cbn.
  repeat (case_match; cbn; try done).
Qed.

Lemma teardown_clock id s : clock (teardown id s) = clock s.
Proof.
  unfold teardown, saveRules, StatsListener_Close, raw_Close. cbn.
  repeat (case_match; cbn; try done).
Qed.

Lemma teardown_sockets_length id s :
  length (sockets (teardown id s)) = length (sockets s).
Proof.
  unfold teardown, saveRules, StatsListener_Close, raw_Close. cbn.
  repeat (case_match; cbn; try done); by rewrite length_insert.
Qed.

(** After the teardown nothing is registered under the id. *)
Lemma teardown_unregisters id s :
  counters (teardown id s) !! id = None
  ∧ servers (teardown id s) !! id = None
  ∧ listeners (teardown id s) !! id = None.
Proof.
  unfold teardown, saveRules, StatsListener_Close, raw_Close. cbn.
  destruct (listeners s !! id) eqn:E; cbn;
    repeat (case_match; cbn); rewrite ?lookup_delete_eq; done.
Qed.

Lemma drainCounter_frame id s :
  heap (drainCounter id s) = heap s
  ∧ conns (drainCounter id s) = conns s
  ∧ counters (drainCounter id s) = counters s
  ∧ servers (drainCounter id s) = servers s
  ∧ listeners (drainCounter id s) = listeners s
  ∧ sockets (drainCounter id s) = sockets s
  ∧ clock (drainCounter id s) = clock s.
Proof.
  unfold drainCounter. cbn -[findRule].
  repeat (case_match; cbn -[findRule]; try done).
Qed.

(** The drain rewrites at most the traffic fields of the rule found. *)
Lemma drainCounter_rules id s i r :
  findRule id (rules s) = Some (i, r) →
  ∃ up down, rules (drainCounter id s) = <[i := set_traffic up down r]> (rules s).
Proof.
  intros Hf. pose proof (findRule_Some _ _ _ _ Hf) as [Hi _].
  assert (Hid : rules s = <[i := set_traffic (UploadBytes r) (DownloadBytes r) r]> (rules s)).
  { symmetry. apply list_insert_id. by destruct r. }
  unfold drainCounter. cbn -[findRule].
  repeat (case_match; cbn -[findRule]; eauto); simplify_eq; eauto.
Qed.

(** [stopServerLocked] on a running rule. *)
Lemma stopServerLocked_running id s i r :
  findRule id (rules s) = Some (i, r) → Running r = true →
  stopServerLocked id s
  = (true, teardown id (drainCounter id
             (set_rules (<[i := set_Running false r]> (rules s)) s))).
Proof.
  intros Hf Hr. unfold stopServerLocked. rewrite Hf. cbv beta iota.
  rewrite Hr. reflexivity.
Qed.

(** [startServerLocked] on a rule that is marked running. *)
Lemma startServerLocked_running id s i r :
  findRule id (rules s) = Some (i, r) → Running r = true →
  startServerLocked id s = (true, s).
Proof.
  intros Hf Hr. unfold startServerLocked. rewrite Hf. cbv beta iota.
  rewrite Hr. reflexivity.
Qed.

(** [saveRules] writes the file and nothing else. *)
Lemma saveRules_frame s :
  rules (saveRules s).2 = rules s
  ∧ servers (saveRules s).2 = servers s
  ∧ listeners (saveRules s).2 = listeners s
  ∧ counters (saveRules s).2 = counters s
  ∧ heap (saveRules s).2 = heap s
  ∧ conns (saveRules s).2 = conns s
  ∧ sockets (saveRules s).2 = sockets s
  ∧ clock (saveRules s).2 = clock s.
Proof. unfold saveRules. by destruct (fs_writable s). Qed.

(* ===================================================================== *)
(** ** Counting, flushing and draining, step by step *)
(* ===================================================================== *)

Lemma CountUpload_flush p n s t :
  heap s !! p = Some t →
  clock s - lastSync t > sync_interval →
  CountUpload p n s
  = Unlock (CounterMu p)
      (syncToRule p (set_heap (<[p := bump_up n t]> (heap s))
                              (Lock (CounterMu p) s))).
Proof.
  intros Hp Ht. unfold CountUpload. cbv zeta.
  change (heap (Lock (CounterMu p) s)) with (heap s). rewrite Hp.
  cbv beta iota.
  change (clock (set_heap _ _)) with (clock s).
  change (lastSync _) with (lastSync t) at 2.
  by rewrite (proj2 (Z.gtb_gt _ _) Ht).
Qed.

Lemma CountUpload_keep p n s t :
  heap s !! p = Some t →
  ¬ clock s - lastSync t > sync_interval →
  CountUpload p n s
  = Unlock (CounterMu p)
      (set_heap (<[p := bump_up n t]> (heap s)) (Lock (CounterMu p) s)).
Proof.
  intros Hp Ht. unfold CountUpload. cbv zeta.
  change (heap (Lock (CounterMu p) s)) with (heap s). rewrite Hp.
  cbv beta iota.
  change (clock (set_heap _ _)) with (clock s).
  destruct (Z.gtb_spec (clock s - lastSync t) sync_interval); [lia|done].
Qed.

Lemma CountDownload_flush p n s t :
  heap s !! p = Some t →
  clock s - lastSync t > sync_interval →
  CountDownload p n s
  = Unlock (CounterMu p)
      (syncToRule p (set_heap (<[p := bump_down n t]> (heap s))
                              (Lock (CounterMu p) s))).
Proof.
  intros Hp Ht. unfold CountDownload. cbv zeta.
  change (heap (Lock (CounterMu p) s)) with (heap s). rewrite Hp.
  cbv beta iota.
  change (clock (set_heap _ _)) with (clock s).
  destruct (Z.gtb_spec (clock s - lastSync t) sync_interval); [done|lia].
Qed.

Lemma CountDownload_keep p n s t :
  heap s !! p = Some t →
  ¬ clock s - lastSync t > sync_interval →
  CountDownload p n s
  = Unlock (CounterMu p)
      (set_heap (<[p := bump_down n t]> (heap s)) (Lock (CounterMu p) s)).
Proof.
  intros Hp Ht. unfold CountDownload. cbv zeta.
  change (heap (Lock (CounterMu p) s)) with (heap s). rewrite Hp.
  cbv beta iota.
  change (clock (set_heap _ _)) with (clock s).
  destruct (Z.gtb_spec (clock s - lastSync t) sync_interval); [lia|done].
Qed.

(** The drain of a counter that holds bytes: they are added to the rule;
    nothing else changes, the counter included. *)
Lemma drainCounter_loaded id s i r p c :
  counters s !! id = Some p →
  heap s !! p = Some c →
  uploadBytes c > 0 ∨ downloadBytes c > 0 →
  findRule id (rules s) = Some (i, r) →
  drainCounter id s
  = Unlock (CounterMu p)
      (set_rules (<[i := set_traffic (add64 (UploadBytes r) (uploadBytes c))
                                      (add64 (DownloadBytes r) (downloadBytes c))
                                      r]> (rules s))
                 (Lock (CounterMu p) s)).
Proof.
  intros Hc Hp Hpos Hf. unfold drainCounter. rewrite Hc. cbv zeta beta iota.
  change (heap (Lock (CounterMu p) s)) with (heap s). rewrite Hp.
  change (rules (Lock (CounterMu p) s)) with (rules s). rewrite Hf.
  assert ((uploadBytes c >? 0) || (downloadBytes c >? 0) = true) as ->.
  { apply orb_true_iff. rewrite !Z.gtb_gt. lia. }
  reflexivity.
Qed.

(** The drain of an empty counter changes nothing but the lock log. *)
Lemma drainCounter_empty id s p c :
  counters s !! id = Some p →
  heap s !! p = Some c →
  ¬ (uploadBytes c > 0 ∨ downloadBytes c > 0) →
  drainCounter id s = Unlock (CounterMu p) (Lock (CounterMu p) s).
Proof.
  intros Hc Hp Hpos. unfold drainCounter. rewrite Hc. cbv zeta beta iota.
  change (heap (Lock (CounterMu p) s)) with (heap s). rewrite Hp.
  assert ((uploadBytes c >? 0) || (downloadBytes c >? 0) = false) as ->.
  { apply orb_false_iff. rewrite !Z.gtb_ltb, !Z.ltb_ge. lia. }
  reflexivity.
Qed.

Lemma StopServer_running id s i r :
  findRule id (rules s) = Some (i, r) → Running r = true →
  StopServer id s
  = (true, Unlock AppMu
             (teardown id
                (drainCounter id
                   (set_rules (<[i := set_Running false r]> (rules s))
                              (Lock AppMu s))))).
Proof.
  intros Hf Hr. unfold StopServer. cbv zeta.
  by rewrite (stopServerLocked_running id (Lock AppMu s) i r Hf Hr).
Qed.

Lemma Write_counts k n err s p :
  conns s !! k = Some (mkConn p) → n > 0 →
  (TrafficConnWrapper_Write k n err s).2 = CountUpload p n s.
Proof.
  intros Hk Hn. unfold TrafficConnWrapper_Write. rewrite Hk.
  cbn [snd c_counter]. by rewrite (proj2 (Z.gtb_gt _ _) Hn).
Qed.

Lemma Read_counts k n err s p :
  conns s !! k = Some (mkConn p) → n > 0 →
  (TrafficConnWrapper_Read k n err s).2 = CountDownload p n s.
Proof.
  intros Hk Hn. unfold TrafficConnWrapper_Read. rewrite Hk.
  cbn [snd c_counter]. by rewrite (proj2 (Z.gtb_gt _ _) Hn).
Qed.

Lemma Write_nothing k n err s : ¬ n > 0 → (TrafficConnWrapper_Write k n err s).2 = s.
Proof.
  intros Hn. unfold TrafficConnWrapper_Write.
  destruct (conns s !! k); [|done]. cbn [snd].
  destruct (Z.gtb_spec n 0); [lia|done].
Qed.

Lemma Read_nothing k n err s : ¬ n > 0 → (TrafficConnWrapper_Read k n err s).2 = s.
Proof.
  intros Hn. unfold TrafficConnWrapper_Read.
  destruct (conns s !! k); [|done]. cbn [snd].
  destruct (Z.gtb_spec n 0); [lia|done].
Qed.

(* ===================================================================== *)
(** ** Updating a rule *)
(* ===================================================================== *)

(** C3.  A running rule is updated with a rule that is marked running.
    The stored rule keeps the byte counts of the existing entry,
    whatever the caller sent.  The instance is stopped, the new rule is
    stored with [Running = true], and [startServerLocked] then finds
    the rule marked running and returns at once: afterwards no
    listener, server or counter is registered for the id and no socket
    was created.  The restart does not happen. *)
Theorem UpdateRule_running_no_restart rule s i r :
  findRule (ID rule) (rules s) = Some (i, r) →
  Running r = true →
  Running rule = true →
  let s' := (UpdateRule rule s).2 in
  (UpdateRule rule s).1 = true
  ∧ rules s' = <[i := set_traffic (UploadBytes r) (DownloadBytes r) rule]> (rules s)
  ∧ listeners s' !! ID rule = None
  ∧ servers s' !! ID rule = None
  ∧ counters s' !! ID rule = None
  ∧ length (sockets s') = length (sockets s).
Proof.
  intros Hf Hr Hrule.
  set (r1 := set_Running false r).
  set (s1 := set_rules (<[i := r1]> (rules s)) (Lock AppMu s)).
  set (s2 := teardown (ID rule) (drainCounter (ID rule) s1)).
  set (rule' := set_traffic (UploadBytes r) (DownloadBytes r) rule).
  set (s3 := set_rules (<[i := rule']> (rules s2)) s2).
  assert (Hf1 : findRule (ID rule) (rules s1) = Some (i, r1)).
  { apply findRule_insert_same with (r := r); [done|].
    by apply findRule_Some in Hf as [_ ?]. }
  destruct (drainCounter_rules _ _ _ _ Hf1) as (up & down & Hd).
  destruct (drainCounter_frame (ID rule) s1) as (_ & _ & _ & _ & _ & Hsock & _).
  pose proof (teardown_unregisters (ID rule) (drainCounter (ID rule) s1))
    as (Hc & Hs & Hl).
  pose proof (teardown_rules (ID rule) (drainCounter (ID rule) s1)) as Htr.
  pose proof (teardown_sockets_length (ID rule) (drainCounter (ID rule) s1))
    as Hlen.
  assert (Hrules3 : rules s3 = <[i := rule']> (rules s)).
  { subst s3 s2. cbn [rules set_rules]. rewrite Htr, Hd. subst s1.
    cbn [rules set_rules]. by rewrite !list_insert_insert_eq. }
  assert (Hf3 : findRule (ID rule) (rules s3) = Some (i, rule')).
  { rewrite Hrules3. by apply findRule_insert_same with (r := r). }
  assert (E : UpdateRule rule s = (true, Unlock AppMu (saveRules s3).2)).
  { unfold UpdateRule. cbv zeta.
    change (rules (Lock AppMu s)) with (rules s).
    rewrite Hf. cbv beta iota. rewrite Hr. cbv beta iota.
    rewrite (stopServerLocked_running (ID rule) (Lock AppMu s) i r Hf Hr).
    change (Running (set_traffic (UploadBytes r) (DownloadBytes r) rule))
      with (Running rule).
    rewrite Hrule. cbv beta iota.
    change (ID (set_traffic (UploadBytes r) (DownloadBytes r) rule))
      with (ID rule).
    cbn [fst snd andb]. change (rules (Lock AppMu s)) with (rules s).
    fold r1 s1 s2 rule' s3.
    rewrite (startServerLocked_running (ID rule) s3 i rule' Hf3 Hrule).
    reflexivity. }
  cbv zeta. rewrite E. cbn [fst snd].
  destruct (saveRules_frame s3) as (R1 & R2 & R3 & R4 & _ & _ & R7 & _).
  change (rules (Unlock AppMu (saveRules s3).2)) with (rules (saveRules s3).2).
  change (listeners (Unlock AppMu (saveRules s3).2)) with (listeners (saveRules s3).2).
  change (servers (Unlock AppMu (saveRules s3).2)) with (servers (saveRules s3).2).
  change (counters (Unlock AppMu (saveRules s3).2)) with (counters (saveRules s3).2).
  change (sockets (Unlock AppMu (saveRules s3).2)) with (sockets (saveRules s3).2).
  rewrite R1, R2, R3, R4, R7.
  split_and!; [done | done | exact Hl | exact Hs | exact Hc |].
  change (sockets s3) with (sockets s2). subst s2. rewrite Hlen, Hsock. done.
Qed.

(** On [started_state], with the rule the editor sends. *)
Lemma UpdateRule_running_no_restart_witness :
  (UpdateRule edited_rule started_state).1 = true
  ∧ rules (UpdateRule edited_rule started_state).2
    = [mkRule "rule_1" "test" 1081 "" "" true true false 0 0]
  ∧ listeners (UpdateRule edited_rule started_state).2 !! "rule_1" = None.
Proof.
  pose proof (UpdateRule_running_no_restart edited_rule started_state 0%nat
                (mkRule "rule_1" "test" 1080 "" "" true true false 0 0)
                eq_refl eq_refl eq_refl) as H.
  cbv zeta in H. destruct H as (H1 & H2 & H3 & _).
  split_and!; [exact H1 | rewrite H2; reflexivity | exact H3].
Defined.

(** The whole picture on [started_state]: [rule_1] runs on port 1080
    with a live listener; it is updated to port 1081 and sent marked
    running.  [UpdateRule] reports success and the stored rule says
    running on port 1081 with the old byte counts, but nothing is
    registered for the id and the only socket is the old one, closed. *)
Lemma UpdateRule_running_rule_not_restarted :
  let s' := (UpdateRule edited_rule started_state).2 in
  findRule "rule_1" (rules started_state)
    = Some (0%nat, mkRule "rule_1" "test" 1080 "" "" true true false 0 0)
  ∧ listeners started_state !! "rule_1" = Some (mkStats 0 (Some 0%nat) "rule_1")
  ∧ (UpdateRule edited_rule started_state).1 = true
  ∧ rules s' = [mkRule "rule_1" "test" 1081 "" "" true true false 0 0]
  ∧ listeners s' !! "rule_1" = None
  ∧ servers s' !! "rule_1" = None
  ∧ counters s' !! "rule_1" = None
  ∧ sockets s' = [mkRaw 1080 false].
Proof. vm_compute. split_and!; reflexivity. Qed.

(* ===================================================================== *)
(** ** Flushing *)
(* ===================================================================== *)

(** Whether a flush starts [go a.saveRules()] depends on the position
    of the rule in the list and on nothing else. *)
Lemma syncToRule_spawned p s t i rule :
  heap s !! p = Some t →
  findRule (ruleID t) (rules s) = Some (i, rule) →
  spawned_saves (syncToRule p s)
  = if (i mod 10 =? 0)%nat then S (spawned_saves s) else spawned_saves s.
Proof.
  intros Hp Hf. unfold syncToRule. cbn -[findRule Nat.modulo].
  rewrite Hp, Hf. by destruct (_ =? _)%nat.
Qed.

(** What a flush does to the rule and to the counter. *)
Lemma syncToRule_flush p s t i rule :
  heap s !! p = Some t →
  findRule (ruleID t) (rules s) = Some (i, rule) →
  rules (syncToRule p s)
  = <[i := set_traffic (add64 (UploadBytes rule) (uploadBytes t))
                       (add64 (DownloadBytes rule) (downloadBytes t)) rule]>
      (rules s)
  ∧ heap (syncToRule p s) = <[p := mkCounter 0 0 (ruleID t) (clock s)]> (heap s)
  ∧ conns (syncToRule p s) = conns s
  ∧ counters (syncToRule p s) = counters s
  ∧ listeners (syncToRule p s) = listeners s
  ∧ clock (syncToRule p s) = clock s.
Proof.
  intros Hp Hf. unfold syncToRule. cbn -[findRule Nat.modulo].
  rewrite Hp, Hf. by destruct (_ =? _)%nat.
Qed.

Lemma run_io_app evs evs' s : run_io (evs ++ evs') s = run_io evs' (run_io evs s).
Proof. unfold run_io. apply foldl_app. Qed.

(** After four seconds a write of one byte flushes, and whether the
    flush starts a save is decided by the index of the rule. *)
Lemma flushing_write_spawned p i c s :
  flushable p i s →
  conns s !! c = Some (mkConn p) →
  let s' := run_io [EvTick 4000000000; EvWrite c 1 false] s in
  flushable p i s'
  ∧ conns s' = conns s
  ∧ spawned_saves s'
    = if (i mod 10 =? 0)%nat then S (spawned_saves s) else spawned_saves s.
Proof.
  intros (t & rule & Hp & Hf & Hlast) Hc. cbv zeta.
  unfold run_io. cbn [foldl io_step].
  set (s1 := tick 4000000000 s).
  assert (Hp1 : heap s1 !! p = Some t) by exact Hp.
  assert (Hc1 : conns s1 !! c = Some (mkConn p)) by exact Hc.
  assert (Hstale : clock s1 - lastSync t > sync_interval).
  { subst s1. unfold tick, sync_interval. proj. lia. }
  rewrite (Write_counts c 1 false s1 p Hc1) by lia.
  rewrite (CountUpload_flush p 1 s1 t Hp1 Hstale).
  set (s2 := set_heap _ _).
  assert (Hp2 : heap s2 !! p = Some (bump_up 1 t)).
  { subst s2. proj. apply list_lookup_insert_eq. by eapply lookup_lt_Some. }
  assert (Hf2 : findRule (ruleID (bump_up 1 t)) (rules s2) = Some (i, rule))
    by exact Hf.
  destruct (syncToRule_flush p s2 _ i _ Hp2 Hf2)
    as (Hr3 & Hh3 & Hc3 & _ & _ & Hk3).
  pose proof (syncToRule_spawned p s2 _ i _ Hp2 Hf2) as Hs3.
  split_and!.
  - eexists (mkCounter 0 0 (ruleID t) (clock s2)), _.
    change (heap (Unlock (CounterMu p) ?x)) with (heap x).
    change (rules (Unlock (CounterMu p) ?x)) with (rules x).
    change (clock (Unlock (CounterMu p) ?x)) with (clock x).
    rewrite Hr3, Hh3, Hk3. split_and!.
    + apply list_lookup_insert_eq. by eapply lookup_lt_Some.
    + cbn [ruleID]. apply findRule_insert_same with (r := rule); [exact Hf|].
      cbn. by apply findRule_Some in Hf as [_ ->].
    + cbn. lia.
  - change (conns (Unlock (CounterMu p) ?x)) with (conns x). by rewrite Hc3.
  - change (spawned_saves (Unlock (CounterMu p) ?x)) with (spawned_saves x).
    by rewrite Hs3.
Qed.

(** C4.  An instance whose counter flushes into the rule at index [i]
    performs [k] flushes, one every four seconds.  When [i] is not a
    multiple of ten none of them starts a persistence write, however
    large [k] is; when it is, every flush starts one.  The number of
    flushes performed plays no part. *)
Theorem flushes_spawn_by_index p i c k : ∀ s,
  flushable p i s →
  conns s !! c = Some (mkConn p) →
  spawned_saves (run_io (flushing_writes c k) s)
  = if (i mod 10 =? 0)%nat then (spawned_saves s + k)%nat
    else spawned_saves s.
Proof.
  induction k as [|k IH]; intros s Hfl Hc.
  - cbn. destruct (_ =? _)%nat; lia.
  - unfold flushing_writes. cbn [replicate mjoin list_join].
    fold (flushing_writes c k). rewrite run_io_app.
    destruct (flushing_write_spawned p i c s Hfl Hc) as (Hfl' & Hc' & Hs').
    rewrite IH; [|done|by rewrite Hc'].
    rewrite Hs'. destruct (_ =? _)%nat; lia.
Qed.

(** On [two_rules_state]: ten flushes of [rule_2]'s counter. *)
Lemma flushes_spawn_by_index_witness :
  spawned_saves (run_io (flushing_writes 1 10) two_rules_state) = 0%nat.
Proof.
  assert (Hfl : flushable 1%nat 1%nat two_rules_state).
  { exists (mkCounter 0 0 "rule_2" 0),
           (mkRule "rule_2" "b" 1081 "" "" true true false 0 0).
    split_and!; [reflexivity | reflexivity | vm_compute; discriminate]. }
  exact (flushes_spawn_by_index 1%nat 1%nat 1%nat 10%nat two_rules_state
           Hfl eq_refl).
Defined.

(** On [two_rules_state]: ten flushes in a row for the instance of
    [rule_2], the second
    rule of the list: every one of them moved the byte into the rule
    (ten bytes in the rule, counter empty), and none started a save.
    For [rule_1], the first rule of the list, the first flush starts a
    save at once, and ten flushes start ten. *)
Lemma flush_persistence_example :
  let s10 := run_io (flushing_writes 1 10) two_rules_state in
  let s1 := run_io (flushing_writes 0 1) two_rules_state in
  let s10' := run_io (flushing_writes 0 10) two_rules_state in
  spawned_saves two_rules_state = 0%nat
  ∧ UploadBytes <$> rules s10 = [0; 10]
  ∧ uploadBytes <$> heap s10 = [0; 0]
  ∧ spawned_saves s10 = 0%nat
  ∧ UploadBytes <$> rules s1 = [1; 0]
  ∧ spawned_saves s1 = 1%nat
  ∧ UploadBytes <$> rules s10' = [10; 0]
  ∧ spawned_saves s10' = 10%nat.
Proof. vm_compute. split_and!; reflexivity. Qed.

(* ===================================================================== *)
(** ** Persistence *)
(* ===================================================================== *)

Lemma rule_name_not_blank n : rule_name n ≠ "".
Proof. unfold rule_name. discriminate. Qed.

(** Loading gives ids to the blank entries only. *)
Lemma assign_missing_ids_id rs :
  no_blank_ids rs → assign_missing_ids rs = rs.
Proof.
  unfold assign_missing_ids, no_blank_ids. intros H.
  apply list_eq. intros i. rewrite list_lookup_imap.
  destruct (rs !! i) as [r|] eqn:E; [|done]. cbn.
  rewrite bool_decide_eq_false_2; [done|].
  by eapply Forall_lookup_1 in H.
Qed.

Lemma assign_missing_ids_no_blank rs : no_blank_ids (assign_missing_ids rs).
Proof.
  unfold assign_missing_ids, no_blank_ids. apply Forall_lookup_2.
  intros i r. rewrite list_lookup_imap.
  destruct (rs !! i) as [r0|]; [|done]. cbn. intros [= <-].
  case_bool_decide; [apply rule_name_not_blank | done].
Qed.

Lemma same_config_clear_running r : same_config (set_Running false r) r.
Proof. by repeat split. Qed.

(** C6.  Saving the rule list and loading it back, when the file can be
    written and read, gives the same rules in the same order with
    [Running] cleared: same ids, same configuration, same byte counts,
    every entry stopped.  The rules are assumed to have ids, as they
    do in every state the program reaches ([no_blank_ids_reachable]
    below). *)
Theorem save_load_roundtrip s :
  no_blank_ids (rules s) →
  (saveRules s).1 = None →
  fs_readable s = true →
  let s' := (loadRules (saveRules s).2).2 in
  (loadRules (saveRules s).2).1 = None
  ∧ rules s' = set_Running false <$> rules s
  ∧ ID <$> rules s' = ID <$> rules s
  ∧ Forall2 same_config (rules s') (rules s)
  ∧ Forall (λ r, Running r = false) (rules s').
Proof.
  intros Hids Hsave Hread. unfold saveRules in *.
  destruct (fs_writable s) eqn:Hw; [|done].
  unfold loadRules. cbn. rewrite Hread. cbn.
  assert (Hnb : no_blank_ids (map (set_Running false) (rules s))).
  { unfold no_blank_ids in *. rewrite Forall_fmap.
    eapply Forall_impl; [exact Hids|]. by intros []. }
  rewrite (assign_missing_ids_id _ Hnb).
  split_and!; [done | done | | |].
  - rewrite <- list_fmap_compose. apply list_fmap_ext. by intros ? [].
  - apply Forall2_fmap_l, Forall_Forall2_diag, Forall_forall.
    intros r _. apply same_config_clear_running.
  - rewrite Forall_fmap. apply Forall_forall. by intros [].
Qed.

(** On [two_rules_state], where both rules run. *)
Lemma save_load_roundtrip_witness :
  rules (loadRules (saveRules two_rules_state).2).2
  = [mkRule "rule_1" "a" 1080 "" "" true false false 0 0;
     mkRule "rule_2" "b" 1081 "" "" true false false 0 0]
  ∧ Running <$> rules two_rules_state = [true; true].
Proof.
  assert (Hids : no_blank_ids (rules two_rules_state)).
  { unfold no_blank_ids. apply (bool_decide_unpack _). by vm_compute. }
  assert (Hsave : (saveRules two_rules_state).1 = None)
    by (vm_compute; reflexivity).
  assert (Hread : fs_readable two_rules_state = true)
    by (vm_compute; reflexivity).
  pose proof (save_load_roundtrip two_rules_state Hids Hsave Hread) as H.
  cbn zeta in H. destruct H as (_ & H & _).
  split; [rewrite H|]; vm_compute; reflexivity.
Defined.

(* ===================================================================== *)
(** ** Adding a rule *)
(* ===================================================================== *)

(** [AddRule] appends the rule it was given, with the assigned id. *)
Lemma AddRule_spec rule s :
  (AddRule rule s).1 = assigned_id rule (length (rules s))
  ∧ rules (AddRule rule s).2
    = rules s ++ [set_ID (assigned_id rule (length (rules s))) rule].
Proof.
  unfold AddRule, assigned_id, saveRules. cbn.
  case_bool_decide; case_match; cbn; split; try done.
  all: by destruct rule; cbn in *; subst.
Qed.

Lemma count_id_app id rs rs' :
  count_id id (rs ++ rs') = (count_id id rs + count_id id rs')%nat.
Proof. unfold count_id. by rewrite filter_app, length_app. Qed.

Lemma count_id_absent id rs : findRule id rs = None → count_id id rs = 0%nat.
Proof.
  rewrite findRule_None. unfold count_id. intros H.
  induction H as [|r rs Hr _ IH]; [done|].
  rewrite filter_cons. by rewrite decide_False.
Qed.

(** [AddRule] stores what it is given.  A rule added with 7 and 9 bytes
    has them afterwards, and a non-blank id is stored as it is: adding
    a second rule with id [a] leaves two rules with that id. *)
Lemma AddRule_claim_counterexample :
  ¬ addRule_claim (mkRule "a" "x" 1080 "" "" true false false 7 9)
                  (NewApp [] None 0)
  ∧ ¬ addRule_claim (mkRule "a" "second" 1081 "" "" true false false 0 0)
                    one_rule_state.
Proof.
  split.
  - intros [_ H]. apply Forall_inv in H. cbn in H.
    destruct (H eq_refl) as [? _]. discriminate.
  - intros [H _]. vm_compute in H. discriminate.
Qed.

(** As long as the id is not in the list yet.  A rule added with zero
    byte counts whose id (the given one, or [rule_<n+1>] for a blank
    one) no rule carries: the call returns that id, appends the rule
    under it, exactly one rule has the id afterwards, that rule has no
    traffic, and ids that were unique stay unique. *)
Theorem AddRule_fresh_id rule s :
  UploadBytes rule = 0 →
  DownloadBytes rule = 0 →
  findRule (assigned_id rule (length (rules s))) (rules s) = None →
  let id := (AddRule rule s).1 in
  let s' := (AddRule rule s).2 in
  id = assigned_id rule (length (rules s))
  ∧ rules s' = rules s ++ [set_ID id rule]
  ∧ count_id id (rules s') = 1%nat
  ∧ Forall (λ r, ID r = id → UploadBytes r = 0 ∧ DownloadBytes r = 0)
           (rules s')
  ∧ (NoDup (ID <$> rules s) → NoDup (ID <$> rules s')).
Proof.
  intros Hup Hdown Hfresh. cbn zeta.
  destruct (AddRule_spec rule s) as [-> ->].
  set (id := assigned_id rule (length (rules s))) in *.
  split_and!; [done | done | | |].
  - rewrite count_id_app, (count_id_absent _ _ Hfresh).
    unfold count_id. rewrite filter_cons, decide_True by done. done.
  - apply Forall_app. split.
    + apply findRule_None in Hfresh.
      eapply Forall_impl; [exact Hfresh|]. intros r Hne Heq. done.
    + apply Forall_singleton. by intros _.
  - intros Hnd. rewrite fmap_app. cbn.
    apply NoDup_app. split_and!; [done | | apply NoDup_singleton].
    intros x Hx ->%list_elem_of_singleton.
    apply list_elem_of_fmap in Hx as (r & Hr & Hin).
    apply findRule_None in Hfresh.
    rewrite Forall_forall in Hfresh. by apply (Hfresh r Hin).
Qed.

Lemma AddRule_fresh_id_witness :
  (AddRule (mkRule "" "second" 1081 "" "" true false false 0 0)
           one_rule_state).1 = "rule_2"
  ∧ count_id "rule_2"
      (rules (AddRule (mkRule "" "second" 1081 "" "" true false false 0 0)
                      one_rule_state).2) = 1%nat.
Proof.
  pose proof (AddRule_fresh_id
                (mkRule "" "second" 1081 "" "" true false false 0 0)
                one_rule_state eq_refl eq_refl eq_refl) as H.
  cbn zeta in H. destruct H as (H1 & _ & H3 & _).
  split; [exact H1 | exact H3].
Defined.

(** Blank ids are numbered by the length of the list, so after a
    deletion the next blank rule gets an id that is in use: add two
    rules, delete [rule_1], add a third. *)
Lemma AddRule_auto_id_collision :
  let s := NewApp [] None 0 in
  let blank := mkRule "" "x" 1080 "" "" true false false 0 0 in
  let s := (AddRule blank s).2 in
  let s := (AddRule blank s).2 in
  let s := (DeleteRule "rule_1" s).2 in
  (AddRule blank s).1 = "rule_2"
  ∧ ID <$> rules (AddRule blank s).2 = ["rule_2"; "rule_2"].
Proof. vm_compute. split; reflexivity. Qed.

(* ===================================================================== *)
(** ** Resetting the traffic of a rule *)
(* ===================================================================== *)

(** C9.  On an unknown id [ResetTrafficStats] returns the not-found
    error and changes nothing but the lock log.  On a known id it
    returns no error and zeroes the two byte counts of the rule; the
    counter objects and the counter map are untouched, so when the
    instance is running the next flush of its counter puts the bytes
    accumulated before the reset into the rule's totals. *)
Theorem ResetTrafficStats_spec id s :
  (findRule id (rules s) = None →
     ResetTrafficStats id s
     = (Some (ErrRuleNotFound id), logged [Acquire AppMu; Release AppMu] s))
  ∧ (∀ i rule, findRule id (rules s) = Some (i, rule) →
       let s' := (ResetTrafficStats id s).2 in
       (ResetTrafficStats id s).1 = None
       ∧ rules s' = <[i := set_traffic 0 0 rule]> (rules s)
       ∧ heap s' = heap s
       ∧ counters s' = counters s
       ∧ ∀ p t, counters s !! id = Some p →
                heap s !! p = Some t →
                ruleID t = id →
                in_int64 (uploadBytes t) →
                in_int64 (downloadBytes t) →
                rules (syncToRule p s') !! i
                = Some (set_traffic (uploadBytes t) (downloadBytes t) rule)).
Proof.
  split.
  - intros Hf. unfold ResetTrafficStats. cbn -[findRule]. rewrite Hf.
    by rewrite Unlock_Lock.
  - intros i rule Hf. cbn zeta.
    assert (E : (ResetTrafficStats id s).1 = None
              ∧ rules (ResetTrafficStats id s).2
                = <[i := set_traffic 0 0 rule]> (rules s)
              ∧ heap (ResetTrafficStats id s).2 = heap s
              ∧ counters (ResetTrafficStats id s).2 = counters s).
    { unfold ResetTrafficStats, saveRules. cbn -[findRule]. rewrite Hf.
      cbn. by case_match. }
    destruct E as (E1 & E2 & E3 & E4). split_and!; try done.
    intros p t Hc Hp Ht Hup Hdown.
    set (s' := (ResetTrafficStats id s).2) in *.
    assert (Hf' : findRule (ruleID t) (rules s')
                  = Some (i, set_traffic 0 0 rule)).
    { rewrite E2, Ht. apply findRule_insert_same with (r := rule); [done|].
      by apply findRule_Some in Hf as [_ ?]. }
    assert (Hp' : heap s' !! p = Some t) by by rewrite E3.
    destruct (syncToRule_flush p s' t i _ Hp' Hf') as (-> & _).
    rewrite list_lookup_insert_eq.
    + cbn. by rewrite !add64_zero_l.
    + rewrite E2, length_insert. by eapply findRule_lt.
Qed.

Lemma ResetTrafficStats_spec_witness :
  (ResetTrafficStats "nope" traffic_state).1 = Some (ErrRuleNotFound "nope")
  ∧ rules (ResetTrafficStats "rule_1" traffic_state).2
    = [mkRule "rule_1" "test" 1080 "" "" true true false 0 0]
  ∧ rules (syncToRule 0%nat (ResetTrafficStats "rule_1" traffic_state).2)
    = [mkRule "rule_1" "test" 1080 "" "" true true false 5 6].
Proof.
  destruct (ResetTrafficStats_spec "nope" traffic_state) as [Hnone _].
  destruct (ResetTrafficStats_spec "rule_1" traffic_state) as [_ Hsome].
  specialize (Hnone eq_refl).
  specialize (Hsome 0%nat
                (mkRule "rule_1" "test" 1080 "" "" true true false 40 0)
                eq_refl).
  cbn zeta in Hsome. destruct Hsome as (_ & Hrules & _ & _ & Hflush).
  specialize (Hflush 0%nat (mkCounter 5 6 "rule_1" 4000000000)
                eq_refl eq_refl eq_refl).
  split_and!.
  - by rewrite Hnone.
  - rewrite Hrules. reflexivity.
  - assert (H5 : in_int64 5) by (unfold in_int64, int64_min, int64_max; lia).
    assert (H6 : in_int64 6) by (unfold in_int64, int64_min, int64_max; lia).
    specialize (Hflush H5 H6).
    apply list_eq. intros [|k].
    + rewrite Hflush. reflexivity.
    + reflexivity.
Defined.

(* ===================================================================== *)
(** ** Every rule has an id *)
(* ===================================================================== *)

Lemma ids_insert (rs : list SocksRule) i r r' :
  rs !! i = Some r → ID r' = ID r → ID <$> <[i := r']> rs = ID <$> rs.
Proof.
  intros Hi Hid. rewrite list_fmap_insert, Hid.
  apply list_insert_id. by rewrite list_lookup_fmap, Hi.
Qed.

Lemma ids_insert_found id (rs : list SocksRule) i r r' :
  findRule id rs = Some (i, r) → ID r' = ID r →
  ID <$> <[i := r']> rs = ID <$> rs.
Proof. intros [Hi _]%findRule_Some. by apply ids_insert. Qed.

Lemma syncToRule_ids p s : ID <$> rules (syncToRule p s) = ID <$> rules s.
Proof.
  unfold syncToRule. cbn -[findRule Nat.modulo].
  destruct (heap s !! p) as [t|]; [|done].
  destruct (findRule _ _) as [[i r]|] eqn:Hf; [|done].
  destruct (_ =? _)%nat; cbn; by eapply ids_insert_found.
Qed.

Lemma CountUpload_ids p n s : ID <$> rules (CountUpload p n s) = ID <$> rules s.
Proof.
  unfold CountUpload. cbn -[syncToRule].
  destruct (heap s !! p) as [t|]; [|done].
  case_match; [|done]. by rewrite syncToRule_ids.
Qed.

Lemma CountDownload_ids p n s :
  ID <$> rules (CountDownload p n s) = ID <$> rules s.
Proof.
  unfold CountDownload. cbn -[syncToRule].
  destruct (heap s !! p) as [t|]; [|done].
  case_match; [|done]. by rewrite syncToRule_ids.
Qed.

Lemma io_step_ids s e : ID <$> rules (io_step s e) = ID <$> rules s.
Proof.
  destruct e as [c n err|c n err|d]; cbn -[CountUpload CountDownload].
  - unfold TrafficConnWrapper_Read. repeat case_match; cbn -[CountDownload];
      by rewrite ?CountDownload_ids.
  - unfold TrafficConnWrapper_Write. repeat case_match; cbn -[CountUpload];
      by rewrite ?CountUpload_ids.
  - done.
Qed.

Lemma startServerLocked_ids id s :
  ID <$> rules (startServerLocked id s).2 = ID <$> rules s.
Proof.
  unfold startServerLocked, net_Listen, saveRules. cbn -[findRule].
  destruct (findRule id (rules s)) as [[i r]|] eqn:Hf; [|done].
  destruct (Running r); [done|]. cbn -[findRule].
  destruct (_ && _); [|done]. cbn -[findRule].
  destruct (fs_writable s); cbn; by eapply ids_insert_found.
Qed.

Lemma stopServerLocked_ids id s :
  ID <$> rules (stopServerLocked id s).2 = ID <$> rules s.
Proof.
  unfold stopServerLocked.
  destruct (findRule id (rules s)) as [[i r]|] eqn:Hf; [|done].
  destruct (Running r); cbn -[findRule teardown drainCounter]; [|done].
  rewrite teardown_rules.
  set (s1 := set_rules _ s).
  assert (Hf1 : findRule id (rules s1) = Some (i, set_Running false r)).
  { apply findRule_insert_same with (r := r); [done|].
    by apply findRule_Some in Hf as [_ ?]. }
  destruct (drainCounter_rules _ _ _ _ Hf1) as (up & down & ->).
  rewrite (ids_insert_found _ _ _ _ _ Hf1) by done.
  subst s1. cbn. by eapply ids_insert_found.
Qed.

Lemma no_blank_ids_same rs rs' :
  ID <$> rs' = ID <$> rs → no_blank_ids rs → no_blank_ids rs'.
Proof.
  unfold no_blank_ids. intros E H.
  apply (Forall_fmap ID (λ i, i ≠ "")). rewrite E.
  by apply (Forall_fmap ID (λ i, i ≠ "")).
Qed.

(** [shutdown] stops servers; the ids stay. *)
Lemma shutdown_ids order s : ID <$> rules (shutdown order s) = ID <$> rules s.
Proof.
  unfold shutdown. cbv zeta. proj.
  assert (E : ID <$> rules (saveRules (Lock AppMu s)).2 = ID <$> rules s)
    by (unfold saveRules; by case_match).
  revert E. generalize (saveRules (Lock AppMu s)).2 as s0.
  induction order as [|id order IH]; intros s0 E; [done|].
  cbn [foldl]. apply IH. by rewrite stopServerLocked_ids.
Qed.

(** Each step keeps the ids non-blank. *)
Lemma call_step_no_blank s c :
  no_blank_ids (rules s) → no_blank_ids (rules (call_step s c)).
Proof.
  intros H.
  destruct c as [| |rule|rule|id|id|id|id|id|id|e|order]; cbn [call_step].
  - unfold startup, loadRules. cbn.
    repeat (case_match; simplify_eq; cbn; try done);
      apply assign_missing_ids_no_blank.
  - done.
  - destruct (AddRule_spec rule s) as [_ ->].
    apply Forall_app. split; [done|]. apply Forall_singleton. cbn.
    unfold assigned_id. case_bool_decide; [apply rule_name_not_blank|done].
  - unfold UpdateRule. cbn -[findRule stopServerLocked startServerLocked].
    destruct (findRule (ID rule) (rules s)) as [[i r]|] eqn:Hf; [|done].
    cbn -[findRule stopServerLocked startServerLocked].
    set (s1 := if Running r then _ else _).
    assert (H1 : ID <$> rules s1 = ID <$> rules s).
    { subst s1. destruct (Running r); [|done].
      by rewrite stopServerLocked_ids. }
    set (s2 := set_rules _ s1).
    assert (H2 : ID <$> rules s2 = ID <$> rules s).
    { subst s2. cbn [rules set_rules]. rewrite list_fmap_insert.
      rewrite H1. apply list_insert_id. cbn.
      apply findRule_Some in Hf as [Hi Hid].
      by rewrite list_lookup_fmap, Hi, <- Hid. }
    set (s3 := if _ && _ then _ else _).
    assert (H3 : ID <$> rules s3 = ID <$> rules s).
    { subst s3. destruct (_ && _); [|done].
      by rewrite startServerLocked_ids. }
    apply no_blank_ids_same with (rs := rules s); [|done].
    rewrite <- H3. unfold saveRules. by case_match.
  - unfold DeleteRule. cbn -[findRule stopServerLocked].
    destruct (findRule id (rules s)) as [[i r]|] eqn:Hf; [|done].
    cbn -[findRule stopServerLocked].
    set (s1 := if Running r then _ else _).
    assert (H1 : no_blank_ids (rules s1)).
    { subst s1. destruct (Running r); [|done].
      eapply no_blank_ids_same; [apply stopServerLocked_ids|done]. }
    assert (H2 : no_blank_ids (take i (rules s1) ++ drop (i + 1) (rules s1))).
    { apply Forall_app. split; [by apply Forall_take | by apply Forall_drop]. }
    unfold saveRules. by case_match.
  - unfold StartServer.
    pose proof (startServerLocked_ids id (Lock AppMu s)) as E.
    destruct (startServerLocked id (Lock AppMu s)) as [ok s'].
    by eapply no_blank_ids_same.
  - unfold StopServer.
    pose proof (stopServerLocked_ids id (Lock AppMu s)) as E.
    destruct (stopServerLocked id (Lock AppMu s)) as [ok s'].
    by eapply no_blank_ids_same.
  - done.
  - unfold ResetTrafficStats, saveRules. cbn -[findRule].
    destruct (findRule id (rules s)) as [[i r]|] eqn:Hf; [|done].
    case_match; cbn; (eapply no_blank_ids_same; [|exact H]);
      by eapply ids_insert_found.
  - unfold accept_on, StatsListener_Accept.
    repeat (case_match; cbn; try done).
  - eapply no_blank_ids_same; [apply io_step_ids|done].
  - eapply no_blank_ids_same; [apply shutdown_ids|done].
Qed.

(** In every state the application can reach from its start, whatever
    the configuration file held, every rule has an id. *)
Lemma no_blank_ids_reachable cs foreign file now :
  no_blank_ids (rules (run_calls cs (NewApp foreign file now))).
Proof.
  unfold run_calls.
  assert (H : no_blank_ids (rules (NewApp foreign file now))) by constructor.
  revert H. generalize (NewApp foreign file now) as s.
  induction cs as [|c cs IH]; intros s H; [done|].
  cbn [foldl]. apply IH. by apply call_step_no_blank.
Qed.


(* ===================================================================== *)
(** ** A stop does not empty the counter *)
(* ===================================================================== *)

(** C10.  An instance is running; its counter [c] holds bytes that were
    not flushed; the registered listener wrapper [l] and the open
    connection [k] point to the counter object.

    The drain block of the stop path adds the bytes to the rule and
    leaves the counter object as it was, while the wrapper is still
    registered.  After the whole [StopServer] the counter is gone from
    the map, but the object still holds the same bytes and connection
    [k] still points to it.  When later a write on that connection
    triggers the inline flush (more than three seconds after the
    counter's last flush), the rule receives the counter's content: the
    bytes already added by the stop are added a second time, together
    with the new ones. *)
Theorem stop_keeps_counter_loaded id s i rule p c l k :
  findRule id (rules s) = Some (i, rule) →
  Running rule = true →
  counters s !! id = Some p →
  heap s !! p = Some c →
  ruleID c = id →
  uploadBytes c > 0 ∨ downloadBytes c > 0 →
  listeners s !! id = Some l →
  counter l = Some p →
  conns s !! k = Some (mkConn p) →
  let s1 := drainCounter id
              (set_rules (<[i := set_Running false rule]> (rules s))
                         (Lock AppMu s)) in
  let s' := (StopServer id s).2 in
  (rules s1 !! i = Some (drained_rule c rule)
   ∧ heap s1 !! p = Some c
   ∧ listeners s1 !! id = Some l)
  ∧ ((StopServer id s).1 = true
     ∧ rules s' !! i = Some (drained_rule c rule)
     ∧ counters s' !! id = None
     ∧ heap s' !! p = Some c
     ∧ conns s' !! k = Some (mkConn p))
  ∧ ∀ d n err,
      n > 0 →
      clock s + d - lastSync c > sync_interval →
      let s'' := (TrafficConnWrapper_Write k n err (tick d s')).2 in
      rules s'' !! i
      = Some (set_traffic
                (add64 (add64 (UploadBytes rule) (uploadBytes c))
                       (add64 (uploadBytes c) n))
                (add64 (add64 (DownloadBytes rule) (downloadBytes c))
                       (downloadBytes c))
                (set_Running false rule))
      ∧ heap s'' !! p = Some (mkCounter 0 0 id (clock s + d)).
Proof.
  intros Hf Hr Hc Hp Hid Hpos Hl Hlc Hk.
  pose proof (findRule_lt _ _ _ _ Hf) as Hlt.
  pose proof (lookup_lt_Some _ _ _ Hp) as Hplt.
  set (r1 := set_Running false rule).
  set (s0 := set_rules (<[i := r1]> (rules s)) (Lock AppMu s)).
  assert (Hf0 : findRule id (rules s0) = Some (i, r1)).
  { apply findRule_insert_same with (r := rule); [done|].
    by apply findRule_Some in Hf as [_ ?]. }
  pose proof (drainCounter_loaded id s0 i r1 p c Hc Hp Hpos Hf0) as Hdrain.
  change (set_traffic _ _ r1) with (drained_rule c rule) in Hdrain.
  cbv zeta. fold r1 s0.
  set (s1 := drainCounter id s0) in *.
  assert (Hrules1 : rules s1 = <[i := drained_rule c rule]> (rules s)).
  { rewrite Hdrain. subst s0. proj. by rewrite list_insert_insert_eq. }
  assert (Hf1 : findRule id (rules s1) = Some (i, drained_rule c rule)).
  { rewrite Hrules1. apply findRule_insert_same with (r := rule); [done|].
    by apply findRule_Some in Hf as [_ ?]. }
  assert (Hheap1 : heap s1 = heap s) by by rewrite Hdrain.
  assert (Hconns1 : conns s1 = conns s) by by rewrite Hdrain.
  assert (Hclock1 : clock s1 = clock s) by by rewrite Hdrain.
  assert (Hlis1 : listeners s1 = listeners s) by by rewrite Hdrain.
  rewrite (StopServer_running id s i rule Hf Hr). fold r1 s0 s1.
  cbn [fst snd].
  set (s2 := Unlock AppMu (teardown id s1)).
  pose proof (teardown_unregisters id s1) as (Hc2 & _ & _).
  assert (Hrules2 : rules s2 = rules s1) by apply teardown_rules.
  assert (Hheap2 : heap s2 = heap s).
  { rewrite <- Hheap1. apply teardown_heap. }
  assert (Hconns2 : conns s2 = conns s).
  { rewrite <- Hconns1. apply teardown_conns. }
  assert (Hclock2 : clock s2 = clock s).
  { rewrite <- Hclock1. apply teardown_clock. }
  assert (Hcnt2 : counters s2 !! id = None) by exact Hc2.
  rewrite Hrules2, Hheap2, Hconns2, Hrules1, Hheap1, Hlis1.
  rewrite list_lookup_insert_eq by done.
  split_and!; try done.
  intros d n err Hn Hstale.
  set (s3 := tick d s2).
  assert (Hheap3 : heap s3 = heap s) by exact Hheap2.
  assert (Hrules3 : rules s3 = rules s1) by exact Hrules2.
  assert (Hclock3 : clock s3 = clock s + d).
  { subst s3. unfold tick. proj. by rewrite Hclock2. }
  assert (Hk3 : conns s3 !! k = Some (mkConn p)).
  { subst s3. unfold tick. proj. by rewrite Hconns2. }
  assert (Hp3 : heap s3 !! p = Some c) by by rewrite Hheap3.
  rewrite (Write_counts k n err s3 p Hk3 Hn).
  rewrite (CountUpload_flush p n s3 c Hp3) by (rewrite Hclock3; lia).
  set (s4 := set_heap _ _).
  assert (Hp4 : heap s4 !! p = Some (bump_up n c)).
  { subst s4. proj. rewrite Hheap3. by apply list_lookup_insert_eq. }
  assert (Hf4 : findRule (ruleID (bump_up n c)) (rules s4)
                = Some (i, drained_rule c rule)).
  { subst s4. proj. rewrite Hrules3. by rewrite <- Hid in Hf1. }
  destruct (syncToRule_flush p s4 _ i _ Hp4 Hf4) as (Hr5 & Hh5 & _).
  proj. rewrite Hr5, Hh5. subst s4. proj.
  rewrite Hrules3, Hrules1, Hheap3, Hclock3, list_insert_insert_eq.
  rewrite !list_lookup_insert_eq by (rewrite ?length_insert; done).
  by rewrite <- Hid.
Qed.

Lemma stop_keeps_counter_loaded_witness :
  heap traffic_state !! 0%nat = Some (mkCounter 5 6 "rule_1" 4000000000)
  ∧ rules (StopServer "rule_1" traffic_state).2 !! 0%nat
    = Some (mkRule "rule_1" "test" 1080 "" "" true false false 45 6)
  ∧ heap (StopServer "rule_1" traffic_state).2 !! 0%nat
    = Some (mkCounter 5 6 "rule_1" 4000000000)
  ∧ rules (TrafficConnWrapper_Write 0 50 false
             (tick 4000000000 (StopServer "rule_1" traffic_state).2)).2
      !! 0%nat
    = Some (mkRule "rule_1" "test" 1080 "" "" true false false 100 12).
Proof.
  assert (Hpos : uploadBytes (mkCounter 5 6 "rule_1" 4000000000) > 0
                 ∨ downloadBytes (mkCounter 5 6 "rule_1" 4000000000) > 0)
    by (left; cbn; lia).
  pose proof (stop_keeps_counter_loaded "rule_1" traffic_state 0%nat
                (mkRule "rule_1" "test" 1080 "" "" true true false 40 0)
                0%nat (mkCounter 5 6 "rule_1" 4000000000)
                (mkStats 0 (Some 0%nat) "rule_1") 0%nat
                eq_refl eq_refl eq_refl eq_refl eq_refl Hpos
                eq_refl eq_refl eq_refl) as H.
  cbv zeta in H. destruct H as (_ & (_ & Hrule & _ & Hheap & _) & Hlater).
  assert (Hn : 50 > 0) by lia.
  assert (Hstale : clock traffic_state + 4000000000
                   - lastSync (mkCounter 5 6 "rule_1" 4000000000)
                   > sync_interval) by (vm_compute; reflexivity).
  destruct (Hlater 4000000000 50 false Hn Hstale) as [Hagain _].
  split_and!.
  - reflexivity.
  - rewrite Hrule. reflexivity.
  - exact Hheap.
  - rewrite Hagain. reflexivity.
Defined.

(* ===================================================================== *)
(** ** Traffic that ends before the stop is accounted exactly *)
(* ===================================================================== *)

Lemma counted_up_nonneg e : 0 <= counted_up e.
Proof.
  destruct e as [c n err|c n err|d]; cbn; try lia.
  destruct (Z.gtb_spec n 0); lia.
Qed.

Lemma counted_down_nonneg e : 0 <= counted_down e.
Proof.
  destruct e as [c n err|c n err|d]; cbn; try lia.
  destruct (Z.gtb_spec n 0); lia.
Qed.

Lemma total_up_nonneg evs : 0 <= total_up evs.
Proof.
  induction evs as [|e evs IH]; cbn; [lia|].
  pose proof (counted_up_nonneg e). fold (total_up evs). lia.
Qed.

Lemma total_down_nonneg evs : 0 <= total_down evs.
Proof.
  induction evs as [|e evs IH]; cbn; [lia|].
  pose proof (counted_down_nonneg e). fold (total_down evs). lia.
Qed.

Lemma in_int64_nonneg z : 0 <= z → z <= int64_max → in_int64 z.
Proof. unfold in_int64, int64_min, int64_max. lia. Qed.

Section Accounting.
(** One running instance: its id, the index of its rule, its counter. *)
Context (id : string) (i : nat) (p : ptr).

(** Counting [n > 0] uploaded bytes keeps the books, with [n] more. *)
Lemma CountUpload_accounted U D n s :
  accounted id i p U D s → n > 0 → U + n <= int64_max →
  accounted id i p (U + n) D (CountUpload p n s)
  ∧ conns (CountUpload p n s) = conns s.
Proof.
  intros (rule & c & Hf & Hr & Hc & Hp & Hid & ? & ? & ? & ? & HU & HD & ? & ?)
         Hn Hmax.
  pose proof (lookup_lt_Some _ _ _ Hp) as Hplt.
  pose proof (findRule_lt _ _ _ _ Hf) as Hlt.
  assert (Hbump : add64 (uploadBytes c) n = uploadBytes c + n).
  { apply add64_exact, in_int64_nonneg; lia. }
  destruct (decide (clock s - lastSync c > sync_interval)) as [Hstale|Hfresh].
  - rewrite (CountUpload_flush p n s c Hp Hstale).
    set (s1 := set_heap _ _).
    assert (Hp1 : heap s1 !! p = Some (bump_up n c)).
    { subst s1. proj. by apply list_lookup_insert_eq. }
    assert (Hf1' : findRule id (rules s1) = Some (i, rule)) by exact Hf.
    assert (Hf1 : findRule (ruleID (bump_up n c)) (rules s1) = Some (i, rule)).
    { cbn [ruleID bump_up]. by rewrite Hid. }
    destruct (syncToRule_flush p s1 _ i _ Hp1 Hf1)
      as (Hr2 & Hh2 & Hc2 & Hcnt2 & _).
    change (conns (Unlock (CounterMu p) (syncToRule p s1)))
      with (conns (syncToRule p s1)).
    split; [|by rewrite Hc2].
    eexists _, _.
    change (rules (Unlock (CounterMu p) (syncToRule p s1)))
      with (rules (syncToRule p s1)).
    change (heap (Unlock (CounterMu p) (syncToRule p s1)))
      with (heap (syncToRule p s1)).
    change (counters (Unlock (CounterMu p) (syncToRule p s1)))
      with (counters (syncToRule p s1)).
    rewrite Hr2, Hh2, Hcnt2.
    split; [apply findRule_insert_same with (r := rule); [exact Hf1'|]|].
    { cbn. by apply findRule_Some in Hf as [_ ->]. }
    split; [exact Hr|]. split; [exact Hc|].
    split; [apply list_lookup_insert_eq; by eapply lookup_lt_Some|].
    cbn [ruleID bump_up uploadBytes downloadBytes UploadBytes DownloadBytes
         set_traffic].
    rewrite Hbump.
    rewrite (add64_exact (UploadBytes rule)) by (apply in_int64_nonneg; lia).
    rewrite (add64_exact (DownloadBytes rule)) by (apply in_int64_nonneg; lia).
    split_and!; (done || lia).
  - rewrite (CountUpload_keep p n s c Hp Hfresh).
    split; [|done]. exists rule, (bump_up n c). proj.
    split_and!; try done.
    + by apply list_lookup_insert_eq.
    + cbn. lia.
    + cbn. lia.
Qed.

Lemma CountDownload_accounted U D n s :
  accounted id i p U D s → n > 0 → D + n <= int64_max →
  accounted id i p U (D + n) (CountDownload p n s)
  ∧ conns (CountDownload p n s) = conns s.
Proof.
  intros (rule & c & Hf & Hr & Hc & Hp & Hid & ? & ? & ? & ? & HU & HD & ? & ?)
         Hn Hmax.
  pose proof (lookup_lt_Some _ _ _ Hp) as Hplt.
  pose proof (findRule_lt _ _ _ _ Hf) as Hlt.
  assert (Hbump : add64 (downloadBytes c) n = downloadBytes c + n).
  { apply add64_exact, in_int64_nonneg; lia. }
  destruct (decide (clock s - lastSync c > sync_interval)) as [Hstale|Hfresh].
  - rewrite (CountDownload_flush p n s c Hp Hstale).
    set (s1 := set_heap _ _).
    assert (Hp1 : heap s1 !! p = Some (bump_down n c)).
    { subst s1. proj. by apply list_lookup_insert_eq. }
    assert (Hf1' : findRule id (rules s1) = Some (i, rule)) by exact Hf.
    assert (Hf1 : findRule (ruleID (bump_down n c)) (rules s1) = Some (i, rule)).
    { cbn [ruleID bump_down]. by rewrite Hid. }
    destruct (syncToRule_flush p s1 _ i _ Hp1 Hf1)
      as (Hr2 & Hh2 & Hc2 & Hcnt2 & _).
    change (conns (Unlock (CounterMu p) (syncToRule p s1)))
      with (conns (syncToRule p s1)).
    split; [|by rewrite Hc2].
    eexists _, _.
    change (rules (Unlock (CounterMu p) (syncToRule p s1)))
      with (rules (syncToRule p s1)).
    change (heap (Unlock (CounterMu p) (syncToRule p s1)))
      with (heap (syncToRule p s1)).
    change (counters (Unlock (CounterMu p) (syncToRule p s1)))
      with (counters (syncToRule p s1)).
    rewrite Hr2, Hh2, Hcnt2.
    split; [apply findRule_insert_same with (r := rule); [exact Hf1'|]|].
    { cbn. by apply findRule_Some in Hf as [_ ->]. }
    split; [exact Hr|]. split; [exact Hc|].
    split; [apply list_lookup_insert_eq; by eapply lookup_lt_Some|].
    cbn [ruleID bump_down uploadBytes downloadBytes UploadBytes DownloadBytes
         set_traffic].
    rewrite Hbump.
    rewrite (add64_exact (UploadBytes rule)) by (apply in_int64_nonneg; lia).
    rewrite (add64_exact (DownloadBytes rule)) by (apply in_int64_nonneg; lia).
    split_and!; (done || lia).
  - rewrite (CountDownload_keep p n s c Hp Hfresh).
    split; [|done]. exists rule, (bump_down n c). proj.
    split_and!; try done.
    + by apply list_lookup_insert_eq.
    + cbn. lia.
    + cbn. lia.
Qed.

Lemma tick_accounted U D d s :
  accounted id i p U D s → accounted id i p U D (tick d s).
Proof. intros (rule & c & H). by exists rule, c. Qed.

(** One event on a connection of the instance keeps the books. *)
Lemma io_step_accounted U D s s0 e :
  accounted id i p U D s →
  conns s = conns s0 →
  event_on p s0 e →
  U + counted_up e <= int64_max →
  D + counted_down e <= int64_max →
  accounted id i p (U + counted_up e) (D + counted_down e) (io_step s e)
  ∧ conns (io_step s e) = conns s0.
Proof.
  intros Hacc Hconns Hev HU HD.
  destruct e as [k n err|k n err|d];
    cbn [io_step counted_up counted_down event_on] in *.
  - rewrite Z.add_0_r. rewrite <- Hconns in Hev.
    destruct (Z.gtb_spec n 0) as [Hn|Hn].
    + rewrite (Read_counts k n err s p Hev) by lia.
      destruct (CountDownload_accounted U D n s Hacc) as [H1 H2];
        [lia | lia |]. split; [done | congruence].
    + rewrite Read_nothing by lia. by rewrite Z.add_0_r.
  - rewrite Z.add_0_r. rewrite <- Hconns in Hev.
    destruct (Z.gtb_spec n 0) as [Hn|Hn].
    + rewrite (Write_counts k n err s p Hev) by lia.
      destruct (CountUpload_accounted U D n s Hacc) as [H1 H2];
        [lia | lia |]. split; [done | congruence].
    + rewrite Write_nothing by lia. by rewrite Z.add_0_r.
  - rewrite !Z.add_0_r. split; [by apply tick_accounted | done].
Qed.

(** Induction on the events: the books are kept along any run. *)
Lemma run_io_accounted evs : ∀ U D s s0,
  accounted id i p U D s →
  conns s = conns s0 →
  Forall (event_on p s0) evs →
  U + total_up evs <= int64_max →
  D + total_down evs <= int64_max →
  accounted id i p (U + total_up evs) (D + total_down evs) (run_io evs s).
Proof.
  induction evs as [|e evs IH]; intros U D s s0 Hacc Hconns Hevs HU HD.
  - cbn. by rewrite !Z.add_0_r.
  - apply Forall_cons in Hevs as [He Hevs].
    cbn [total_up total_down foldr] in *.
    fold (total_up evs) in *. fold (total_down evs) in *.
    pose proof (total_up_nonneg evs). pose proof (total_down_nonneg evs).
    destruct (io_step_accounted U D s s0 e Hacc Hconns He)
      as [Hacc' Hconns']; [lia | lia |].
    rewrite !Z.add_assoc. unfold run_io. cbn [foldl].
    apply (IH _ _ _ s0 Hacc' Hconns' Hevs); lia.
Qed.

End Accounting.

Lemma GetTrafficStats_found id s i rule :
  findRule id (rules s) = Some (i, rule) →
  (GetTrafficStats id s).1 = (UploadBytes rule, DownloadBytes rule, None).
Proof.
  intros Hf. unfold GetTrafficStats. cbv zeta.
  change (rules (Lock AppMu s)) with (rules s). by rewrite Hf.
Qed.

(** Stopping an instance whose books come to [(U, D)] leaves exactly
    [(U, D)] in the rule. *)
Lemma StopServer_accounted id i p U D s :
  accounted id i p U D s →
  (StopServer id s).1 = true
  ∧ ∃ rule', findRule id (rules (StopServer id s).2) = Some (i, rule')
             ∧ Running rule' = false
             ∧ UploadBytes rule' = U ∧ DownloadBytes rule' = D.
Proof.
  intros (rule & c & Hf & Hr & Hc & Hp & Hid & ? & ? & ? & ? & HU & HD & ? & ?).
  rewrite (StopServer_running id s i rule Hf Hr). cbn [fst snd].
  split; [done|].
  set (r1 := set_Running false rule).
  set (s0 := set_rules (<[i := r1]> (rules s)) (Lock AppMu s)).
  assert (Hids : ID r1 = id) by by apply findRule_Some in Hf as [_ ?].
  assert (Hf0 : findRule id (rules s0) = Some (i, r1)).
  { by apply findRule_insert_same with (r := rule). }
  change (rules (Unlock AppMu (teardown id (drainCounter id s0))))
    with (rules (teardown id (drainCounter id s0))).
  rewrite teardown_rules.
  destruct (decide (uploadBytes c > 0 ∨ downloadBytes c > 0)) as [Hpos|Hzero].
  - rewrite (drainCounter_loaded id s0 i r1 p c Hc Hp Hpos Hf0).
    change (set_traffic _ _ r1) with (drained_rule c rule). proj.
    exists (drained_rule c rule). split_and!.
    + by apply findRule_insert_same with (r := r1).
    + done.
    + cbn. rewrite add64_exact; [done | apply in_int64_nonneg; lia].
    + cbn. rewrite add64_exact; [done | apply in_int64_nonneg; lia].
  - rewrite (drainCounter_empty id s0 p c Hc Hp Hzero). proj.
    exists r1. split_and!; [done | done | cbn; lia | cbn; lia].
Qed.

(** Flush-on-stop is exact for traffic that ends before the stop: an
    instance with its books at [(U, D)] sees the events [evs] on its
    connections, at any times, and is then stopped; [GetTrafficStats]
    reports [U] and [D] plus the bytes counted, as long as these fit an
    [int64]. *)
Lemma stop_after_traffic_exact id i p U D s evs :
  accounted id i p U D s →
  Forall (event_on p s) evs →
  U + total_up evs <= int64_max →
  D + total_down evs <= int64_max →
  let s' := (StopServer id (run_io evs s)).2 in
  (StopServer id (run_io evs s)).1 = true
  ∧ (GetTrafficStats id s').1
    = (U + total_up evs, D + total_down evs, None).
Proof.
  intros Hacc Hevs HU HD. cbv zeta.
  pose proof (run_io_accounted id i p evs U D s s Hacc eq_refl Hevs HU HD)
    as Hrun.
  destruct (StopServer_accounted _ _ _ _ _ _ Hrun)
    as (Hok & rule' & Hf & _ & HU' & HD').
  split; [done|].
  rewrite (GetTrafficStats_found _ _ _ _ Hf). by rewrite HU', HD'.
Qed.

(** A start that binds its port: the state afterwards. *)
Lemma StartServer_success id s i rule :
  findRule id (rules s) = Some (i, rule) →
  Running rule = false →
  is_Some (net_Listen (Port rule) s) →
  let s' := (StartServer id s).2 in
  (StartServer id s).1 = true
  ∧ rules s' = <[i := set_Running true rule]> (rules s)
  ∧ heap s' = heap s ++ [mkCounter 0 0 id (clock s)]
  ∧ counters s' = <[id := length (heap s)]> (counters s)
  ∧ listeners s'
    = <[id := mkStats (length (sockets s)) (Some (length (heap s))) id]>
        (listeners s)
  ∧ sockets s' = sockets s ++ [mkRaw (Port rule) true]
  ∧ conns s' = conns s.
Proof.
  intros Hf Hr [[h sl] Hl]. unfold net_Listen in Hl.
  destruct (_ && _) eqn:Hok in Hl; [|done]. clear Hl.
  unfold StartServer, startServerLocked. cbv zeta.
  change (rules (Lock AppMu s)) with (rules s). rewrite Hf. cbv beta iota.
  rewrite Hr. cbv beta iota. unfold NewTrafficCounter, net_Listen.
  cbv beta iota zeta.
  match goal with
  | |- context [if ?b then _ else _] => change b with
      ((0 <=? Port rule) && (Port rule <=? 65535)
       && ((Port rule =? 0) || negb (port_in_use (Port rule) s)))
  end.
  rewrite Hok. unfold saveRules. proj.
  rewrite lookup_insert_eq.
  destruct (fs_writable s); proj; split_and!; reflexivity.
Qed.

(** A fresh start opens the books of the instance at the rule's totals. *)
Lemma StartServer_accounted id s i rule :
  findRule id (rules s) = Some (i, rule) →
  Running rule = false →
  is_Some (net_Listen (Port rule) s) →
  0 <= UploadBytes rule <= int64_max →
  0 <= DownloadBytes rule <= int64_max →
  accounted id i (length (heap s)) (UploadBytes rule) (DownloadBytes rule)
            (StartServer id s).2.
Proof.
  intros Hf Hr Hl HU HD.
  destruct (StartServer_success id s i rule Hf Hr Hl)
    as (_ & Hrules & Hheap & Hcnt & _).
  exists (set_Running true rule), (mkCounter 0 0 id (clock s)).
  rewrite Hrules, Hheap, Hcnt. split_and!; try done; cbn; try lia.
  - apply findRule_insert_same with (r := rule); [done|].
    by apply findRule_Some in Hf as [_ ?].
  - apply lookup_insert_eq.
  - by rewrite lookup_app_r, Nat.sub_diag by done.
Qed.

(** The accept loop of a freshly started instance hands out a
    connection that reports to the instance's new counter. *)
Lemma accept_on_started id s i rule :
  findRule id (rules s) = Some (i, rule) →
  Running rule = false →
  is_Some (net_Listen (Port rule) s) →
  accept_on id (StartServer id s).2
  = set_conns (conns s ++ [mkConn (length (heap s))]) (StartServer id s).2.
Proof.
  intros Hf Hr Hl.
  destruct (StartServer_success id s i rule Hf Hr Hl)
    as (_ & _ & _ & _ & Hlis & Hsock & Hconns).
  unfold accept_on. rewrite Hlis, lookup_insert_eq.
  unfold StatsListener_Accept. cbn [Listener counter].
  rewrite Hsock, lookup_app_r, Nat.sub_diag by done.
  cbn [lookup list_lookup l_open snd]. by rewrite Hconns.
Qed.

(** From start to stop: a stopped rule is started and binds its port, a
    client connects, the events [evs] happen on that connection, the
    instance is stopped.  The rule's totals have grown by exactly the
    bytes counted. *)
Lemma fresh_run_exact id s i rule evs :
  findRule id (rules s) = Some (i, rule) →
  Running rule = false →
  is_Some (net_Listen (Port rule) s) →
  0 <= UploadBytes rule →
  0 <= DownloadBytes rule →
  let s1 := accept_on id (StartServer id s).2 in
  Forall (event_on (length (heap s)) s1) evs →
  UploadBytes rule + total_up evs <= int64_max →
  DownloadBytes rule + total_down evs <= int64_max →
  (GetTrafficStats id (StopServer id (run_io evs s1)).2).1
  = (UploadBytes rule + total_up evs, DownloadBytes rule + total_down evs,
     None).
Proof.
  intros Hf Hr Hl HU HD s1 Hevs HmaxU HmaxD.
  pose proof (total_up_nonneg evs). pose proof (total_down_nonneg evs).
  assert (Hacc : accounted id i (length (heap s)) (UploadBytes rule)
                           (DownloadBytes rule) s1).
  { subst s1. rewrite (accept_on_started id s i rule Hf Hr Hl).
    destruct (StartServer_accounted id s i rule Hf Hr Hl) as (r & c & H');
      [lia | lia |].
    by exists r, c. }
  by destruct (stop_after_traffic_exact id i _ _ _ s1 evs Hacc Hevs HmaxU HmaxD).
Qed.

(** C1.  [rule_1] is started, a client connects, 100 bytes are written
    to it and the instance is stopped: the rule shows 100 uploaded
    bytes.  The connection stays open; four seconds later 50 more bytes
    are written to it.  The interception has counted 150 bytes, the
    rule shows 250: the 100 bytes folded in by the stop were still in
    the counter and are added again by the flush.  The same happens
    when the instance is started again in between and stopped at the
    end: after that stop the rule shows 250 bytes for 150 counted. *)
Theorem bytes_after_stop_counted_twice :
  let s := accept_on "rule_1" started_state in
  let s := (TrafficConnWrapper_Write 0 100 false s).2 in
  let stopped := (StopServer "rule_1" s).2 in
  let later :=
    (TrafficConnWrapper_Write 0 50 false (tick 4000000000 stopped)).2 in
  let restarted := (StartServer "rule_1" stopped).2 in
  let later' :=
    (TrafficConnWrapper_Write 0 50 false (tick 4000000000 restarted)).2 in
  let stopped' := (StopServer "rule_1" later').2 in
  (GetTrafficStats "rule_1" stopped).1 = (100, 0, None)
  ∧ conns stopped = [mkConn 0%nat]
  ∧ heap stopped = [mkCounter 100 0 "rule_1" 0]
  ∧ (GetTrafficStats "rule_1" later).1 = (250, 0, None)
  ∧ (StartServer "rule_1" stopped).1 = true
  ∧ (StopServer "rule_1" later').1 = true
  ∧ (GetTrafficStats "rule_1" stopped').1 = (250, 0, None)
  ∧ total_up [EvWrite 0 100 false; EvTick 4000000000; EvWrite 0 50 false]
    = 150.
Proof. vm_compute. split_and!; reflexivity. Qed.

(* ===================================================================== *)
(** ** Lock order *)
(* ===================================================================== *)

Lemma lock_trace_app s s' evs :
  locklog s' = locklog s ++ evs → lock_trace s s' = evs.
Proof. intros E. unfold lock_trace. by rewrite E, drop_app_length. Qed.

Lemma syncToRule_locklog p s :
  locklog (syncToRule p s) = locklog s ++ [Acquire AppMu; Release AppMu].
Proof.
  unfold syncToRule. cbn -[findRule Nat.modulo].
  repeat case_match; proj; by rewrite <- app_assoc.
Qed.

Lemma teardown_locklog id s : locklog (teardown id s) = locklog s.
Proof.
  unfold teardown, saveRules, StatsListener_Close, raw_Close. cbn.
  repeat (case_match; cbn; try done).
Qed.

Lemma drainCounter_locklog id s p :
  counters s !! id = Some p →
  locklog (drainCounter id s)
  = locklog s ++ [Acquire (CounterMu p); Release (CounterMu p)].
Proof.
  intros Hc. unfold drainCounter. rewrite Hc. cbn -[findRule].
  repeat case_match; proj; by rewrite <- app_assoc.
Qed.

(** The stop path: registry mutex first, counter mutex inside. *)
Lemma StopServer_lock_trace id s i rule p :
  findRule id (rules s) = Some (i, rule) →
  Running rule = true →
  counters s !! id = Some p →
  lock_trace s (StopServer id s).2
  = [Acquire AppMu; Acquire (CounterMu p); Release (CounterMu p);
     Release AppMu].
Proof.
  intros Hf Hr Hc. apply lock_trace_app.
  rewrite (StopServer_running id s i rule Hf Hr). cbn [snd].
  change (locklog (Unlock AppMu ?x)) with (locklog x ++ [Release AppMu]).
  rewrite teardown_locklog. rewrite (drainCounter_locklog id _ p) by exact Hc.
  proj. by rewrite <- !app_assoc.
Qed.

(** The counting path when the flush is due: counter mutex first,
    registry mutex inside. *)
Lemma CountUpload_lock_trace p n s c :
  heap s !! p = Some c →
  clock s - lastSync c > sync_interval →
  lock_trace s (CountUpload p n s)
  = [Acquire (CounterMu p); Acquire AppMu; Release AppMu;
     Release (CounterMu p)].
Proof.
  intros Hp Hstale. apply lock_trace_app.
  rewrite (CountUpload_flush p n s c Hp Hstale).
  change (locklog (Unlock (CounterMu p) ?x))
    with (locklog x ++ [Release (CounterMu p)]).
  rewrite syncToRule_locklog. proj. by rewrite <- !app_assoc.
Qed.

(** C5.  An instance is running and the last flush of its counter is
    more than three seconds old.  [StopServer] takes the registry mutex
    and then the counter's; [CountUpload] on that counter (a write on
    any of its connections) takes the counter's mutex and then, in
    [syncToRule], the registry mutex, so the order Registry, counter
    does not hold on that path.  Run by two goroutines, the two calls
    reach a state in which each holds one mutex and waits for the
    other. *)
Theorem lock_order_inverted id s i rule p c n :
  findRule id (rules s) = Some (i, rule) →
  Running rule = true →
  counters s !! id = Some p →
  heap s !! p = Some c →
  clock s - lastSync c > sync_interval →
  let stop := lock_trace s (StopServer id s).2 in
  let count := lock_trace s (CountUpload p n s) in
  stop = [Acquire AppMu; Acquire (CounterMu p); Release (CounterMu p);
          Release AppMu]
  ∧ count = [Acquire (CounterMu p); Acquire AppMu; Release AppMu;
             Release (CounterMu p)]
  ∧ order_ok [] stop = true
  ∧ order_ok [] count = false
  ∧ ∃ t, sched_run [true; false] (mkThreads stop [] count []) = Some t
         ∧ held1 t = [AppMu] ∧ held2 t = [CounterMu p]
         ∧ deadlocked t = true.
Proof.
  intros Hf Hr Hc Hp Hstale. cbv zeta.
  rewrite (StopServer_lock_trace id s i rule p Hf Hr Hc).
  rewrite (CountUpload_lock_trace p n s c Hp Hstale).
  split_and!; [done | done | done | done |].
  eexists. split; [reflexivity|]. split_and!; [done | done |].
  unfold deadlocked. cbn.
  rewrite (bool_decide_eq_true_2 (CounterMu p ∈ [CounterMu p]))
    by set_solver.
  done.
Qed.

Lemma lock_order_inverted_witness :
  lock_trace (tick 4000000000 traffic_state)
    (CountUpload 0%nat 1 (tick 4000000000 traffic_state))
  = [Acquire (CounterMu 0%nat); Acquire AppMu; Release AppMu;
     Release (CounterMu 0%nat)]
  ∧ order_ok []
      (lock_trace (tick 4000000000 traffic_state)
         (CountUpload 0%nat 1 (tick 4000000000 traffic_state))) = false.
Proof.
  assert (Hstale : clock (tick 4000000000 traffic_state)
                   - lastSync (mkCounter 5 6 "rule_1" 4000000000)
                   > sync_interval) by (vm_compute; reflexivity).
  pose proof (lock_order_inverted "rule_1" (tick 4000000000 traffic_state)
                0%nat (mkRule "rule_1" "test" 1080 "" "" true true false 40 0)
                0%nat (mkCounter 5 6 "rule_1" 4000000000) 1
                eq_refl eq_refl eq_refl eq_refl Hstale) as H.
  cbv zeta in H. destruct H as (_ & Hcount & _ & Hbad & _).
  split; [exact Hcount | exact Hbad].
Defined.

(* ===================================================================== *)
(** ** Further properties: calls that find nothing to do *)
(* ===================================================================== *)

(** [StopServer] when there is nothing to stop. *)
Lemma StopServer_not_running_helper id s :
  findRule id (rules s) = None
  ∨ (∃ i r, findRule id (rules s) = Some (i, r) ∧ Running r = false) →
  StopServer id s = (false, logged [Acquire AppMu; Release AppMu] s).
Proof.
  intros H. unfold StopServer, stopServerLocked. cbv zeta.
  change (rules (Lock AppMu s)) with (rules s).
  destruct H as [->|(i & r & -> & Hr)]; cbv beta iota.
  - by rewrite Unlock_Lock.
  - rewrite Hr. cbn [negb]. by rewrite Unlock_Lock.
Qed.

(** X1.  [StopServer] on an id that no rule carries, or whose rule is
    not marked running, returns failure and changes nothing but the
    lock log. *)
Theorem StopServer_not_running id s :
  findRule id (rules s) = None
  ∨ (∃ i r, findRule id (rules s) = Some (i, r) ∧ Running r = false) →
  StopServer id s = (false, logged [Acquire AppMu; Release AppMu] s)
  ∧ rules (StopServer id s).2 = rules s
  ∧ listeners (StopServer id s).2 = listeners s
  ∧ sockets (StopServer id s).2 = sockets s
  ∧ cfg_file (StopServer id s).2 = cfg_file s.
Proof.
  intros H. rewrite (StopServer_not_running_helper id s H).
  split_and!; reflexivity.
Qed.

(** On [one_rule_state], whose rule [a] was never started. *)
Lemma StopServer_not_running_witness :
  (StopServer "a" one_rule_state).1 = false
  ∧ (StopServer "zzz" one_rule_state).1 = false
  ∧ rules (StopServer "a" one_rule_state).2 = rules one_rule_state.
Proof.
  assert (Hstopped : ∃ i r, findRule "a" (rules one_rule_state) = Some (i, r)
                            ∧ Running r = false).
  { exists 0%nat, (mkRule "a" "first" 1080 "" "" true false false 0 0).
    split; reflexivity. }
  destruct (StopServer_not_running "a" one_rule_state (or_intror Hstopped))
    as (Ha & Hrules & _).
  destruct (StopServer_not_running "zzz" one_rule_state (or_introl eq_refl))
    as (Hz & _).
  rewrite Ha, Hz. split_and!; reflexivity.
Defined.

(** X2.  On an id that no rule carries, [StartServer], [UpdateRule] and
    [DeleteRule] return failure and change nothing but the lock log,
    and [GetTrafficStats] returns zeros with the not-found error. *)
Theorem unknown_id_is_refused id rule s :
  findRule id (rules s) = None →
  ID rule = id →
  StartServer id s = (false, logged [Acquire AppMu; Release AppMu] s)
  ∧ UpdateRule rule s = (false, logged [Acquire AppMu; Release AppMu] s)
  ∧ DeleteRule id s = (false, logged [Acquire AppMu; Release AppMu] s)
  ∧ GetTrafficStats id s
    = ((0, 0, Some (ErrRuleNotFound id)),
       logged [Acquire AppMu; Release AppMu] s).
Proof.
  intros Hf <-. split_and!.
  - unfold StartServer, startServerLocked. cbv zeta.
    change (rules (Lock AppMu s)) with (rules s). rewrite Hf.
    by rewrite Unlock_Lock.
  - unfold UpdateRule. cbv zeta.
    change (rules (Lock AppMu s)) with (rules s). rewrite Hf.
    by rewrite Unlock_Lock.
  - unfold DeleteRule. cbv zeta.
    change (rules (Lock AppMu s)) with (rules s). rewrite Hf.
    by rewrite Unlock_Lock.
  - unfold GetTrafficStats. cbv zeta.
    change (rules (Lock AppMu s)) with (rules s). rewrite Hf.
    by rewrite Unlock_Lock.
Qed.

Lemma unknown_id_is_refused_witness :
  (StartServer "zzz" started_state).1 = false
  ∧ (DeleteRule "zzz" started_state).1 = false
  ∧ rules (UpdateRule (mkRule "zzz" "x" 1 "" "" true true false 5 5)
                      started_state).2
    = rules started_state.
Proof.
  destruct (unknown_id_is_refused "zzz"
              (mkRule "zzz" "x" 1 "" "" true true false 5 5)
              started_state eq_refl eq_refl) as (H1 & H2 & H3 & _).
  rewrite H1, H2, H3. split_and!; reflexivity.
Defined.

(* ===================================================================== *)
(** ** Further properties: stopping and starting *)
(* ===================================================================== *)

Lemma saveRules_frame_env s :
  foreign_ports (saveRules s).2 = foreign_ports s
  ∧ fs_writable (saveRules s).2 = fs_writable s
  ∧ fs_readable (saveRules s).2 = fs_readable s
  ∧ spawned_saves (saveRules s).2 = spawned_saves s
  ∧ locklog (saveRules s).2 = locklog s.
Proof.
  unfold saveRules. destruct (fs_writable s) eqn:E; cbn; by rewrite ?E.
Qed.

(** What the teardown does to the three maps. *)
Lemma teardown_maps id s :
  counters (teardown id s) = delete id (counters s)
  ∧ servers (teardown id s) = delete id (servers s)
  ∧ listeners (teardown id s) = delete id (listeners s).
Proof.
  unfold teardown, saveRules, StatsListener_Close, raw_Close. cbn.
  destruct (listeners s !! id) as [l|] eqn:E; cbn.
  - destruct (sockets s !! Listener l) as [raw|]; cbn;
      [destruct (l_open raw); cbn|]; by destruct (fs_writable s).
  - rewrite (delete_id (listeners s)) by done.
    by destruct (fs_writable s).
Qed.

Lemma teardown_foreign id s :
  foreign_ports (teardown id s) = foreign_ports s.
Proof.
  unfold teardown, saveRules, StatsListener_Close, raw_Close. cbn.
  repeat (case_match; cbn; try done).
Qed.

(** The teardown closes the socket of the registered listener. *)
Lemma teardown_sockets id s l raw :
  listeners s !! id = Some l →
  sockets s !! Listener l = Some raw →
  sockets (teardown id s) = <[Listener l := mkRaw (l_port raw) false]> (sockets s).
Proof.
  intros Hl Hraw.
  unfold teardown, saveRules, StatsListener_Close, raw_Close. cbn.
  rewrite Hl. cbn. rewrite Hraw.
  destruct (l_open raw) eqn:Ho; cbn; [by case_match|].
  assert (E : <[Listener l := mkRaw (l_port raw) false]> (sockets s) = sockets s).
  { apply list_insert_id. rewrite Hraw. destruct raw; cbn in *. by subst. }
  rewrite E. by case_match.
Qed.

Lemma teardown_sockets_none id s :
  listeners s !! id = None → sockets (teardown id s) = sockets s.
Proof.
  intros Hl. unfold teardown, saveRules. cbn. rewrite Hl.
  by case_match.
Qed.

(** The state after [StopServer] on a running instance. *)
Lemma StopServer_running_post id s i r l raw :
  findRule id (rules s) = Some (i, r) →
  Running r = true →
  listeners s !! id = Some l →
  sockets s !! Listener l = Some raw →
  let s' := (StopServer id s).2 in
  (StopServer id s).1 = true
  ∧ (∃ up down,
       rules s' = <[i := set_traffic up down (set_Running false r)]> (rules s))
  ∧ counters s' = delete id (counters s)
  ∧ servers s' = delete id (servers s)
  ∧ listeners s' = delete id (listeners s)
  ∧ sockets s' = <[Listener l := mkRaw (l_port raw) false]> (sockets s)
  ∧ heap s' = heap s
  ∧ conns s' = conns s
  ∧ foreign_ports s' = foreign_ports s
  ∧ (StatsListener_Accept l s').1 = None.
Proof.
  intros Hf Hr Hl Hraw. cbv zeta.
  rewrite (StopServer_running id s i r Hf Hr). cbn [fst snd].
  set (s0 := set_rules (<[i := set_Running false r]> (rules s)) (Lock AppMu s)).
  assert (Hf0 : findRule id (rules s0) = Some (i, set_Running false r)).
  { apply findRule_insert_same with (r := r); [done|].
    by apply findRule_Some in Hf as [_ ?]. }
  destruct (drainCounter_rules _ _ _ _ Hf0) as (up & down & Hd).
  destruct (drainCounter_frame id s0) as (Hh & Hc & Hcn & Hs & Hli & Hso & _).
  destruct (teardown_maps id (drainCounter id s0)) as (M1 & M2 & M3).
  assert (Hfor : foreign_ports (drainCounter id s0) = foreign_ports s).
  { unfold drainCounter. cbn -[findRule].
    repeat (case_match; cbn -[findRule]; try done). }
  assert (Hl1 : listeners (drainCounter id s0) !! id = Some l) by by rewrite Hli.
  assert (Hraw1 : sockets (drainCounter id s0) !! Listener l = Some raw)
    by by rewrite Hso.
  pose proof (teardown_sockets id _ l raw Hl1 Hraw1) as Hsock.
  set (s2 := Unlock AppMu (teardown id (drainCounter id s0))).
  assert (Hsock2 : sockets s2
                   = <[Listener l := mkRaw (l_port raw) false]> (sockets s)).
  { subst s2. proj. by rewrite Hsock, Hso. }
  split_and!.
  - done.
  - exists up, down. subst s2. proj. rewrite teardown_rules, Hd.
    subst s0. proj. by rewrite list_insert_insert_eq.
  - subst s2. proj. by rewrite M1, Hcn.
  - subst s2. proj. by rewrite M2, Hs.
  - subst s2. proj. by rewrite M3, Hli.
  - exact Hsock2.
  - subst s2. proj. by rewrite teardown_heap, Hh.
  - subst s2. proj. by rewrite teardown_conns, Hc.
  - subst s2. proj. rewrite teardown_foreign. by rewrite Hfor.
  - unfold StatsListener_Accept. rewrite Hsock2.
    rewrite list_lookup_insert_eq by by eapply lookup_lt_Some.
    cbn. by destruct (counter l).
Qed.

(** X3.  [StopServer] on a running instance returns success.  The rule
    is marked stopped and only its byte counts may have changed; no
    other rule is touched.  Nothing is registered under the id any
    more, the registrations of the other ids are as before, the socket
    of the instance's listener is closed, and the listener accepts no
    further connection.  A second [StopServer] returns failure. *)
Theorem StopServer_running_spec id s i r l raw :
  findRule id (rules s) = Some (i, r) →
  Running r = true →
  listeners s !! id = Some l →
  sockets s !! Listener l = Some raw →
  let s' := (StopServer id s).2 in
  (StopServer id s).1 = true
  ∧ (∃ up down,
       rules s' = <[i := set_traffic up down (set_Running false r)]> (rules s))
  ∧ counters s' = delete id (counters s)
  ∧ servers s' = delete id (servers s)
  ∧ listeners s' = delete id (listeners s)
  ∧ sockets s' = <[Listener l := mkRaw (l_port raw) false]> (sockets s)
  ∧ heap s' = heap s
  ∧ conns s' = conns s
  ∧ foreign_ports s' = foreign_ports s
  ∧ (StatsListener_Accept l s').1 = None
  ∧ (StopServer id s').1 = false.
Proof.
  intros Hf Hr Hl Hraw. cbv zeta.
  destruct (StopServer_running_post id s i r l raw Hf Hr Hl Hraw)
    as (H1 & (up & down & H2) & H3 & H4 & H5 & H6 & H7 & H8 & H9 & H10).
  split_and!; try done; [by exists up, down|].
  rewrite (StopServer_not_running_helper id (StopServer id s).2); [done|].
  right. exists i, (set_traffic up down (set_Running false r)).
  split; [|done]. rewrite H2.
  by apply findRule_insert_same with (r := r);
    [|apply findRule_Some in Hf as [_ ?]].
Qed.

Lemma StopServer_running_spec_witness :
  (StopServer "rule_1" traffic_state).1 = true
  ∧ listeners (StopServer "rule_1" traffic_state).2 !! "rule_1" = None
  ∧ sockets (StopServer "rule_1" traffic_state).2 = [mkRaw 1080 false].
Proof.
  pose proof (StopServer_running_spec "rule_1" traffic_state 0%nat
                (mkRule "rule_1" "test" 1080 "" "" true true false 40 0)
                (mkStats 0 (Some 0%nat) "rule_1") (mkRaw 1080 true)
                eq_refl eq_refl eq_refl eq_refl) as H.
  cbv zeta in H. destruct H as (H1 & _ & _ & _ & H5 & H6 & _).
  split_and!; [exact H1 | rewrite H5; reflexivity | rewrite H6; reflexivity].
Defined.

(** Replacing a rule by one of the same id: every [findRule] gives the
    same index as before, and the same rule unless it is the one
    replaced. *)
Lemma findRule_insert_keep id rs j r0 r' :
  rs !! j = Some r0 →
  ID r' = ID r0 →
  findRule id (<[j := r']> rs)
  = (λ ir : nat * SocksRule,
       (ir.1, if decide (ir.1 = j) then r' else ir.2)) <$> findRule id rs.
Proof.
  intros Hj Hid. unfold findRule.
  destruct (list_find (λ r, ID r = id) rs) as [[k x]|] eqn:E; cbn.
  - apply list_find_Some in E as (Hk & Hx & Hleast).
    apply list_find_Some. destruct (decide (k = j)) as [->|Hne].
    + assert (x = r0) as -> by congruence.
      split_and!.
      * apply list_lookup_insert_eq. by eapply lookup_lt_Some.
      * congruence.
      * intros j' y Hy Hlt. rewrite list_lookup_insert_ne in Hy by lia.
        by eapply Hleast.
    + split_and!.
      * by rewrite list_lookup_insert_ne.
      * done.
      * intros j' y Hy Hlt. destruct (decide (j' = j)) as [->|Hne'].
        -- rewrite list_lookup_insert_eq in Hy by by eapply lookup_lt_Some.
           injection Hy as <-. rewrite Hid. by eapply Hleast.
        -- rewrite list_lookup_insert_ne in Hy by done. by eapply Hleast.
  - apply list_find_None in E. apply list_find_None.
    apply Forall_insert; [done|].
    rewrite Hid. by eapply Forall_lookup_1 in E.
Qed.

(** Replacing the rule found for another id does not disturb the rule
    found for [id]. *)
Lemma findRule_insert_other id id' rs i r j r0 r' :
  findRule id rs = Some (i, r) →
  findRule id' rs = Some (j, r0) →
  id ≠ id' →
  ID r' = id' →
  findRule id (<[j := r']> rs) = Some (i, r).
Proof.
  intros Hf Hf' Hne Hid.
  apply findRule_Some in Hf' as [Hj Hid0].
  rewrite (findRule_insert_keep id rs j r0 r' Hj) by congruence.
  rewrite Hf. cbn. rewrite decide_False; [done|].
  intros ->. apply findRule_Some in Hf as [Hi Hidr]. congruence.
Qed.

Lemma net_Listen_is_Some port s :
  is_Some (net_Listen port s)
  ↔ (0 <=? port) && (port <=? 65535)
    && ((port =? 0) || negb (port_in_use port s)) = true.
Proof.
  unfold net_Listen. destruct (_ && _); split; intros H; try done;
    try by destruct H.
Qed.

(** A closed socket more or less makes no difference to a port. *)
Lemma port_in_use_closed_tail port q s s' :
  sockets s' = sockets s ++ [mkRaw q false] →
  foreign_ports s' = foreign_ports s →
  port_in_use port s' = port_in_use port s.
Proof.
  intros Hs Hf. unfold port_in_use. rewrite Hs, Hf, existsb_app. cbn.
  by rewrite orb_false_r.
Qed.

(** A start that binds: the rest of the state. *)
Lemma StartServer_success_env id s i rule :
  findRule id (rules s) = Some (i, rule) →
  Running rule = false →
  is_Some (net_Listen (Port rule) s) →
  let s' := (StartServer id s).2 in
  servers s' = <[id := socks5_NewServer (serverOpts rule)]> (servers s)
  ∧ foreign_ports s' = foreign_ports s
  ∧ clock s' = clock s
  ∧ cfg_file s'
    = if fs_writable s
      then Some (Some (set_Running false
                         <$> <[i := set_Running true rule]> (rules s)))
      else cfg_file s.
Proof.
  intros Hf Hr [[h sl] Hl]. unfold net_Listen in Hl.
  destruct (_ && _) eqn:Hok in Hl; [|done]. clear Hl.
  unfold StartServer, startServerLocked. cbv zeta.
  change (rules (Lock AppMu s)) with (rules s). rewrite Hf. cbv beta iota.
  rewrite Hr. cbv beta iota. unfold NewTrafficCounter, net_Listen.
  cbv beta iota zeta.
  match goal with
  | |- context [if ?b then _ else _] => change b with
      ((0 <=? Port rule) && (Port rule <=? 65535)
       && ((Port rule =? 0) || negb (port_in_use (Port rule) s)))
  end.
  rewrite Hok. unfold saveRules. proj.
  destruct (fs_writable s); proj; split_and!; reflexivity.
Qed.

(** A start whose bind fails: what is left. *)
Lemma StartServer_bind_fails id s i rule :
  findRule id (rules s) = Some (i, rule) →
  Running rule = false →
  net_Listen (Port rule) s = None →
  let s' := (StartServer id s).2 in
  (StartServer id s).1 = false
  ∧ rules s' = rules s ∧ servers s' = servers s
  ∧ listeners s' = listeners s ∧ sockets s' = sockets s
  ∧ conns s' = conns s ∧ cfg_file s' = cfg_file s.
Proof.
  intros Hf Hr Hl. unfold StartServer, startServerLocked.
  cbn -[findRule net_Listen]. rewrite Hf, Hr.
  cbn -[findRule net_Listen].
  erewrite net_Listen_frame; [| | |exact Hl]; [|done..].
  cbn. split_and!; done.
Qed.

(** X4.  Stopping releases the port.  A stopped rule is started and
    binds its port, is stopped, and is started again: the second start
    succeeds too, on a new socket and with a new counter object. *)
Theorem stop_releases_port id s i rule :
  findRule id (rules s) = Some (i, rule) →
  Running rule = false →
  is_Some (net_Listen (Port rule) s) →
  let s1 := (StartServer id s).2 in
  let s2 := (StopServer id s1).2 in
  let s3 := (StartServer id s2).2 in
  (StartServer id s).1 = true
  ∧ (StopServer id s1).1 = true
  ∧ (StartServer id s2).1 = true
  ∧ listeners s3 !! id
    = Some (mkStats (S (length (sockets s))) (Some (S (length (heap s)))) id)
  ∧ sockets s3
    = sockets s ++ [mkRaw (Port rule) false; mkRaw (Port rule) true].
Proof.
  intros Hf Hr Hl. cbv zeta.
  destruct (StartServer_success id s i rule Hf Hr Hl)
    as (Hok1 & Hrules1 & Hheap1 & _ & Hlis1 & Hsock1 & _).
  destruct (StartServer_success_env id s i rule Hf Hr Hl)
    as (_ & Hfor1 & _).
  set (s1 := (StartServer id s).2) in *.
  assert (Hid : ID rule = id) by by apply findRule_Some in Hf as [_ ?].
  assert (Hf1 : findRule id (rules s1) = Some (i, set_Running true rule)).
  { rewrite Hrules1. by apply findRule_insert_same with (r := rule). }
  assert (Hl1 : listeners s1 !! id
                = Some (mkStats (length (sockets s)) (Some (length (heap s))) id)).
  { rewrite Hlis1. apply lookup_insert_eq. }
  assert (Hraw1 : sockets s1 !! length (sockets s)
                  = Some (mkRaw (Port rule) true)).
  { rewrite Hsock1. by rewrite lookup_app_r, Nat.sub_diag by done. }
  destruct (StopServer_running_post id s1 i _ _ _ Hf1 eq_refl Hl1 Hraw1)
    as (Hok2 & (up & down & Hrules2) & _ & _ & _ & Hsock2 & Hheap2 & _ & Hfor2 & _).
  set (s2 := (StopServer id s1).2) in *.
  cbn [Listener l_port] in Hsock2.
  assert (Hsock2' : sockets s2 = sockets s ++ [mkRaw (Port rule) false]).
  { rewrite Hsock2, Hsock1. rewrite insert_app_r_alt by done.
    by rewrite Nat.sub_diag. }
  set (r2 := set_traffic up down (set_Running false (set_Running true rule)))
    in *.
  assert (Hf2 : findRule id (rules s2) = Some (i, r2)).
  { rewrite Hrules2. by apply findRule_insert_same with (r := set_Running true rule). }
  assert (Hl2 : is_Some (net_Listen (Port r2) s2)).
  { apply net_Listen_is_Some. apply net_Listen_is_Some in Hl.
    rewrite (port_in_use_closed_tail (Port r2) (Port rule) s s2 Hsock2');
      [exact Hl | congruence]. }
  destruct (StartServer_success id s2 i r2 Hf2 eq_refl Hl2)
    as (Hok3 & _ & _ & _ & Hlis3 & Hsock3 & _).
  split_and!; [done | done | done | |].
  - rewrite Hlis3, lookup_insert_eq, Hsock2', Hheap2, Hheap1.
    rewrite !length_app. cbn. by rewrite !Nat.add_1_r.
  - rewrite Hsock3, Hsock2', <- app_assoc. done.
Qed.

(** On [one_rule_state]: rule [a] on port 1080. *)
Lemma stop_releases_port_witness :
  (StartServer "a"
     (StopServer "a" (StartServer "a" one_rule_state).2).2).1 = true.
Proof.
  assert (Hl : is_Some (net_Listen
                          (Port (mkRule "a" "first" 1080 "" "" true false
                                        false 0 0)) one_rule_state))
    by (vm_compute; eauto).
  pose proof (stop_releases_port "a" one_rule_state 0%nat
                (mkRule "a" "first" 1080 "" "" true false false 0 0)
                eq_refl eq_refl Hl) as H.
  cbv zeta in H. destruct H as (_ & _ & H3 & _). exact H3.
Defined.

(** X5.  Port conflict.  Two stopped rules with different ids ask for
    the same port (not port 0).  The first start binds it; the start of
    the second rule then fails, and leaves the rules, the servers, the
    listeners and the sockets as the first start left them: the first
    instance is still registered and marked running. *)
Theorem port_conflict idA idB s iA iB rA rB :
  findRule idA (rules s) = Some (iA, rA) →
  findRule idB (rules s) = Some (iB, rB) →
  idA ≠ idB →
  Running rA = false →
  Running rB = false →
  Port rB = Port rA →
  Port rA ≠ 0 →
  is_Some (net_Listen (Port rA) s) →
  let s1 := (StartServer idA s).2 in
  let s2 := (StartServer idB s1).2 in
  (StartServer idA s).1 = true
  ∧ (StartServer idB s1).1 = false
  ∧ rules s2 = rules s1
  ∧ servers s2 = servers s1
  ∧ listeners s2 = listeners s1
  ∧ sockets s2 = sockets s1
  ∧ findRule idA (rules s2) = Some (iA, set_Running true rA)
  ∧ findRule idB (rules s2) = Some (iB, rB)
  ∧ is_Some (listeners s2 !! idA)
  ∧ listeners s2 !! idB = listeners s !! idB.
Proof.
  intros HfA HfB Hne HrA HrB Hport Hnz Hl. cbv zeta.
  destruct (StartServer_success idA s iA rA HfA HrA Hl)
    as (Hok1 & Hrules1 & _ & _ & Hlis1 & Hsock1 & _).
  destruct (StartServer_success_env idA s iA rA HfA HrA Hl)
    as (_ & Hfor1 & _).
  set (s1 := (StartServer idA s).2) in *.
  assert (HidA : ID rA = idA) by by apply findRule_Some in HfA as [_ ?].
  assert (HfB1 : findRule idB (rules s1) = Some (iB, rB)).
  { rewrite Hrules1.
    by apply (findRule_insert_other idB idA (rules s) iB rB iA rA). }
  assert (HfA1 : findRule idA (rules s1) = Some (iA, set_Running true rA)).
  { rewrite Hrules1. by apply findRule_insert_same with (r := rA). }
  assert (Hbusy : net_Listen (Port rB) s1 = None).
  { unfold net_Listen, port_in_use. rewrite Hsock1, existsb_app, Hport. cbn.
    rewrite Z.eqb_refl, orb_true_r. cbn.
    destruct (Z.eqb_spec (Port rA) 0); [done|]. cbn.
    by rewrite andb_false_r. }
  destruct (StartServer_bind_fails idB s1 iB rB HfB1 HrB Hbusy)
    as (Hok2 & Hrules2 & Hsrv2 & Hlis2 & Hsock2 & _).
  rewrite Hrules2, Hlis2.
  split_and!; try done.
  - rewrite Hlis1, lookup_insert_eq. by eexists.
  - rewrite Hlis1. by rewrite lookup_insert_ne.
Qed.

(** On [same_port_state]: [rule_1] and [rule_2] both ask for 1080. *)
Lemma port_conflict_witness :
  (StartServer "rule_2" (StartServer "rule_1" same_port_state).2).1 = false
  ∧ sockets (StartServer "rule_2" (StartServer "rule_1" same_port_state).2).2
    = sockets (StartServer "rule_1" same_port_state).2.
Proof.
  assert (Hl : is_Some (net_Listen
                          (Port (mkRule "rule_1" "a" 1080 "" "" true false
                                        false 0 0)) same_port_state))
    by (vm_compute; eauto).
  assert (Hne : ("rule_1" : string) ≠ "rule_2") by discriminate.
  assert (Hnz : Port (mkRule "rule_1" "a" 1080 "" "" true false false 0 0) ≠ 0)
    by (cbn; lia).
  pose proof (port_conflict "rule_1" "rule_2" same_port_state 0%nat 1%nat
                (mkRule "rule_1" "a" 1080 "" "" true false false 0 0)
                (mkRule "rule_2" "b" 1080 "u" "pw" false false true 0 0)
                eq_refl eq_refl Hne eq_refl eq_refl eq_refl Hnz Hl) as H.
  cbv zeta in H. destruct H as (_ & H2 & _ & _ & _ & H6 & _).
  split; [exact H2 | exact H6].
Defined.

(* ===================================================================== *)
(** ** Further properties: deleting and adding rules *)
(* ===================================================================== *)

(** The state after [DeleteRule] on a known id. *)
Lemma DeleteRule_post id s i r :
  findRule id (rules s) = Some (i, r) →
  let s' := (DeleteRule id s).2 in
  (DeleteRule id s).1 = true
  ∧ rules s' = take i (rules s) ++ drop (S i) (rules s)
  ∧ (Running r = true →
       counters s' = delete id (counters s)
       ∧ servers s' = delete id (servers s)
       ∧ listeners s' = delete id (listeners s))
  ∧ (Running r = false →
       counters s' = counters s ∧ servers s' = servers s
       ∧ listeners s' = listeners s ∧ sockets s' = sockets s).
Proof.
  intros Hf. cbv zeta. unfold DeleteRule. cbv zeta.
  change (rules (Lock AppMu s)) with (rules s). rewrite Hf. cbv beta iota.
  pose proof (findRule_lt _ _ _ _ Hf) as Hlt.
  assert (HfL : findRule id (rules (Lock AppMu s)) = Some (i, r)) by exact Hf.
  assert (EL : rules (Lock AppMu s) = rules s
               ∧ counters (Lock AppMu s) = counters s
               ∧ servers (Lock AppMu s) = servers s
               ∧ listeners (Lock AppMu s) = listeners s
               ∧ sockets (Lock AppMu s) = sockets s) by done.
  destruct EL as (EL1 & EL2 & EL3 & EL4 & EL5).
  set (sL := Lock AppMu s) in *.
  destruct (Running r) eqn:Hr.
  - rewrite (stopServerLocked_running id sL i r HfL Hr).
    cbn [fst snd].
    set (s0 := set_rules _ sL).
    assert (Hf0 : findRule id (rules s0) = Some (i, set_Running false r)).
    { apply findRule_insert_same with (r := r); [done|].
      by apply findRule_Some in Hf as [_ ?]. }
    destruct (drainCounter_rules _ _ _ _ Hf0) as (up & down & Hd).
    destruct (drainCounter_frame id s0) as (_ & _ & Hcn & Hs & Hli & _).
    destruct (teardown_maps id (drainCounter id s0)) as (M1 & M2 & M3).
    set (s1 := teardown id (drainCounter id s0)) in *.
    assert (Hr1 : rules s1 = <[i := set_traffic up down (set_Running false r)]>
                               (rules s)).
    { subst s1. rewrite teardown_rules, Hd. subst s0. proj.
      by rewrite list_insert_insert_eq, EL1. }
    destruct (saveRules_frame
                (set_rules (take i (rules s1) ++ drop (i + 1) (rules s1)) s1))
      as (R1 & R2 & R3 & R4 & _).
    set (s2 := (saveRules _).2) in *.
    change (rules (Unlock AppMu s2)) with (rules s2).
    change (counters (Unlock AppMu s2)) with (counters s2).
    change (servers (Unlock AppMu s2)) with (servers s2).
    change (listeners (Unlock AppMu s2)) with (listeners s2).
    rewrite R1, R2, R3, R4. proj.
    rewrite Hr1, take_insert_ge, drop_insert_lt, Nat.add_1_r by lia.
    rewrite M1, M2, M3, Hcn, Hs, Hli. subst s0. proj.
    rewrite EL2, EL3, EL4. split_and!; done.
  - cbv beta iota. cbn [fst snd].
    destruct (saveRules_frame
                (set_rules (take i (rules sL) ++ drop (i + 1) (rules sL)) sL))
      as (R1 & R2 & R3 & R4 & _ & _ & R7 & _).
    set (s2 := (saveRules _).2) in *.
    change (rules (Unlock AppMu s2)) with (rules s2).
    change (counters (Unlock AppMu s2)) with (counters s2).
    change (servers (Unlock AppMu s2)) with (servers s2).
    change (listeners (Unlock AppMu s2)) with (listeners s2).
    change (sockets (Unlock AppMu s2)) with (sockets s2).
    rewrite R1, R2, R3, R4, R7. proj.
    rewrite EL1, EL2, EL3, EL4, EL5, Nat.add_1_r.
    split_and!; done.
Qed.

(** X6.  [DeleteRule] on a known id returns success and removes exactly
    the first rule with that id: the list afterwards is the old list
    without position [i], all other rules as they were and in the same
    order.  A running instance is stopped first, so nothing is
    registered under the id afterwards; for a stopped rule the runtime
    maps and the sockets are not touched. *)
Theorem DeleteRule_spec id s i r :
  findRule id (rules s) = Some (i, r) →
  let s' := (DeleteRule id s).2 in
  (DeleteRule id s).1 = true
  ∧ rules s' = take i (rules s) ++ drop (S i) (rules s)
  ∧ S (length (rules s')) = length (rules s)
  ∧ (Running r = true →
       counters s' !! id = None ∧ servers s' !! id = None
       ∧ listeners s' !! id = None)
  ∧ (Running r = false →
       counters s' = counters s ∧ servers s' = servers s
       ∧ listeners s' = listeners s ∧ sockets s' = sockets s).
Proof.
  intros Hf. cbv zeta.
  destruct (DeleteRule_post id s i r Hf) as (H1 & H2 & H3 & H4).
  pose proof (findRule_lt _ _ _ _ Hf) as Hlt.
  split_and!; [done | done | | | done].
  - rewrite H2, length_app, length_take, length_drop. lia.
  - intros Hr. destruct (H3 Hr) as (-> & -> & ->).
    by rewrite !lookup_delete_eq.
Qed.

(** On [two_rules_state]: the running [rule_1] is deleted. *)
Lemma DeleteRule_spec_witness :
  ID <$> rules (DeleteRule "rule_1" two_rules_state).2 = ["rule_2"]
  ∧ listeners (DeleteRule "rule_1" two_rules_state).2 !! "rule_1" = None.
Proof.
  pose proof (DeleteRule_spec "rule_1" two_rules_state 0%nat
                (mkRule "rule_1" "a" 1080 "" "" true true false 0 0)
                eq_refl) as H.
  cbv zeta in H. destruct H as (_ & H2 & _ & H4 & _).
  split; [rewrite H2; reflexivity | by destruct (H4 eq_refl) as (_ & _ & ?)].
Defined.

(** X7.  Adding a rule whose id is not in the list yet and deleting it
    again under the returned id gives back the rule list as it was. *)
Theorem AddRule_DeleteRule_roundtrip rule s :
  findRule (assigned_id rule (length (rules s))) (rules s) = None →
  let id := (AddRule rule s).1 in
  let s1 := (AddRule rule s).2 in
  (DeleteRule id s1).1 = true
  ∧ rules (DeleteRule id s1).2 = rules s.
Proof.
  intros Hfresh. cbv zeta.
  destruct (AddRule_spec rule s) as [Hid Hrules]. rewrite Hid.
  set (id := assigned_id rule (length (rules s))) in *.
  assert (Hf : findRule id (rules (AddRule rule s).2)
               = Some (length (rules s), set_ID id rule)).
  { rewrite Hrules. unfold findRule in *.
    rewrite list_find_app_r by done. cbn.
    by rewrite decide_True by done. }
  destruct (DeleteRule_post id _ _ _ Hf) as (H1 & H2 & _).
  split; [done|]. rewrite H2, Hrules.
  rewrite take_app_length, drop_ge, app_nil_r; [done|].
  rewrite length_app. cbn. lia.
Qed.

Lemma AddRule_DeleteRule_roundtrip_witness :
  rules (DeleteRule "rule_2"
           (AddRule (mkRule "" "second" 1081 "" "" true false false 0 0)
                    one_rule_state).2).2
  = rules one_rule_state.
Proof.
  pose proof (AddRule_DeleteRule_roundtrip
                (mkRule "" "second" 1081 "" "" true false false 0 0)
                one_rule_state eq_refl) as H.
  cbv zeta in H. destruct H as [_ H]. exact H.
Defined.

(* ===================================================================== *)
(** ** Further properties: the configuration file *)
(* ===================================================================== *)

Lemma assign_missing_ids_length rs :
  length (assign_missing_ids rs) = length rs.
Proof. unfold assign_missing_ids. apply length_imap. Qed.

Lemma assign_missing_ids_running rs :
  Running <$> assign_missing_ids rs = Running <$> rs.
Proof.
  apply list_eq. intros i. unfold assign_missing_ids.
  rewrite !list_lookup_fmap, list_lookup_imap.
  destruct (rs !! i) as [r|]; [|done]. cbn. by case_bool_decide.
Qed.

(** X8.  [loadRules].  Without a configuration file it reports no error
    and changes nothing but the lock log; a file that cannot be read or
    parsed gives an error and leaves the rules as they are.  A file
    that parses replaces the rule list: records with an id are taken as
    they are, a record without one gets [rule_<position+1>], so that
    every loaded rule has an id; the [running] flags are taken from the
    file as written, and the runtime maps are not touched. *)
Theorem loadRules_spec s :
  match cfg_file s with
  | None => loadRules s = (None, logged [Acquire AppMu; Release AppMu] s)
  | Some content =>
      if fs_readable s then
        match content with
        | None =>
            loadRules s
            = (Some ErrUnmarshal, logged [Acquire AppMu; Release AppMu] s)
        | Some doc =>
            let s' := (loadRules s).2 in
            (loadRules s).1 = None
            ∧ no_blank_ids (rules s')
            ∧ length (rules s') = length doc
            ∧ Running <$> rules s' = Running <$> doc
            ∧ (∀ i r, doc !! i = Some r →
                 rules s' !! i
                 = Some (if bool_decide (ID r = "")
                         then set_ID (rule_name (i + 1)) r else r))
            ∧ servers s' = servers s ∧ listeners s' = listeners s
            ∧ counters s' = counters s
        end
      else
        loadRules s
        = (Some ErrReadFile, logged [Acquire AppMu; Release AppMu] s)
  end.
Proof.
  unfold loadRules. cbv zeta.
  change (cfg_file (Lock AppMu s)) with (cfg_file s).
  change (fs_readable (Lock AppMu s)) with (fs_readable s).
  destruct (cfg_file s) as [[doc|]|]; [| |by rewrite Unlock_Lock];
    (destruct (fs_readable s); cbn [negb]; [|by rewrite Unlock_Lock]).
  - proj. split_and!; try done.
    + apply assign_missing_ids_no_blank.
    + apply assign_missing_ids_length.
    + apply assign_missing_ids_running.
    + intros i r Hi. unfold assign_missing_ids.
      by rewrite list_lookup_imap, Hi.
  - by rewrite Unlock_Lock.
Qed.

Lemma file_step_refl f : file_step f f.
Proof. by left. Qed.

Lemma file_step_trans f f' f'' :
  file_step f f' → file_step f' f'' → file_step f f''.
Proof. intros H [->|H']; [done | by right]. Qed.

Lemma file_step_same f f' : f' = f → file_step f f'.
Proof. by left. Qed.

Lemma saveRules_file_step s : file_step (cfg_file s) (cfg_file (saveRules s).2).
Proof.
  unfold saveRules. destruct (fs_writable s); [right; by eexists | by left].
Qed.

Lemma drainCounter_cfg id s : cfg_file (drainCounter id s) = cfg_file s.
Proof.
  unfold drainCounter. cbn -[findRule].
  repeat (case_match; cbn -[findRule]; try done).
Qed.

Lemma teardown_file_step id s : file_step (cfg_file s) (cfg_file (teardown id s)).
Proof.
  unfold teardown. cbv zeta.
  eapply file_step_trans; [|apply saveRules_file_step].
  apply file_step_same. unfold StatsListener_Close, raw_Close. cbn.
  repeat (case_match; cbn; try done).
Qed.

Lemma stopServerLocked_file_step id s :
  file_step (cfg_file s) (cfg_file (stopServerLocked id s).2).
Proof.
  unfold stopServerLocked.
  destruct (findRule id (rules s)) as [[i r]|]; [|apply file_step_refl].
  destruct (Running r); cbn [negb fst snd]; [|apply file_step_refl].
  eapply file_step_trans; [|apply teardown_file_step].
  apply file_step_same. by rewrite drainCounter_cfg.
Qed.

Lemma startServerLocked_file_step id s :
  file_step (cfg_file s) (cfg_file (startServerLocked id s).2).
Proof.
  unfold startServerLocked, net_Listen. cbn -[findRule saveRules].
  destruct (findRule id (rules s)) as [[i r]|]; [|apply file_step_refl].
  destruct (Running r); [apply file_step_refl|]. cbn -[findRule saveRules].
  destruct (_ && _); [|apply file_step_refl]. cbn -[findRule saveRules].
  eapply file_step_trans; [|apply saveRules_file_step].
  apply file_step_refl.
Qed.

Lemma syncToRule_cfg p s : cfg_file (syncToRule p s) = cfg_file s.
Proof.
  unfold syncToRule. cbn -[findRule Nat.modulo].
  repeat (case_match; cbn -[findRule Nat.modulo]; try done).
Qed.

Lemma io_step_cfg s e : cfg_file (io_step s e) = cfg_file s.
Proof.
  destruct e as [c n err|c n err|d]; cbn [io_step]; [| |done].
  - unfold TrafficConnWrapper_Read. destruct (conns s !! c); [|done].
    cbn [snd]. destruct (n >? 0); [|done].
    unfold CountDownload. cbn -[syncToRule].
    destruct (heap s !! _); [|done]. case_match; [|done].
    by rewrite syncToRule_cfg.
  - unfold TrafficConnWrapper_Write. destruct (conns s !! c); [|done].
    cbn [snd]. destruct (n >? 0); [|done].
    unfold CountUpload. cbn -[syncToRule].
    destruct (heap s !! _); [|done]. case_match; [|done].
    by rewrite syncToRule_cfg.
Qed.

Lemma shutdown_stops_file_step order : ∀ s,
  file_step (cfg_file s)
            (cfg_file (foldl (λ s id, (stopServerLocked id s).2) s order)).
Proof.
  induction order as [|id order IH]; intros s; [apply file_step_refl|].
  cbn [foldl]. eapply file_step_trans; [apply stopServerLocked_file_step|].
  apply IH.
Qed.

(** Every step writes the file through [saveRules] or not at all. *)
Lemma call_step_file_step s c :
  file_step (cfg_file s) (cfg_file (call_step s c)).
Proof.
  destruct c as [| |rule|rule|id|id|id|id|id|id|e|order]; cbn [call_step].
  - apply file_step_same. unfold startup, loadRules. cbn.
    repeat (case_match; simplify_eq; cbn; try done).
  - apply file_step_refl.
  - unfold AddRule. cbv zeta. cbn [snd].
    change (cfg_file (Unlock AppMu ?x)) with (cfg_file x).
    eapply file_step_trans; [|apply saveRules_file_step]. apply file_step_refl.
  - unfold UpdateRule. cbv zeta.
    change (rules (Lock AppMu s)) with (rules s).
    destruct (findRule (ID rule) (rules s)) as [[i r]|]; [|apply file_step_refl].
    cbn [fst snd].
    change (cfg_file (Unlock AppMu ?x)) with (cfg_file x).
    eapply file_step_trans; [|apply saveRules_file_step].
    set (s1 := if Running r then _ else _).
    assert (H1 : file_step (cfg_file s) (cfg_file s1)).
    { subst s1. destruct (Running r); [|apply file_step_refl].
      apply (stopServerLocked_file_step (ID rule) (Lock AppMu s)). }
    set (s2 := set_rules _ s1).
    destruct (_ && _); [|exact H1].
    eapply file_step_trans; [exact H1|].
    apply (startServerLocked_file_step _ s2).
  - unfold DeleteRule. cbv zeta.
    change (rules (Lock AppMu s)) with (rules s).
    destruct (findRule id (rules s)) as [[i r]|]; [|apply file_step_refl].
    cbn [fst snd].
    change (cfg_file (Unlock AppMu ?x)) with (cfg_file x).
    eapply file_step_trans; [|apply saveRules_file_step].
    change (cfg_file (set_rules ?x ?y)) with (cfg_file y).
    destruct (Running r); [|apply file_step_refl].
    apply (stopServerLocked_file_step id (Lock AppMu s)).
  - unfold StartServer. cbv zeta.
    pose proof (startServerLocked_file_step id (Lock AppMu s)) as H.
    by destruct (startServerLocked id (Lock AppMu s)).
  - unfold StopServer. cbv zeta.
    pose proof (stopServerLocked_file_step id (Lock AppMu s)) as H.
    by destruct (stopServerLocked id (Lock AppMu s)).
  - apply file_step_refl.
  - unfold ResetTrafficStats. cbv zeta.
    change (rules (Lock AppMu s)) with (rules s).
    destruct (findRule id (rules s)) as [[i r]|]; [|apply file_step_refl].
    cbn [fst snd].
    change (cfg_file (Unlock AppMu ?x)) with (cfg_file x).
    eapply file_step_trans; [|apply saveRules_file_step]. apply file_step_refl.
  - apply file_step_same. unfold accept_on, StatsListener_Accept.
    repeat (case_match; cbn; try done).
  - apply file_step_same, io_step_cfg.
  - unfold shutdown. cbv zeta.
    change (cfg_file (Unlock AppMu ?x)) with (cfg_file x).
    change (cfg_file (set_counters ?x ?y)) with (cfg_file y).
    change (cfg_file (set_listeners ?x ?y)) with (cfg_file y).
    change (cfg_file (set_servers ?x ?y)) with (cfg_file y).
    eapply file_step_trans; [|apply shutdown_stops_file_step].
    apply (saveRules_file_step (Lock AppMu s)).
Qed.

(** X10.  Whatever the application does, the configuration file is
    either still the file it found at start or a snapshot in which
    every record has [running] false: a running flag is never
    persisted. *)
Theorem persisted_rules_are_stopped cs foreign file now :
  file_ok file (cfg_file (run_calls cs (NewApp foreign file now))).
Proof.
  unfold run_calls.
  assert (H : file_ok file (cfg_file (NewApp foreign file now))) by by left.
  revert H. generalize (NewApp foreign file now) as s.
  induction cs as [|c cs IH]; intros s H; [done|].
  cbn [foldl]. apply IH.
  destruct (call_step_file_step s c) as [->|[rs ->]]; [done|].
  right. eexists. split; [done|].
  rewrite Forall_fmap. apply Forall_forall. by intros [].
Qed.

(* ===================================================================== *)
(** ** Further properties: the runtime maps *)
(* ===================================================================== *)

Lemma maps_ok_same s s' :
  servers s' = servers s → listeners s' = listeners s →
  counters s' = counters s → maps_ok s → maps_ok s'.
Proof. unfold maps_ok. by intros -> -> ->. Qed.

Lemma syncToRule_maps p s :
  servers (syncToRule p s) = servers s
  ∧ listeners (syncToRule p s) = listeners s
  ∧ counters (syncToRule p s) = counters s.
Proof.
  unfold syncToRule. cbn -[findRule Nat.modulo].
  repeat (case_match; cbn -[findRule Nat.modulo]; try done).
Qed.

Lemma io_step_maps s e :
  servers (io_step s e) = servers s
  ∧ listeners (io_step s e) = listeners s
  ∧ counters (io_step s e) = counters s.
Proof.
  destruct e as [c n err|c n err|d]; cbn [io_step]; [| |done].
  - unfold TrafficConnWrapper_Read. destruct (conns s !! c); [|done].
    cbn [snd]. destruct (n >? 0); [|done].
    unfold CountDownload. cbn -[syncToRule].
    destruct (heap s !! _); [|done]. case_match; [|done].
    match goal with
    | |- context [syncToRule ?p ?x] =>
        destruct (syncToRule_maps p x) as (E1 & E2 & E3)
    end.
    by rewrite E1, E2, E3.
  - unfold TrafficConnWrapper_Write. destruct (conns s !! c); [|done].
    cbn [snd]. destruct (n >? 0); [|done].
    unfold CountUpload. cbn -[syncToRule].
    destruct (heap s !! _); [|done]. case_match; [|done].
    match goal with
    | |- context [syncToRule ?p ?x] =>
        destruct (syncToRule_maps p x) as (E1 & E2 & E3)
    end.
    by rewrite E1, E2, E3.
Qed.

Lemma stopServerLocked_maps id s :
  (servers (stopServerLocked id s).2 = servers s
   ∧ listeners (stopServerLocked id s).2 = listeners s
   ∧ counters (stopServerLocked id s).2 = counters s)
  ∨ (servers (stopServerLocked id s).2 = delete id (servers s)
     ∧ listeners (stopServerLocked id s).2 = delete id (listeners s)
     ∧ counters (stopServerLocked id s).2 = delete id (counters s)).
Proof.
  unfold stopServerLocked.
  destruct (findRule id (rules s)) as [[i r]|]; [|by left].
  destruct (Running r); cbn [negb fst snd]; [|by left]. right.
  set (s0 := set_rules _ s).
  destruct (teardown_maps id (drainCounter id s0)) as (-> & -> & ->).
  by destruct (drainCounter_frame id s0) as (_ & _ & -> & -> & -> & _).
Qed.

Lemma startServerLocked_maps id s :
  (servers (startServerLocked id s).2 = servers s
   ∧ listeners (startServerLocked id s).2 = listeners s
   ∧ (counters (startServerLocked id s).2 = counters s
      ∨ ∃ p, counters (startServerLocked id s).2 = <[id := p]> (counters s)))
  ∨ (∃ srv l p,
       servers (startServerLocked id s).2 = <[id := srv]> (servers s)
       ∧ listeners (startServerLocked id s).2 = <[id := l]> (listeners s)
       ∧ counters (startServerLocked id s).2 = <[id := p]> (counters s)).
Proof.
  unfold startServerLocked, net_Listen, saveRules. cbn -[findRule].
  destruct (findRule id (rules s)) as [[i r]|];
    [|left; split_and!; [done | done | by left]].
  destruct (Running r); [left; split_and!; [done | done | by left]|].
  cbn -[findRule].
  destruct (_ && _); cbn -[findRule].
  - right. destruct (fs_writable s); cbn; eexists _, _, _; split_and!; done.
  - left. split_and!; [done | done | right; by eexists].
Qed.

Lemma stopServerLocked_maps_ok id s :
  maps_ok s → maps_ok (stopServerLocked id s).2.
Proof.
  intros [Hdom Hsub].
  destruct (stopServerLocked_maps id s) as [(E1 & E2 & E3)|(E1 & E2 & E3)];
    unfold maps_ok; rewrite E1, E2, E3; [done|].
  rewrite !dom_delete_L. set_solver.
Qed.

Lemma startServerLocked_maps_ok id s :
  maps_ok s → maps_ok (startServerLocked id s).2.
Proof.
  intros [Hdom Hsub].
  destruct (startServerLocked_maps id s)
    as [(E1 & E2 & [E3|[p E3]])|(srv & l & p & E1 & E2 & E3)];
    unfold maps_ok; rewrite E1, E2, E3; rewrite ?dom_insert_L; set_solver.
Qed.

Lemma saveRules_maps_ok s : maps_ok s → maps_ok (saveRules s).2.
Proof.
  destruct (saveRules_frame s) as (_ & E1 & E2 & E3 & _).
  by apply maps_ok_same.
Qed.

Lemma call_step_maps_ok s c : maps_ok s → maps_ok (call_step s c).
Proof.
  intros H.
  destruct c as [| |rule|rule|id|id|id|id|id|id|e|order]; cbn [call_step].
  - revert H. apply maps_ok_same; unfold startup, loadRules; cbn;
      repeat (case_match; simplify_eq; cbn; try done).
  - done.
  - unfold AddRule. cbv zeta. cbn [snd].
    change (maps_ok (Unlock AppMu ?x)) with (maps_ok x).
    apply saveRules_maps_ok. exact H.
  - unfold UpdateRule. cbv zeta.
    change (rules (Lock AppMu s)) with (rules s).
    destruct (findRule (ID rule) (rules s)) as [[i r]|]; [|done].
    cbn [fst snd]. change (maps_ok (Unlock AppMu ?x)) with (maps_ok x).
    apply saveRules_maps_ok.
    set (s1 := if Running r then _ else _).
    assert (H1 : maps_ok s1).
    { subst s1. destruct (Running r); [|done].
      by apply (stopServerLocked_maps_ok _ (Lock AppMu s)). }
    set (s2 := set_rules _ s1).
    assert (H2 : maps_ok s2) by exact H1.
    destruct (_ && _); [|done]. by apply startServerLocked_maps_ok.
  - unfold DeleteRule. cbv zeta.
    change (rules (Lock AppMu s)) with (rules s).
    destruct (findRule id (rules s)) as [[i r]|]; [|done].
    cbn [fst snd]. change (maps_ok (Unlock AppMu ?x)) with (maps_ok x).
    apply saveRules_maps_ok.
    change (maps_ok (set_rules ?x ?y)) with (maps_ok y).
    destruct (Running r); [|done].
    by apply (stopServerLocked_maps_ok _ (Lock AppMu s)).
  - unfold StartServer. cbv zeta.
    pose proof (startServerLocked_maps_ok id (Lock AppMu s) H) as H'.
    by destruct (startServerLocked id (Lock AppMu s)).
  - unfold StopServer. cbv zeta.
    pose proof (stopServerLocked_maps_ok id (Lock AppMu s) H) as H'.
    by destruct (stopServerLocked id (Lock AppMu s)).
  - done.
  - unfold ResetTrafficStats. cbv zeta.
    change (rules (Lock AppMu s)) with (rules s).
    destruct (findRule id (rules s)) as [[i r]|]; [|done].
    cbn [fst snd]. change (maps_ok (Unlock AppMu ?x)) with (maps_ok x).
    apply saveRules_maps_ok. exact H.
  - revert H. apply maps_ok_same; unfold accept_on, StatsListener_Accept;
      repeat (case_match; cbn; try done).
  - destruct (io_step_maps s e) as (E1 & E2 & E3). by apply (maps_ok_same s).
  - unfold shutdown, maps_ok. cbv zeta. proj. by rewrite !dom_empty_L.
Qed.

(** X11.  In every state the application reaches, a server handle and a
    listener are registered under exactly the same ids, and every one
    of these ids has a counter registered as well. *)
Theorem runtime_maps_agree cs foreign file now :
  maps_ok (run_calls cs (NewApp foreign file now)).
Proof.
  unfold run_calls.
  assert (H : maps_ok (NewApp foreign file now)).
  { unfold maps_ok, NewApp. proj. by rewrite !dom_empty_L. }
  revert H. generalize (NewApp foreign file now) as s.
  induction cs as [|c cs IH]; intros s H; [done|].
  cbn [foldl]. apply IH. by apply call_step_maps_ok.
Qed.

(* ===================================================================== *)
(** ** Further properties: no listener without a running rule *)
(* ===================================================================== *)

(** Replacing a rule by one of the same id keeps [live_ok], as long as
    the listeners of the other ids were there before and the id of the
    replaced rule, if it has a listener, finds a running rule. *)
Lemma live_ok_insert s s' j r0 r' :
  rules s !! j = Some r0 →
  ID r' = ID r0 →
  rules s' = <[j := r']> (rules s) →
  (∀ id l, listeners s' !! id = Some l → id ≠ ID r0 →
           is_Some (listeners s !! id)) →
  (is_Some (listeners s' !! ID r0) →
   ∃ i r, findRule (ID r0) (rules s') = Some (i, r) ∧ Running r = true) →
  live_ok s → live_ok s'.
Proof.
  intros Hj Hid Hrules Hold Hnew Hlive id l Hl.
  destruct (decide (id = ID r0)) as [->|Hne]; [by apply Hnew; eexists|].
  destruct (Hold id l Hl Hne) as [l0 Hl0].
  destruct (Hlive id l0 Hl0) as (i & r & Hf & Hr).
  exists i, r. split; [|done].
  rewrite Hrules, (findRule_insert_keep id (rules s) j r0 r' Hj Hid), Hf.
  cbn. rewrite decide_False; [done|].
  intros ->. apply findRule_Some in Hf as [Hi Hidr]. congruence.
Qed.

(** The same when the running flag of the replaced rule is kept and the
    listeners are the same. *)
Lemma live_ok_insert_flag s s' j r0 r' :
  rules s !! j = Some r0 →
  ID r' = ID r0 →
  Running r' = Running r0 →
  rules s' = <[j := r']> (rules s) →
  listeners s' = listeners s →
  live_ok s → live_ok s'.
Proof.
  intros Hj Hid Hrun Hrules Hlis Hlive.
  apply (live_ok_insert s s' j r0 r' Hj Hid Hrules); [| |done].
  - intros id l Hl _. rewrite Hlis in Hl. by eexists.
  - rewrite Hlis. intros [l Hl].
    destruct (Hlive _ l Hl) as (i & r & Hf & Hr).
    rewrite Hrules, (findRule_insert_keep _ (rules s) j r0 r' Hj Hid), Hf.
    cbn. eexists _, _. split; [done|].
    case_decide as E; [|done]. subst i.
    apply findRule_Some in Hf as [Hi _]. congruence.
Qed.

Lemma live_ok_same s s' :
  rules s' = rules s → listeners s' = listeners s → live_ok s → live_ok s'.
Proof. unfold live_ok. by intros -> ->. Qed.

Lemma syncToRule_live_ok p s : live_ok s → live_ok (syncToRule p s).
Proof.
  intros H. destruct (syncToRule_maps p s) as (_ & Hlis & _).
  destruct (heap s !! p) as [t|] eqn:Hp.
  - destruct (findRule (ruleID t) (rules s)) as [[i rule]|] eqn:Hf.
    + destruct (syncToRule_flush p s t i rule Hp Hf) as (Hr & _).
      apply findRule_Some in Hf as [Hi _].
      by eapply (live_ok_insert_flag s _ i rule); [exact Hi| | |exact Hr|..].
    + revert H. apply live_ok_same; [|done].
      unfold syncToRule. cbn -[findRule]. by rewrite Hp, Hf.
  - revert H. apply live_ok_same; [|done].
    unfold syncToRule. cbn -[findRule]. by rewrite Hp.
Qed.

Lemma io_step_live_ok s e : live_ok s → live_ok (io_step s e).
Proof.
  intros H. destruct e as [c n err|c n err|d]; cbn [io_step]; [| |done].
  - unfold TrafficConnWrapper_Read. destruct (conns s !! c); [|done].
    cbn [snd]. destruct (n >? 0); [|done].
    unfold CountDownload. cbv zeta.
    change (heap (Lock ?m s)) with (heap s).
    destruct (heap s !! _); [|done].
    change (live_ok (Unlock ?m ?x)) with (live_ok x).
    case_match; [|done]. by apply syncToRule_live_ok.
  - unfold TrafficConnWrapper_Write. destruct (conns s !! c); [|done].
    cbn [snd]. destruct (n >? 0); [|done].
    unfold CountUpload. cbv zeta.
    change (heap (Lock ?m s)) with (heap s).
    destruct (heap s !! _); [|done].
    change (live_ok (Unlock ?m ?x)) with (live_ok x).
    case_match; [|done]. by apply syncToRule_live_ok.
Qed.

Lemma saveRules_live_ok s : live_ok s → live_ok (saveRules s).2.
Proof.
  destruct (saveRules_frame s) as (E1 & _ & E2 & _). by apply live_ok_same.
Qed.

Lemma stopServerLocked_live_ok id s :
  live_ok s → live_ok (stopServerLocked id s).2.
Proof.
  intros H. unfold stopServerLocked.
  destruct (findRule id (rules s)) as [[i r]|] eqn:Hf; [|done].
  destruct (Running r) eqn:Hr; cbn [negb fst snd]; [|done].
  set (s0 := set_rules _ s).
  assert (Hf0 : findRule id (rules s0) = Some (i, set_Running false r)).
  { apply findRule_insert_same with (r := r); [done|].
    by apply findRule_Some in Hf as [_ ?]. }
  destruct (drainCounter_rules _ _ _ _ Hf0) as (up & down & Hd).
  destruct (drainCounter_frame id s0) as (_ & _ & _ & _ & Hli & _).
  destruct (teardown_maps id (drainCounter id s0)) as (_ & _ & M3).
  pose proof (findRule_Some _ _ _ _ Hf) as [Hi Hid].
  apply (live_ok_insert s _ i r (set_traffic up down (set_Running false r)));
    [done | done | | | | done].
  - rewrite teardown_rules, Hd. subst s0. proj.
    by rewrite list_insert_insert_eq.
  - intros id' l. rewrite M3, Hli. subst s0. proj.
    intros Hl Hne. rewrite lookup_delete_ne in Hl by congruence. by eexists.
  - rewrite M3, Hid, lookup_delete_eq. by intros [? ?].
Qed.

Lemma startServerLocked_live_ok id s :
  live_ok s → live_ok (startServerLocked id s).2.
Proof.
  intros H.
  destruct (findRule id (rules s)) as [[i r]|] eqn:Hf.
  - destruct (Running r) eqn:Hr.
    + by rewrite (startServerLocked_running id s i r Hf Hr).
    + destruct (net_Listen (Port r) s) as [[h sl]|] eqn:Hl.
      * assert (Hsome : is_Some (net_Listen (Port r) s)) by by eexists.
        pose proof (StartServer_success id s i r Hf Hr Hsome)
          as (_ & Hrules & _ & _ & Hlis & _).
        pose proof (findRule_Some _ _ _ _ Hf) as [Hi Hid].
        assert (E : (StartServer id s).2
                    = Unlock AppMu (startServerLocked id (Lock AppMu s)).2).
        { unfold StartServer. cbv zeta.
          by destruct (startServerLocked id (Lock AppMu s)). }
        rewrite E in Hrules, Hlis. clear E.
        assert (Es : rules (startServerLocked id s).2
                     = <[i := set_Running true r]> (rules s)
                     ∧ listeners (startServerLocked id s).2
                       = <[id := mkStats (length (sockets s))
                                         (Some (length (heap s))) id]>
                           (listeners s)).
        { clear Hrules Hlis. unfold startServerLocked. rewrite Hf.
          cbv beta iota. rewrite Hr. cbv beta iota zeta.
          unfold NewTrafficCounter.
          rewrite (surjective_pairing (_, _)). cbn [fst snd].
          unfold net_Listen in *.
          match goal with
          | |- context [if ?b then _ else _] => change b with
              ((0 <=? Port r) && (Port r <=? 65535)
               && ((Port r =? 0) || negb (port_in_use (Port r) s)))
          end.
          destruct (_ && _); [|done]. unfold saveRules. proj.
          rewrite lookup_insert_eq.
          destruct (fs_writable s); proj; split; reflexivity. }
        destruct Es as [Er El].
        apply (live_ok_insert s _ i r (set_Running true r));
          [done | done | done | | | done].
        -- intros id' l. rewrite El, Hid. intros Hl' Hne.
           rewrite lookup_insert_ne in Hl' by congruence. by eexists.
        -- intros _. rewrite Er. exists i, (set_Running true r).
           split; [|done].
           apply findRule_insert_same with (r := r); [by rewrite Hid | done].
      * revert H. apply live_ok_same.
        -- unfold startServerLocked. rewrite Hf. cbv beta iota. rewrite Hr.
           cbv beta iota zeta. unfold NewTrafficCounter.
           rewrite (surjective_pairing (_, _)). cbn [fst snd].
           erewrite net_Listen_frame; [done| | |exact Hl]; done.
        -- unfold startServerLocked. rewrite Hf. cbv beta iota. rewrite Hr.
           cbv beta iota zeta. unfold NewTrafficCounter.
           rewrite (surjective_pairing (_, _)). cbn [fst snd].
           erewrite net_Listen_frame; [done| | |exact Hl]; done.
  - unfold startServerLocked. by rewrite Hf.
Qed.

(** Removing a rule with another id keeps what [findRule] finds. *)
Lemma findRule_remove_other id' rs i r k x :
  rs !! i = Some r →
  ID r ≠ id' →
  findRule id' rs = Some (k, x) →
  ∃ k', findRule id' (take i rs ++ drop (S i) rs) = Some (k', x).
Proof.
  intros Hi Hne Hf. unfold findRule in *.
  rewrite <- (take_drop_middle rs i r Hi) in Hf.
  apply list_find_app_Some in Hf as [Hf|(Hlen & Hnone & Hf)].
  - exists k. by apply list_find_app_l.
  - cbn in Hf. rewrite decide_False in Hf by done.
    apply fmap_Some in Hf as ([k0 x0] & Hf & E). cbn in E.
    injection E as _ ->.
    rewrite list_find_app_r, Hf by done. cbn. by eexists.
Qed.

(** After [stopServerLocked] on the rule found for [id], or when that
    rule was not running, no listener is registered under [id]. *)
Lemma stop_if_running_post id s i r :
  live_ok s →
  findRule id (rules s) = Some (i, r) →
  let s1 := if Running r then (stopServerLocked id s).2 else s in
  live_ok s1
  ∧ listeners s1 !! id = None
  ∧ ∃ r1, rules s1 !! i = Some r1 ∧ ID r1 = id.
Proof.
  intros Hlive Hf. cbv zeta.
  pose proof (findRule_Some _ _ _ _ Hf) as [Hi Hid].
  pose proof (findRule_lt _ _ _ _ Hf) as Hlt.
  destruct (Running r) eqn:Hr.
  - split; [by apply stopServerLocked_live_ok|].
    rewrite (stopServerLocked_running id s i r Hf Hr). cbn [snd].
    set (s0 := set_rules _ s).
    assert (Hf0 : findRule id (rules s0) = Some (i, set_Running false r)).
    { by apply findRule_insert_same with (r := r). }
    destruct (drainCounter_rules _ _ _ _ Hf0) as (up & down & Hd).
    destruct (teardown_unregisters id (drainCounter id s0)) as (_ & _ & Hl).
    split; [done|]. rewrite teardown_rules, Hd.
    eexists. split; [|shelve].
    apply list_lookup_insert_eq. subst s0. proj. by rewrite length_insert.
    Unshelve. done.
  - split_and!; [done | | by eexists].
    destruct (listeners s !! id) as [l|] eqn:Hl; [|done].
    destruct (Hlive id l Hl) as (i' & r' & Hf' & Hr'). congruence.
Qed.

Lemma call_step_live_ok s c :
  c ≠ CallStartup → live_ok s → live_ok (call_step s c).
Proof.
  intros Hc H.
  destruct c as [| |rule|rule|id|id|id|id|id|id|e|order]; cbn [call_step].
  - done.
  - done.
  - destruct (AddRule_spec rule s) as [_ Hr].
    intros id l Hl.
    assert (Hl' : listeners s !! id = Some l).
    { revert Hl. unfold AddRule, saveRules. cbn. by case_match. }
    destruct (H id l Hl') as (i & r & Hf & Hrun).
    exists i, r. split; [|done]. rewrite Hr. by apply list_find_app_l.
  - unfold UpdateRule. cbv zeta.
    change (rules (Lock AppMu s)) with (rules s).
    destruct (findRule (ID rule) (rules s)) as [[i r]|] eqn:Hf; [|done].
    cbn [fst snd]. change (live_ok (Unlock AppMu ?x)) with (live_ok x).
    apply saveRules_live_ok.
    assert (HL : live_ok (Lock AppMu s)) by exact H.
    destruct (stop_if_running_post (ID rule) (Lock AppMu s) i r HL Hf)
      as (H1 & Hnone & r1 & Hi1 & Hid1).
    set (s1 := if Running r then _ else _) in *.
    set (rule' := set_traffic _ _ rule).
    set (s2 := set_rules _ s1).
    assert (H2 : live_ok s2).
    { apply (live_ok_insert s1 s2 i r1 rule' Hi1); [done | done | | | done].
      - intros id l Hl _. by eexists.
      - rewrite Hid1. change (listeners s2) with (listeners s1).
        rewrite Hnone. by intros [? ?]. }
    destruct (_ && _); [|done]. by apply startServerLocked_live_ok.
  - unfold DeleteRule. cbv zeta.
    change (rules (Lock AppMu s)) with (rules s).
    destruct (findRule id (rules s)) as [[i r]|] eqn:Hf; [|done].
    cbn [fst snd]. change (live_ok (Unlock AppMu ?x)) with (live_ok x).
    apply saveRules_live_ok.
    assert (HL : live_ok (Lock AppMu s)) by exact H.
    destruct (stop_if_running_post id (Lock AppMu s) i r HL Hf)
      as (H1 & Hnone & r1 & Hi1 & Hid1).
    set (s1 := if Running r then _ else _) in *.
    intros id' l Hl. change (listeners (set_rules ?x s1)) with (listeners s1) in Hl.
    assert (Hne : ID r1 ≠ id') by (intros <-; congruence).
    destruct (H1 id' l Hl) as (k & x & Hfx & Hrx).
    destruct (findRule_remove_other id' (rules s1) i r1 k x Hi1 Hne Hfx)
      as (k' & Hk').
    exists k', x. split; [|done]. proj. by rewrite Nat.add_1_r.
  - unfold StartServer. cbv zeta.
    pose proof (startServerLocked_live_ok id (Lock AppMu s) H) as H'.
    by destruct (startServerLocked id (Lock AppMu s)).
  - unfold StopServer. cbv zeta.
    pose proof (stopServerLocked_live_ok id (Lock AppMu s) H) as H'.
    by destruct (stopServerLocked id (Lock AppMu s)).
  - done.
  - unfold ResetTrafficStats. cbv zeta.
    change (rules (Lock AppMu s)) with (rules s).
    destruct (findRule id (rules s)) as [[i r]|] eqn:Hf; [|done].
    cbn [fst snd]. change (live_ok (Unlock AppMu ?x)) with (live_ok x).
    apply saveRules_live_ok.
    apply findRule_Some in Hf as [Hi _].
    by eapply (live_ok_insert_flag s _ i r (set_traffic 0 0 r)).
  - revert H. apply live_ok_same; unfold accept_on, StatsListener_Accept;
      repeat (case_match; cbn; try done).
  - by apply io_step_live_ok.
  - unfold shutdown. cbv zeta. intros id l. proj. by rewrite lookup_empty.
Qed.

(** X12.  After start-up, whatever calls follow, every registered
    listener belongs to a rule that is found under its id and marked
    running: the application never keeps a listener for a rule it
    shows as stopped or has deleted. *)
Theorem listener_implies_running cs foreign file now :
  Forall (λ c, c ≠ CallStartup) cs →
  live_ok (run_calls cs (startup (NewApp foreign file now))).
Proof.
  unfold run_calls. intros Hcs.
  assert (H : live_ok (startup (NewApp foreign file now))).
  { intros id l Hl. exfalso. revert Hl. unfold startup, loadRules. cbn.
    repeat (case_match; simplify_eq; cbn; try done). }
  revert H. generalize (startup (NewApp foreign file now)) as s.
  induction Hcs as [|c cs Hc _ IH]; intros s H; [done|].
  cbn [foldl]. apply IH. by apply call_step_live_ok.
Qed.

Lemma listener_implies_running_witness :
  live_ok (run_calls [CallAddRule (mkRule "" "t" 1080 "" "" true false false 0 0);
                      CallStartServer "rule_1";
                      CallUpdateRule edited_rule;
                      CallDeleteRule "rule_1"]
                     (startup (NewApp [] None 0))).
Proof.
  apply listener_implies_running.
  repeat (constructor; [discriminate|]). constructor.
Defined.

(* ===================================================================== *)
(** ** Further properties: the lock order of the control surface *)
(* ===================================================================== *)

Lemma counter_pairs_app evs evs' :
  counter_pairs evs → counter_pairs evs' → counter_pairs (evs ++ evs').
Proof. induction 1; intros; cbn; [done | constructor; auto]. Qed.

Lemma order_ok_pairs inner rest :
  counter_pairs inner →
  order_ok [AppMu] (inner ++ rest) = order_ok [AppMu] rest.
Proof.
  induction 1 as [|p evs _ IH]; [done|]. cbn [app order_ok andb].
  rewrite filter_cons, decide_False by (intros H; by apply H).
  rewrite filter_cons, decide_True by done. by rewrite filter_nil.
Qed.

Lemma registry_first_ok tr : registry_first tr → order_ok [] tr = true.
Proof.
  intros [->|(inner & Hin & ->)]; [done|]. cbn [order_ok existsb negb andb].
  by rewrite (order_ok_pairs inner _ Hin).
Qed.

Lemma startServerLocked_locklog id s :
  locklog (startServerLocked id s).2 = locklog s.
Proof.
  unfold startServerLocked, net_Listen, saveRules. cbn -[findRule].
  destruct (findRule id (rules s)) as [[i r]|]; [|done].
  destruct (Running r); [done|]. cbn -[findRule].
  destruct (_ && _); [|done]. cbn -[findRule].
  by destruct (fs_writable s).
Qed.

Lemma stopServerLocked_locklog id s :
  ∃ inner, counter_pairs inner
           ∧ locklog (stopServerLocked id s).2 = locklog s ++ inner.
Proof.
  unfold stopServerLocked.
  destruct (findRule id (rules s)) as [[i r]|];
    [|exists []; split; [constructor | by rewrite app_nil_r]].
  destruct (Running r); cbn [negb fst snd];
    [|exists []; split; [constructor | by rewrite app_nil_r]].
  rewrite teardown_locklog. set (s0 := set_rules _ s).
  destruct (counters s0 !! id) as [p|] eqn:Hc.
  - exists [Acquire (CounterMu p); Release (CounterMu p)].
    split; [repeat constructor|]. by rewrite (drainCounter_locklog id s0 p Hc).
  - exists []. split; [constructor|]. unfold drainCounter. rewrite Hc.
    by rewrite app_nil_r.
Qed.

Lemma shutdown_stops_locklog order : ∀ s,
  ∃ inner, counter_pairs inner
           ∧ locklog (foldl (λ s id, (stopServerLocked id s).2) s order)
             = locklog s ++ inner.
Proof.
  induction order as [|id order IH]; intros s.
  - exists []. split; [constructor | by rewrite app_nil_r].
  - cbn [foldl].
    destruct (stopServerLocked_locklog id s) as (in1 & P1 & E1).
    destruct (IH (stopServerLocked id s).2) as (in2 & P2 & E2).
    exists (in1 ++ in2). split; [by apply counter_pairs_app|].
    by rewrite E2, E1, app_assoc.
Qed.

(** A call that locks the registry, appends [inner] and unlocks. *)
Lemma registry_first_intro s s' inner :
  counter_pairs inner →
  locklog s' = (locklog s ++ [Acquire AppMu]) ++ inner ++ [Release AppMu] →
  registry_first (lock_trace s s').
Proof.
  intros Hin E. right. exists inner. split; [done|].
  apply lock_trace_app. rewrite E. by rewrite <- !app_assoc.
Qed.

Lemma registry_first_plain s s' :
  locklog s' = (locklog s ++ [Acquire AppMu]) ++ [Release AppMu] →
  registry_first (lock_trace s s').
Proof. intros E. by apply (registry_first_intro s s' []); [constructor|]. Qed.

Lemma lock_trace_none s s' : locklog s' = locklog s → lock_trace s s' = [].
Proof. intros E. apply lock_trace_app. by rewrite app_nil_r. Qed.

(** X13.  Every call of the control surface, start-up and shutdown
    included, either takes no mutex or takes the registry mutex first,
    takes counter mutexes only while it holds the registry mutex and one
    at a time, and releases everything before it returns.  None of them
    asks for the registry mutex while holding a counter mutex: that
    happens on the counting path only. *)
Theorem control_calls_lock_registry_first s c :
  control_call c = true →
  registry_first (lock_trace s (call_step s c))
  ∧ order_ok [] (lock_trace s (call_step s c)) = true.
Proof.
  intros Hc.
  assert (H : registry_first (lock_trace s (call_step s c)));
    [|split; [done | by apply registry_first_ok]].
  destruct c as [| |rule|rule|id|id|id|id|id|id|e|order]; cbn [call_step].
  - apply registry_first_plain. unfold startup, loadRules. cbn.
    repeat (case_match; simplify_eq; cbn; try done).
  - by apply registry_first_plain.
  - apply registry_first_plain. unfold AddRule. cbv zeta. cbn [snd].
    change (locklog (Unlock AppMu ?x)) with (locklog x ++ [Release AppMu]).
    match goal with
    | |- context [saveRules ?x] =>
        by destruct (saveRules_frame_env x) as (_ & _ & _ & _ & ->)
    end.
  - unfold UpdateRule. cbv zeta.
    change (rules (Lock AppMu s)) with (rules s).
    destruct (findRule (ID rule) (rules s)) as [[i r]|];
      [|by apply registry_first_plain].
    cbn [fst snd].
    set (s1 := if Running r then _ else _).
    assert (H1 : ∃ inner, counter_pairs inner
                 ∧ locklog s1 = locklog (Lock AppMu s) ++ inner).
    { subst s1. destruct (Running r).
      - apply stopServerLocked_locklog.
      - exists []. split; [constructor | by rewrite app_nil_r]. }
    destruct H1 as (inner & Hin & E1).
    set (s2 := set_rules _ s1).
    set (s3 := if _ && _ then _ else _).
    assert (E3 : locklog s3 = locklog s1).
    { subst s3. destruct (_ && _); [|done].
      by rewrite startServerLocked_locklog. }
    apply (registry_first_intro _ _ inner Hin).
    change (locklog (Unlock AppMu ?x)) with (locklog x ++ [Release AppMu]).
    destruct (saveRules_frame_env s3) as (_ & _ & _ & _ & ->).
    rewrite E3, E1. proj. by rewrite <- !app_assoc.
  - unfold DeleteRule. cbv zeta.
    change (rules (Lock AppMu s)) with (rules s).
    destruct (findRule id (rules s)) as [[i r]|];
      [|by apply registry_first_plain].
    cbn [fst snd].
    set (s1 := if Running r then _ else _).
    assert (H1 : ∃ inner, counter_pairs inner
                 ∧ locklog s1 = locklog (Lock AppMu s) ++ inner).
    { subst s1. destruct (Running r).
      - apply stopServerLocked_locklog.
      - exists []. split; [constructor | by rewrite app_nil_r]. }
    destruct H1 as (inner & Hin & E1).
    apply (registry_first_intro _ _ inner Hin).
    change (locklog (Unlock AppMu ?x)) with (locklog x ++ [Release AppMu]).
    destruct (saveRules_frame_env
                (set_rules (take i (rules s1) ++ drop (i + 1) (rules s1)) s1))
      as (_ & _ & _ & _ & ->).
    change (locklog (set_rules ?x s1)) with (locklog s1).
    rewrite E1. proj. by rewrite <- !app_assoc.
  - apply registry_first_plain. unfold StartServer. cbv zeta.
    pose proof (startServerLocked_locklog id (Lock AppMu s)) as E.
    destruct (startServerLocked id (Lock AppMu s)) as [ok s'].
    cbn [snd] in *.
    change (locklog (Unlock AppMu s')) with (locklog s' ++ [Release AppMu]).
    by rewrite E.
  - unfold StopServer. cbv zeta.
    destruct (stopServerLocked_locklog id (Lock AppMu s)) as (inner & Hin & E).
    destruct (stopServerLocked id (Lock AppMu s)) as [ok s'].
    cbn [snd] in *.
    apply (registry_first_intro _ _ inner Hin).
    change (locklog (Unlock AppMu s')) with (locklog s' ++ [Release AppMu]).
    rewrite E. proj. by rewrite <- !app_assoc.
  - by apply registry_first_plain.
  - apply registry_first_plain. unfold ResetTrafficStats. cbv zeta.
    change (rules (Lock AppMu s)) with (rules s).
    destruct (findRule id (rules s)) as [[i r]|]; [|done].
    cbn [fst snd].
    change (locklog (Unlock AppMu ?x)) with (locklog x ++ [Release AppMu]).
    match goal with
    | |- context [saveRules ?x] =>
        by destruct (saveRules_frame_env x) as (_ & _ & _ & _ & ->)
    end.
  - left. apply lock_trace_none. unfold accept_on, StatsListener_Accept.
    repeat (case_match; cbn; try done).
  - destruct e; [done | done |]. left. by apply lock_trace_none.
  - unfold shutdown. cbv zeta.
    destruct (shutdown_stops_locklog order (saveRules (Lock AppMu s)).2)
      as (inner & Hin & E).
    apply (registry_first_intro _ _ inner Hin).
    change (locklog (Unlock AppMu ?x)) with (locklog x ++ [Release AppMu]).
    change (locklog (set_counters ?x ?y)) with (locklog y).
    change (locklog (set_listeners ?x ?y)) with (locklog y).
    change (locklog (set_servers ?x ?y)) with (locklog y).
    rewrite E.
    destruct (saveRules_frame_env (Lock AppMu s)) as (_ & _ & _ & _ & ->).
    proj. by rewrite <- !app_assoc.
Qed.

(** On [traffic_state]: stopping the running [rule_1]. *)
Lemma control_calls_lock_registry_first_witness :
  order_ok [] (lock_trace traffic_state
                 (call_step traffic_state (CallStopServer "rule_1"))) = true.
Proof.
  exact (proj2 (control_calls_lock_registry_first traffic_state
                  (CallStopServer "rule_1") eq_refl)).
Defined.

(* ===================================================================== *)
(** ** Further properties: updating a rule *)
(* ===================================================================== *)

(** X14.  [UpdateRule] on a rule that is not marked running replaces
    that one entry by the rule sent, with the byte counts of the old
    entry, and persists; it starts and stops nothing, whatever running
    flag the caller sent: the runtime maps, the sockets and the counter
    objects are untouched, and the stored flag is the caller's. *)
Theorem UpdateRule_stopped_rule rule s i r :
  findRule (ID rule) (rules s) = Some (i, r) →
  Running r = false →
  let s' := (UpdateRule rule s).2 in
  (UpdateRule rule s).1 = true
  ∧ rules s'
    = <[i := set_traffic (UploadBytes r) (DownloadBytes r) rule]> (rules s)
  ∧ rules s' !! i
    = Some (set_traffic (UploadBytes r) (DownloadBytes r) rule)
  ∧ servers s' = servers s ∧ listeners s' = listeners s
  ∧ counters s' = counters s ∧ sockets s' = sockets s
  ∧ heap s' = heap s
  ∧ (fs_writable s = true →
     cfg_file s' = Some (Some (set_Running false <$> rules s'))).
Proof.
  intros Hf Hr. cbv zeta.
  pose proof (findRule_lt _ _ _ _ Hf) as Hlt.
  unfold UpdateRule. cbv zeta.
  change (rules (Lock AppMu s)) with (rules s). rewrite Hf. cbv beta iota.
  rewrite Hr. cbv beta iota. cbn [andb fst snd].
  unfold saveRules. proj.
  destruct (fs_writable s) eqn:Hw; proj;
    rewrite ?list_lookup_insert_eq by done; split_and!; done.
Qed.

(** On [one_rule_state]: the stopped rule [a] is sent back marked
    running, on another port, with byte counts of its own. *)
Lemma UpdateRule_stopped_rule_witness :
  rules (UpdateRule (mkRule "a" "renamed" 2000 "" "" true true false 9 9)
                    one_rule_state).2
  = [mkRule "a" "renamed" 2000 "" "" true true false 0 0]
  ∧ listeners (UpdateRule (mkRule "a" "renamed" 2000 "" "" true true false 9 9)
                          one_rule_state).2
    = listeners one_rule_state.
Proof.
  pose proof (UpdateRule_stopped_rule
                (mkRule "a" "renamed" 2000 "" "" true true false 9 9)
                one_rule_state 0%nat
                (mkRule "a" "first" 1080 "" "" true false false 0 0)
                eq_refl eq_refl) as H.
  cbv zeta in H. destruct H as (_ & H2 & _ & _ & H5 & _).
  split; [rewrite H2; reflexivity | exact H5].
Defined.

(** [UpdateRule] on a running rule, sent back not marked running. *)
Lemma UpdateRule_running_to_stopped rule s i r :
  findRule (ID rule) (rules s) = Some (i, r) →
  Running r = true →
  Running rule = false →
  let s' := (UpdateRule rule s).2 in
  (UpdateRule rule s).1 = true
  ∧ rules s'
    = <[i := set_traffic (UploadBytes r) (DownloadBytes r) rule]> (rules s)
  ∧ listeners s' !! ID rule = None
  ∧ servers s' !! ID rule = None
  ∧ counters s' !! ID rule = None.
Proof.
  intros Hf Hr Hrule.
  set (r1 := set_Running false r).
  set (s1 := set_rules (<[i := r1]> (rules s)) (Lock AppMu s)).
  set (s2 := teardown (ID rule) (drainCounter (ID rule) s1)).
  set (rule' := set_traffic (UploadBytes r) (DownloadBytes r) rule).
  set (s3 := set_rules (<[i := rule']> (rules s2)) s2).
  assert (Hf1 : findRule (ID rule) (rules s1) = Some (i, r1)).
  { apply findRule_insert_same with (r := r); [done|].
    by apply findRule_Some in Hf as [_ ?]. }
  destruct (drainCounter_rules _ _ _ _ Hf1) as (up & down & Hd).
  pose proof (teardown_unregisters (ID rule) (drainCounter (ID rule) s1))
    as (Hc & Hs & Hl).
  pose proof (teardown_rules (ID rule) (drainCounter (ID rule) s1)) as Htr.
  assert (Hrules3 : rules s3 = <[i := rule']> (rules s)).
  { subst s3 s2. cbn [rules set_rules]. rewrite Htr, Hd. subst s1.
    cbn [rules set_rules]. by rewrite !list_insert_insert_eq. }
  assert (E : UpdateRule rule s = (true, Unlock AppMu (saveRules s3).2)).
  { unfold UpdateRule. cbv zeta.
    change (rules (Lock AppMu s)) with (rules s).
    rewrite Hf. cbv beta iota. rewrite Hr. cbv beta iota.
    rewrite (stopServerLocked_running (ID rule) (Lock AppMu s) i r Hf Hr).
    change (Running (set_traffic (UploadBytes r) (DownloadBytes r) rule))
      with (Running rule).
    rewrite Hrule. cbn [fst snd andb].
    change (rules (Lock AppMu s)) with (rules s).
    reflexivity. }
  cbv zeta. rewrite E. cbn [fst snd].
  destruct (saveRules_frame s3) as (R1 & R2 & R3 & R4 & _).
  change (rules (Unlock AppMu (saveRules s3).2)) with (rules (saveRules s3).2).
  change (listeners (Unlock AppMu (saveRules s3).2))
    with (listeners (saveRules s3).2).
  change (servers (Unlock AppMu (saveRules s3).2))
    with (servers (saveRules s3).2).
  change (counters (Unlock AppMu (saveRules s3).2))
    with (counters (saveRules s3).2).
  rewrite R1, R2, R3, R4.
  split_and!; [done | done | exact Hl | exact Hs | exact Hc].
Qed.

(** X15.  A running instance whose counter holds unflushed bytes is
    edited and sent back not marked running.  [UpdateRule] stops the
    instance and stores the rule with the byte counts the entry had
    when the call began: the bytes in the counter, which a plain
    [StopServer] adds to the rule, are not in the stored totals. *)
Theorem UpdateRule_drops_unflushed_bytes rule s i r p c :
  findRule (ID rule) (rules s) = Some (i, r) →
  Running r = true →
  Running rule = false →
  counters s !! ID rule = Some p →
  heap s !! p = Some c →
  uploadBytes c > 0 ∨ downloadBytes c > 0 →
  rules (UpdateRule rule s).2 !! i
  = Some (set_traffic (UploadBytes r) (DownloadBytes r) rule)
  ∧ rules (StopServer (ID rule) s).2 !! i
    = Some (set_traffic (add64 (UploadBytes r) (uploadBytes c))
                        (add64 (DownloadBytes r) (downloadBytes c))
                        (set_Running false r))
  ∧ listeners (UpdateRule rule s).2 !! ID rule = None.
Proof.
  intros Hf Hr Hrule Hc Hp Hpos.
  pose proof (findRule_lt _ _ _ _ Hf) as Hlt.
  destruct (UpdateRule_running_to_stopped rule s i r Hf Hr Hrule)
    as (_ & Hrules & Hl & _).
  split_and!; [| |done].
  - rewrite Hrules. by apply list_lookup_insert_eq.
  - rewrite (StopServer_running (ID rule) s i r Hf Hr). cbn [snd].
    set (s0 := set_rules _ (Lock AppMu s)).
    assert (Hf0 : findRule (ID rule) (rules s0) = Some (i, set_Running false r)).
    { apply findRule_insert_same with (r := r); [done|].
      by apply findRule_Some in Hf as [_ ?]. }
    change (rules (Unlock AppMu ?x)) with (rules x).
    rewrite teardown_rules.
    rewrite (drainCounter_loaded (ID rule) s0 i _ p c Hc Hp Hpos Hf0).
    subst s0. proj. rewrite list_insert_insert_eq.
    by apply list_lookup_insert_eq.
Qed.

(** On [traffic_state]: 40 bytes in the rule, 5 and 6 in the counter. *)
Lemma UpdateRule_drops_unflushed_bytes_witness :
  rules (UpdateRule (mkRule "rule_1" "test" 1080 "" "" true false false 0 0)
                    traffic_state).2
  = [mkRule "rule_1" "test" 1080 "" "" true false false 40 0]
  ∧ rules (StopServer "rule_1" traffic_state).2
    = [mkRule "rule_1" "test" 1080 "" "" true false false 45 6].
Proof.
  assert (Hpos : uploadBytes (mkCounter 5 6 "rule_1" 4000000000) > 0
                 ∨ downloadBytes (mkCounter 5 6 "rule_1" 4000000000) > 0)
    by (left; cbn; lia).
  pose proof (UpdateRule_drops_unflushed_bytes
                (mkRule "rule_1" "test" 1080 "" "" true false false 0 0)
                traffic_state 0%nat
                (mkRule "rule_1" "test" 1080 "" "" true true false 40 0)
                0%nat (mkCounter 5 6 "rule_1" 4000000000)
                eq_refl eq_refl eq_refl eq_refl eq_refl Hpos) as (H1 & H2 & _).
  cbn [ID] in H2.
  split; apply list_eq; intros [|k].
  - rewrite H1. reflexivity.
  - reflexivity.
  - rewrite H2. reflexivity.
  - reflexivity.
Defined.

(* ===================================================================== *)
(** ** Further properties: shutdown *)
(* ===================================================================== *)

Lemma no_restart_refl r : no_restart r r.
Proof. by split. Qed.

Lemma no_restart_trans r r' r'' :
  no_restart r r' → no_restart r' r'' → no_restart r r''.
Proof. intros [E1 H1] [E2 H2]. split; [congruence | auto]. Qed.

Lemma Forall2_no_restart_refl rs : Forall2 no_restart rs rs.
Proof. apply Forall_Forall2_diag, Forall_forall. intros. apply no_restart_refl. Qed.

(** Under [no_restart] the rule found for an id is found at the same
    place before. *)
Lemma findRule_no_restart id rs rs' :
  Forall2 no_restart rs rs' →
  ∀ i r', findRule id rs' = Some (i, r') →
          ∃ r, findRule id rs = Some (i, r) ∧ no_restart r r'.
Proof.
  unfold findRule. induction 1 as [|x y l k [Hid Hrun] _ IH]; intros i r' Hf;
    [done|].
  cbn in *. rewrite Hid in Hf.
  destruct (decide (ID x = id)).
  - injection Hf as <- <-. by exists x.
  - apply fmap_Some in Hf as ([i0 r0] & Hf & E). cbn in E.
    injection E as -> ->.
    destruct (IH _ _ Hf) as (r & -> & Hr). by exists r.
Qed.

(** What [stopServerLocked] does to the rules. *)
Lemma stopServerLocked_no_restart id s :
  Forall2 no_restart (rules s) (rules (stopServerLocked id s).2)
  ∧ ∀ i r, findRule id (rules (stopServerLocked id s).2) = Some (i, r) →
           Running r = false.
Proof.
  destruct (findRule id (rules s)) as [[i r]|] eqn:Hf.
  - destruct (Running r) eqn:Hr.
    + rewrite (stopServerLocked_running id s i r Hf Hr). cbn [snd].
      set (s0 := set_rules _ s).
      assert (Hf0 : findRule id (rules s0) = Some (i, set_Running false r)).
      { apply findRule_insert_same with (r := r); [done|].
        by apply findRule_Some in Hf as [_ ?]. }
      destruct (drainCounter_rules _ _ _ _ Hf0) as (up & down & Hd).
      rewrite teardown_rules, Hd. subst s0. proj.
      rewrite list_insert_insert_eq. split.
      * pose proof (findRule_Some _ _ _ _ Hf) as [Hi _].
        rewrite <- (list_insert_id (rules s) i r Hi) at 1.
        apply Forall2_insert; [apply Forall2_no_restart_refl|by split].
      * intros i' r'.
        rewrite (findRule_insert_same id (rules s) i r _ Hf)
          by by apply findRule_Some in Hf as [_ ?].
        by intros [= _ <-].
    + unfold stopServerLocked. rewrite Hf. cbv beta iota. rewrite Hr.
      cbn [negb snd]. split; [apply Forall2_no_restart_refl|].
      intros i' r'. rewrite Hf. by intros [= _ <-].
  - unfold stopServerLocked. rewrite Hf. cbn [snd].
    split; [apply Forall2_no_restart_refl|]. intros i' r'. by rewrite Hf.
Qed.

Lemma Forall2_no_restart_trans rs rs' rs'' :
  Forall2 no_restart rs rs' → Forall2 no_restart rs' rs'' →
  Forall2 no_restart rs rs''.
Proof.
  intros H. revert rs''. induction H as [|x y l k Hxy _ IH]; intros rs'' H';
    inversion H' as [|? z ? k' Hyz Hkk']; subst; constructor.
  - by eapply no_restart_trans.
  - by apply IH.
Qed.

(** [stopServerLocked] leaves the file in sync with the rules. *)
Lemma stopServerLocked_in_sync id s :
  fs_writable s = true → file_in_sync s →
  fs_writable (stopServerLocked id s).2 = true
  ∧ file_in_sync (stopServerLocked id s).2.
Proof.
  intros Hw Hsync. unfold stopServerLocked.
  destruct (findRule id (rules s)) as [[i r]|]; [|done].
  destruct (Running r); cbn [negb snd]; [|done].
  set (s0 := drainCounter id _).
  assert (Hw0 : fs_writable s0 = true).
  { subst s0. unfold drainCounter. cbn -[findRule].
    repeat (case_match; cbn -[findRule]; try done). }
  unfold teardown. cbv zeta.
  set (s1 := match listeners _ !! id with Some _ => _ | None => _ end).
  assert (Hw1 : fs_writable s1 = true).
  { subst s1. unfold StatsListener_Close, raw_Close. cbn.
    repeat (case_match; cbn; try done). }
  unfold file_in_sync, saveRules. rewrite Hw1. by proj.
Qed.

Lemma shutdown_stops order : ∀ s,
  fs_writable s = true → file_in_sync s →
  let s' := foldl (λ s id, (stopServerLocked id s).2) s order in
  Forall2 no_restart (rules s) (rules s')
  ∧ (∀ id, id ∈ order →
       ∀ i r, findRule id (rules s') = Some (i, r) → Running r = false)
  ∧ file_in_sync s'.
Proof.
  induction order as [|id order IH]; intros s Hw Hsync; cbv zeta.
  - split_and!; [apply Forall2_no_restart_refl | | done].
    intros id Hid. by apply elem_of_nil in Hid.
  - cbn [foldl].
    destruct (stopServerLocked_no_restart id s) as [Hrel Hstopped].
    destruct (stopServerLocked_in_sync id s Hw Hsync) as [Hw1 Hsync1].
    destruct (IH (stopServerLocked id s).2 Hw1 Hsync1) as (Hrel' & Hall & Hs').
    split_and!; [by eapply Forall2_no_restart_trans | | done].
    intros id' Hin i r Hf. apply elem_of_cons in Hin as [->|Hin].
    + destruct (findRule_no_restart _ _ _ Hrel' _ _ Hf) as (r0 & Hf0 & _ & Hrun).
      destruct (Running r) eqn:Hr; [|done].
      rewrite (Hstopped _ _ Hf0) in Hrun. by specialize (Hrun eq_refl).
    + by eapply Hall.
Qed.

(** X16.  [shutdown], with a writable configuration directory.
    Afterwards nothing is registered in the three runtime maps.  The
    rules keep their ids and their order, no rule is marked running
    that was not before, and every id the loop over the servers visited
    has its rule marked stopped.  The configuration file is a snapshot
    of the rules as shutdown leaves them, so it contains the bytes
    taken over from the counters of the stopped instances. *)
Theorem shutdown_spec order s :
  fs_writable s = true →
  let s' := shutdown order s in
  servers s' = ∅ ∧ listeners s' = ∅ ∧ counters s' = ∅
  ∧ Forall2 no_restart (rules s) (rules s')
  ∧ (∀ id, id ∈ order →
       ∀ i r, findRule id (rules s') = Some (i, r) → Running r = false)
  ∧ file_in_sync s'.
Proof.
  intros Hw. cbv zeta. unfold shutdown. cbv zeta.
  set (s0 := (saveRules (Lock AppMu s)).2).
  assert (Hw0 : fs_writable s0 = true).
  { subst s0. by destruct (saveRules_frame_env (Lock AppMu s)) as (_ & -> & _). }
  assert (Hsync0 : file_in_sync s0).
  { subst s0. unfold file_in_sync, saveRules.
    change (fs_writable (Lock AppMu s)) with (fs_writable s). by rewrite Hw. }
  assert (Hr0 : rules s0 = rules s).
  { subst s0. by destruct (saveRules_frame (Lock AppMu s)) as (-> & _). }
  destruct (shutdown_stops order s0 Hw0 Hsync0) as (Hrel & Hall & Hsync).
  rewrite Hr0 in Hrel.
  split_and!; done.
Qed.

(** On [two_rules_state]: both instances run, the loop visits both. *)
Lemma shutdown_spec_witness :
  Running <$> rules (shutdown ["rule_2"; "rule_1"] two_rules_state)
  = [false; false]
  ∧ listeners (shutdown ["rule_2"; "rule_1"] two_rules_state) = ∅.
Proof.
  pose proof (shutdown_spec ["rule_2"; "rule_1"] two_rules_state eq_refl) as H.
  cbv zeta in H. destruct H as (_ & H2 & _).
  split; [vm_compute; reflexivity | exact H2].
Defined.

(* ===================================================================== *)
(** ** Further properties: a start that binds *)
(* ===================================================================== *)

(** The credentials option is there exactly when the rule asks for
    authentication, the UDP options exactly when it enables UDP. *)
Lemma serverOpts_spec rule :
  (∀ u pw, WithCredential u pw ∈ serverOpts rule
           ↔ NoAuth rule = false ∧ u = Username rule ∧ pw = Password rule)
  ∧ (WithRule true true true ∈ serverOpts rule ↔ EnableUDP rule = true)
  ∧ (WithBindIP "0.0.0.0" ∈ serverOpts rule ↔ EnableUDP rule = true).
Proof.
  unfold serverOpts.
  destruct (EnableUDP rule), (NoAuth rule); cbn; split_and!;
    try intros u pw; rewrite ?elem_of_cons, ?elem_of_nil; naive_solver.
Qed.

(** X17.  [StartServer] on a stopped rule whose port can be bound
    returns success.  The rule, and no other, is marked running; a new
    counter object with both accumulators at zero is registered for the
    id, a new socket is open on the rule's port, and the listener
    registered for the id wraps that socket and that counter.  The
    server registered for the id checks the rule's user name and
    password exactly when [noAuth] is off, and has the UDP association
    enabled exactly when [enableUDP] is on.  A client that the accept
    loop then takes gets a connection that reports to the new
    counter. *)
Theorem StartServer_binds id s i rule :
  findRule id (rules s) = Some (i, rule) →
  Running rule = false →
  is_Some (net_Listen (Port rule) s) →
  let s' := (StartServer id s).2 in
  let p := length (heap s) in
  (StartServer id s).1 = true
  ∧ rules s' = <[i := set_Running true rule]> (rules s)
  ∧ heap s' = heap s ++ [mkCounter 0 0 id (clock s)]
  ∧ counters s' !! id = Some p
  ∧ sockets s' = sockets s ++ [mkRaw (Port rule) true]
  ∧ listeners s' !! id = Some (mkStats (length (sockets s)) (Some p) id)
  ∧ (∃ srv, servers s' !! id = Some srv
            ∧ (∀ u pw, WithCredential u pw ∈ srv_opts srv
                       ↔ NoAuth rule = false
                         ∧ u = Username rule ∧ pw = Password rule)
            ∧ (WithRule true true true ∈ srv_opts srv
               ↔ EnableUDP rule = true))
  ∧ conns (accept_on id s') = conns s ++ [mkConn p]
  ∧ (∀ id', id' ≠ id →
       listeners s' !! id' = listeners s !! id'
       ∧ counters s' !! id' = counters s !! id').
Proof.
  intros Hf Hr Hl. cbv zeta.
  destruct (StartServer_success id s i rule Hf Hr Hl)
    as (H1 & H2 & H3 & H4 & H5 & H6 & H7).
  destruct (StartServer_success_env id s i rule Hf Hr Hl) as (H8 & _).
  destruct (serverOpts_spec rule) as (O1 & O2 & _).
  split_and!; try done.
  - rewrite H4. apply lookup_insert_eq.
  - rewrite H5. apply lookup_insert_eq.
  - exists (socks5_NewServer (serverOpts rule)).
    split; [rewrite H8; apply lookup_insert_eq | by split].
  - by rewrite (accept_on_started id s i rule Hf Hr Hl).
  - intros id' Hne. rewrite H4, H5. by rewrite !lookup_insert_ne.
Qed.

(** On [same_port_state]: [rule_2] asks for a password and has UDP on. *)
Lemma StartServer_binds_witness :
  (StartServer "rule_2" same_port_state).1 = true
  ∧ servers (StartServer "rule_2" same_port_state).2 !! "rule_2"
    = Some (mkServer [WithBindIP "0.0.0.0"; WithRule true true true;
                      WithCredential "u" "pw"])
  ∧ conns (accept_on "rule_2" (StartServer "rule_2" same_port_state).2)
    = [mkConn 0%nat].
Proof.
  assert (Hl : is_Some (net_Listen
                          (Port (mkRule "rule_2" "b" 1080 "u" "pw" false false
                                        true 0 0)) same_port_state))
    by (vm_compute; eauto).
  pose proof (StartServer_binds "rule_2" same_port_state 1%nat
                (mkRule "rule_2" "b" 1080 "u" "pw" false false true 0 0)
                eq_refl eq_refl Hl) as H.
  cbv zeta in H. destruct H as (H1 & _ & _ & _ & _ & _ & _ & H8 & _).
  split_and!; [exact H1 | vm_compute; reflexivity | exact H8].
Defined.

(* ===================================================================== *)
(** ** Further properties: traffic *)
(* ===================================================================== *)

Lemma set_conns_set_conns c c' s : set_conns c' (set_conns c s) = set_conns c' s.
Proof. reflexivity. Qed.

(** [k] clients taken by the accept loop of a fresh instance all report
    to the instance's counter. *)
Lemma accepts_on_started id s i rule k :
  findRule id (rules s) = Some (i, rule) →
  Running rule = false →
  is_Some (net_Listen (Port rule) s) →
  Nat.iter k (accept_on id) (StartServer id s).2
  = set_conns (conns s ++ replicate k (mkConn (length (heap s))))
              (StartServer id s).2.
Proof.
  intros Hf Hr Hl.
  destruct (StartServer_success id s i rule Hf Hr Hl)
    as (_ & _ & _ & _ & Hlis & Hsock & Hconns).
  induction k as [|k IH].
  - cbn. rewrite app_nil_r, <- Hconns. by destruct (StartServer id s).2.
  - cbn [Nat.iter nat_rect]. unfold Nat.iter in IH. rewrite IH.
    unfold accept_on. cbn [listeners set_conns]. rewrite Hlis, lookup_insert_eq.
    unfold StatsListener_Accept. cbn [Listener counter sockets set_conns].
    rewrite Hsock, lookup_app_r, Nat.sub_diag by done.
    cbn [lookup list_lookup l_open snd conns set_conns].
    by rewrite set_conns_set_conns, replicate_S_end, app_assoc.
Qed.

(** X18.  From start to stop with any number of clients.  A stopped
    rule with non-negative totals is started and binds its port, the
    accept loop takes [k] clients, reads and writes happen on these
    connections in any order and at any times, and the instance is
    stopped.  Provided the totals fit an [int64], [GetTrafficStats]
    then reports exactly the old totals plus the bytes the wrappers
    counted: written bytes as upload, read bytes as download, whichever
    flushes happened on the way. *)
Theorem start_traffic_stop_exact id s i rule k evs :
  findRule id (rules s) = Some (i, rule) →
  Running rule = false →
  is_Some (net_Listen (Port rule) s) →
  0 <= UploadBytes rule →
  0 <= DownloadBytes rule →
  let s1 := Nat.iter k (accept_on id) (StartServer id s).2 in
  Forall (event_on (length (heap s)) s1) evs →
  UploadBytes rule + total_up evs <= int64_max →
  DownloadBytes rule + total_down evs <= int64_max →
  (StopServer id (run_io evs s1)).1 = true
  ∧ (GetTrafficStats id (StopServer id (run_io evs s1)).2).1
    = (UploadBytes rule + total_up evs, DownloadBytes rule + total_down evs,
       None).
Proof.
  intros Hf Hr Hl HU HD s1 Hevs HmaxU HmaxD.
  pose proof (total_up_nonneg evs). pose proof (total_down_nonneg evs).
  assert (Hacc : accounted id i (length (heap s)) (UploadBytes rule)
                           (DownloadBytes rule) s1).
  { subst s1. rewrite (accepts_on_started id s i rule k Hf Hr Hl).
    destruct (StartServer_accounted id s i rule Hf Hr Hl) as (r & c & H');
      [lia | lia |].
    by exists r, c. }
  exact (stop_after_traffic_exact id i _ _ _ s1 evs Hacc Hevs HmaxU HmaxD).
Qed.

(** On [one_rule_state]: two clients, traffic on both, a flush on the
    way (the second write comes four seconds after the start). *)
Lemma start_traffic_stop_exact_witness :
  (GetTrafficStats "a"
     (StopServer "a"
        (run_io [EvWrite 0 100 false; EvRead 1 30 false; EvTick 4000000000;
                 EvWrite 1 20 false; EvRead 0 0 true; EvRead 0 7 false]
                (Nat.iter 2 (accept_on "a")
                          (StartServer "a" one_rule_state).2))).2).1
  = (120, 37, None).
Proof.
  assert (Hl : is_Some (net_Listen
                          (Port (mkRule "a" "first" 1080 "" "" true false
                                        false 0 0)) one_rule_state))
    by (vm_compute; eauto).
  assert (HU : 0 <= UploadBytes (mkRule "a" "first" 1080 "" "" true false
                                        false 0 0)) by (cbn; lia).
  assert (HD : 0 <= DownloadBytes (mkRule "a" "first" 1080 "" "" true false
                                          false 0 0)) by (cbn; lia).
  pose proof (start_traffic_stop_exact "a" one_rule_state 0%nat
                (mkRule "a" "first" 1080 "" "" true false false 0 0) 2%nat
                [EvWrite 0 100 false; EvRead 1 30 false; EvTick 4000000000;
                 EvWrite 1 20 false; EvRead 0 0 true; EvRead 0 7 false]
                eq_refl eq_refl Hl HU HD) as H.
  cbv zeta in H.
  destruct H as [_ H].
  - repeat (constructor; [vm_compute; done|]). constructor.
  - vm_compute. discriminate.
  - vm_compute. discriminate.
  - exact H.
Defined.

(* ===================================================================== *)
(** ** Further properties: traffic that does not reach the rules *)
(* ===================================================================== *)

(** A flush whose counter belongs to no rule only takes and releases the
    registry mutex. *)
Lemma syncToRule_orphan p s t :
  heap s !! p = Some t →
  findRule (ruleID t) (rules s) = None →
  syncToRule p s = Unlock AppMu (Lock AppMu s).
Proof.
  intros Hp Hf. unfold syncToRule. cbv zeta.
  change (heap (Lock AppMu s)) with (heap s).
  change (rules (Lock AppMu s)) with (rules s).
  by rewrite Hp, Hf.
Qed.

Lemma grown_by_up n t :
  n > 0 → grown_by [EvWrite 0 n false] t (bump_up n t).
Proof.
  intros Hn. unfold grown_by, bump_up. cbn.
  rewrite (proj2 (Z.gtb_gt _ _) Hn), !Z.add_0_r. split_and!; try done.
  intros Ha Hb. apply add64_exact, in_int64_nonneg; lia.
Qed.

Lemma grown_by_down n t :
  n > 0 → grown_by [EvRead 0 n false] t (bump_down n t).
Proof.
  intros Hn. unfold grown_by, bump_down. cbn.
  rewrite (proj2 (Z.gtb_gt _ _) Hn), !Z.add_0_r. split_and!; try done.
  intros Ha Hb. apply add64_exact, in_int64_nonneg; lia.
Qed.

Lemma grown_by_one e t t' :
  grown_by [e] t t'
  ↔ ruleID t' = ruleID t ∧ lastSync t' = lastSync t
    ∧ (0 <= uploadBytes t → uploadBytes t + counted_up e <= int64_max →
       uploadBytes t' = uploadBytes t + counted_up e)
    ∧ (0 <= downloadBytes t → downloadBytes t + counted_down e <= int64_max →
       downloadBytes t' = downloadBytes t + counted_down e).
Proof. unfold grown_by. cbn. by rewrite !Z.add_0_r. Qed.

Lemma grown_by_cons e evs t t1 t' :
  grown_by [e] t t1 → grown_by evs t1 t' → grown_by (e :: evs) t t'.
Proof.
  rewrite grown_by_one. unfold grown_by. cbn.
  fold (total_up evs). fold (total_down evs).
  intros (A1 & A2 & A3 & A4) (B1 & B2 & B3 & B4).
  pose proof (total_up_nonneg evs). pose proof (total_down_nonneg evs).
  pose proof (counted_up_nonneg e). pose proof (counted_down_nonneg e).
  split_and!; [congruence | congruence | |].
  - intros Ha Hb. rewrite B3, A3; lia.
  - intros Ha Hb. rewrite B4, A4; lia.
Qed.

Lemma grown_by_nil t : grown_by [] t t.
Proof. unfold grown_by. cbn. split_and!; intros; lia || done. Qed.

(** One event on counter [p] that finds the last flush recent enough,
    or the counter without a rule: nothing but the counter and the
    clock moves. *)
Lemma io_step_no_flush p s t e :
  heap s !! p = Some t →
  event_on p s e →
  findRule (ruleID t) (rules s) = None
  ∨ ¬ clock s - lastSync t > sync_interval →
  let s' := io_step s e in
  rules s' = rules s ∧ conns s' = conns s
  ∧ spawned_saves s' = spawned_saves s ∧ cfg_file s' = cfg_file s
  ∧ clock s' = clock s + waited e
  ∧ ∃ t', heap s' !! p = Some t' ∧ grown_by [e] t t'.
Proof.
  intros Hp He Hcase. cbv zeta.
  pose proof (lookup_lt_Some _ _ _ Hp) as Hlt.
  destruct e as [c n err|c n err|d]; cbn [io_step event_on waited] in *.
  - destruct (Z.gtb_spec n 0) as [Hn|Hn].
    + rewrite (Read_counts c n err s p He) by lia.
      assert (G : grown_by [EvRead c n err] t (bump_down n t))
        by (apply (grown_by_down n t); lia).
      destruct (decide (clock s - lastSync t > sync_interval)) as [Hs|Hs].
      * destruct Hcase as [Hf|?]; [|done].
        rewrite (CountDownload_flush p n s t Hp Hs).
        rewrite (syncToRule_orphan p _ (bump_down n t));
          [| proj; by apply list_lookup_insert_eq | exact Hf].
        proj. rewrite Z.add_0_r. split_and!; try done.
        exists (bump_down n t). split; [by apply list_lookup_insert_eq | done].
      * rewrite (CountDownload_keep p n s t Hp Hs).
        proj. rewrite Z.add_0_r. split_and!; try done.
        exists (bump_down n t). split; [by apply list_lookup_insert_eq | done].
    + rewrite Read_nothing by lia. rewrite Z.add_0_r. split_and!; try done.
      exists t. split; [done|]. apply grown_by_one. cbn.
      destruct (Z.gtb_spec n 0); [lia|]. split_and!; intros; lia || done.
  - destruct (Z.gtb_spec n 0) as [Hn|Hn].
    + rewrite (Write_counts c n err s p He) by lia.
      assert (G : grown_by [EvWrite c n err] t (bump_up n t))
        by (apply (grown_by_up n t); lia).
      destruct (decide (clock s - lastSync t > sync_interval)) as [Hs|Hs].
      * destruct Hcase as [Hf|?]; [|done].
        rewrite (CountUpload_flush p n s t Hp Hs).
        rewrite (syncToRule_orphan p _ (bump_up n t));
          [| proj; by apply list_lookup_insert_eq | exact Hf].
        proj. rewrite Z.add_0_r. split_and!; try done.
        exists (bump_up n t). split; [by apply list_lookup_insert_eq | done].
      * rewrite (CountUpload_keep p n s t Hp Hs).
        proj. rewrite Z.add_0_r. split_and!; try done.
        exists (bump_up n t). split; [by apply list_lookup_insert_eq | done].
    + rewrite Write_nothing by lia. rewrite Z.add_0_r. split_and!; try done.
      exists t. split; [done|]. apply grown_by_one. cbn.
      destruct (Z.gtb_spec n 0); [lia|]. split_and!; intros; lia || done.
  - unfold tick. proj. split_and!; try done.
    exists t. split; [done|]. apply grown_by_one. cbn.
    split_and!; intros; lia || done.
Qed.

Lemma event_on_conns p s s' e :
  conns s' = conns s → event_on p s e → event_on p s' e.
Proof. intros E. destruct e; cbn; by rewrite ?E. Qed.

Lemma elapsed_nonneg evs : Forall forward evs → 0 <= elapsed evs.
Proof.
  induction 1 as [|e evs He _ IH]; cbn; [lia|].
  fold (elapsed evs). unfold forward in He. lia.
Qed.

Lemma GetStats_value p s t :
  heap s !! p = Some t → (GetStats p s).1 = (uploadBytes t, downloadBytes t).
Proof.
  intros Hp. unfold GetStats. cbv zeta. cbn [fst].
  change (heap (Lock (CounterMu p) s)) with (heap s). by rewrite Hp.
Qed.

(** The lock log of one event that does not flush. *)
Lemma io_step_no_flush_locklog p s t e :
  heap s !! p = Some t →
  event_on p s e →
  ¬ clock s - lastSync t > sync_interval →
  ∃ l, locklog (io_step s e) = locklog s ++ l
       ∧ Forall (λ ev, ev = Acquire (CounterMu p) ∨ ev = Release (CounterMu p)) l.
Proof.
  intros Hp He Hs.
  destruct e as [c n err|c n err|d]; cbn [io_step event_on] in *.
  - destruct (Z.gtb_spec n 0) as [Hn|Hn].
    + rewrite (Read_counts c n err s p He) by lia.
      rewrite (CountDownload_keep p n s t Hp Hs). proj.
      exists [Acquire (CounterMu p); Release (CounterMu p)].
      rewrite <- app_assoc. split; [done|].
      repeat (constructor; [tauto|]). constructor.
    + rewrite Read_nothing by lia. exists []. by rewrite app_nil_r.
  - destruct (Z.gtb_spec n 0) as [Hn|Hn].
    + rewrite (Write_counts c n err s p He) by lia.
      rewrite (CountUpload_keep p n s t Hp Hs). proj.
      exists [Acquire (CounterMu p); Release (CounterMu p)].
      rewrite <- app_assoc. split; [done|].
      repeat (constructor; [tauto|]). constructor.
    + rewrite Write_nothing by lia. exists []. by rewrite app_nil_r.
  - exists []. unfold tick. proj. by rewrite app_nil_r.
Qed.

(** A run of events on one counter that ends before the next flush is
    due. *)
Lemma run_io_between_flushes p evs : ∀ s t,
  heap s !! p = Some t →
  Forall (event_on p s) evs →
  Forall forward evs →
  clock s + elapsed evs - lastSync t <= sync_interval →
  rules (run_io evs s) = rules s
  ∧ cfg_file (run_io evs s) = cfg_file s
  ∧ spawned_saves (run_io evs s) = spawned_saves s
  ∧ (∃ l, locklog (run_io evs s) = locklog s ++ l
          ∧ Forall (λ ev, ev = Acquire (CounterMu p)
                          ∨ ev = Release (CounterMu p)) l)
  ∧ ∃ t', heap (run_io evs s) !! p = Some t' ∧ grown_by evs t t'.
Proof.
  intros s t Hp Hev Hfw. revert s t Hp Hev.
  induction Hfw as [|e evs Hf Hfw IH]; intros s t Hp Hev Hclock.
  - cbn. split_and!; try done.
    + exists []. by rewrite app_nil_r.
    + exists t. split; [done | apply grown_by_nil].
  - apply Forall_cons in Hev as [He Hev].
    cbn [elapsed foldr] in Hclock. fold (elapsed evs) in Hclock.
    pose proof (elapsed_nonneg evs Hfw) as Hel. unfold forward in Hf.
    assert (Hs : ¬ clock s - lastSync t > sync_interval) by lia.
    destruct (io_step_no_flush p s t e Hp He (or_intror Hs))
      as (E1 & E2 & E3 & E4 & E5 & t1 & Hp1 & G1).
    destruct (io_step_no_flush_locklog p s t e Hp He Hs) as (l1 & L1 & F1).
    assert (Hls : lastSync t1 = lastSync t)
      by (apply grown_by_one in G1; tauto).
    destruct (IH (io_step s e) t1 Hp1)
      as (R1 & R2 & R3 & (l2 & L2 & F2) & t' & Hp' & G').
    { eapply Forall_impl; [exact Hev|]. intros e' He'.
      by apply (event_on_conns p s). }
    { rewrite E5, Hls. lia. }
    change (run_io (e :: evs) s) with (run_io evs (io_step s e)).
    split_and!; [congruence | congruence | congruence | |].
    + exists (l1 ++ l2). rewrite L2, L1, <- app_assoc. split; [done|].
      by apply Forall_app.
    + exists t'. split; [done|]. by apply (grown_by_cons e evs t t1 t').
Qed.

(** X19.  Between two flushes.  Reads and writes happen on connections
    of one counter, the clock never runs backwards, and at the end of
    the run the counter's last flush is still at most three seconds
    old.  Then no flush happened: the rules, the configuration file and
    the number of started saves are as before, the registry mutex was
    never touched (only the counter's own mutex was), and [GetStats] on
    the counter reports what it held before plus the bytes counted,
    provided these sums fit an [int64]. *)
Theorem traffic_between_flushes p s t evs :
  heap s !! p = Some t →
  Forall (event_on p s) evs →
  Forall forward evs →
  clock s + elapsed evs - lastSync t <= sync_interval →
  0 <= uploadBytes t → uploadBytes t + total_up evs <= int64_max →
  0 <= downloadBytes t → downloadBytes t + total_down evs <= int64_max →
  let s' := run_io evs s in
  rules s' = rules s
  ∧ cfg_file s' = cfg_file s
  ∧ spawned_saves s' = spawned_saves s
  ∧ Forall (λ ev, ev = Acquire (CounterMu p) ∨ ev = Release (CounterMu p))
           (lock_trace s s')
  ∧ (GetStats p s').1
    = (uploadBytes t + total_up evs, downloadBytes t + total_down evs).
Proof.
  intros Hp Hev Hfw Hclock HU0 HU HD0 HD. cbv zeta.
  destruct (run_io_between_flushes p evs s t Hp Hev Hfw Hclock)
    as (R1 & R2 & R3 & (l & L & F) & t' & Hp' & _ & _ & GU & GD).
  split_and!; try done.
  - by rewrite (lock_trace_app _ _ l L).
  - rewrite (GetStats_value p _ t' Hp'). by rewrite GU, GD.
Qed.

(** On [started_state] with one client: three events within two
    seconds of the start. *)
Lemma traffic_between_flushes_witness :
  rules (run_io [EvWrite 0 100 false; EvTick 2000000000; EvRead 0 30 false]
                (accept_on "rule_1" started_state))
  = rules (accept_on "rule_1" started_state)
  ∧ (GetStats 0%nat
       (run_io [EvWrite 0 100 false; EvTick 2000000000; EvRead 0 30 false]
               (accept_on "rule_1" started_state))).1
    = (100, 30).
Proof.
  pose proof (traffic_between_flushes 0%nat (accept_on "rule_1" started_state)
                (mkCounter 0 0 "rule_1" 0)
                [EvWrite 0 100 false; EvTick 2000000000; EvRead 0 30 false]
                eq_refl) as H.
  cbv zeta in H.
  destruct H as (H1 & _ & _ & _ & H5).
  - repeat (constructor; [vm_compute; done|]). constructor.
  - repeat (constructor; [vm_compute; discriminate|]). constructor.
  - vm_compute. discriminate.
  - cbn. lia.
  - vm_compute. discriminate.
  - cbn. lia.
  - vm_compute. discriminate.
  - split; [exact H1 | exact H5].
Defined.

(** X20.  A counter whose rule is gone.  The counter of a connection
    that is still open belongs to an id that no rule carries (the rule
    was deleted, or its id was changed).  Whatever is read and written
    on its connections and however much time passes, the rules, the
    configuration file and the number of started saves never change:
    the bytes are added to the counter and to nothing else, and the
    time of the counter's last flush is never renewed. *)
Theorem traffic_of_deleted_rule p s t evs :
  heap s !! p = Some t →
  findRule (ruleID t) (rules s) = None →
  Forall (event_on p s) evs →
  let s' := run_io evs s in
  rules s' = rules s
  ∧ cfg_file s' = cfg_file s
  ∧ spawned_saves s' = spawned_saves s
  ∧ ∃ t', heap s' !! p = Some t' ∧ grown_by evs t t'.
Proof.
  intros Hp Hf Hev. cbv zeta.
  revert s t Hp Hf Hev.
  induction evs as [|e evs IH]; intros s t Hp Hf Hev.
  - cbn. split_and!; try done.
    exists t. split; [done | apply grown_by_nil].
  - apply Forall_cons in Hev as [He Hev].
    destruct (io_step_no_flush p s t e Hp He (or_introl Hf))
      as (E1 & E2 & E3 & E4 & _ & t1 & Hp1 & G1).
    assert (Hid : ruleID t1 = ruleID t) by (apply grown_by_one in G1; tauto).
    destruct (IH (io_step s e) t1 Hp1) as (R1 & R2 & R3 & t' & Hp' & G').
    { by rewrite Hid, E1. }
    { eapply Forall_impl; [exact Hev|]. intros e' He'.
      by apply (event_on_conns p s). }
    change (run_io (e :: evs) s) with (run_io evs (io_step s e)).
    split_and!; [congruence | congruence | congruence |].
    exists t'. split; [done|]. by apply (grown_by_cons e evs t t1 t').
Qed.

(** On [deleted_rule_state]: the open connection keeps counting after
    its rule was deleted, also across the flush interval. *)
Lemma traffic_of_deleted_rule_witness :
  rules (run_io [EvWrite 0 100 false; EvTick 4000000000; EvRead 0 30 false]
                deleted_rule_state)
  = []
  ∧ (GetStats 0%nat
       (run_io [EvWrite 0 100 false; EvTick 4000000000; EvRead 0 30 false]
               deleted_rule_state)).1
    = (100, 30).
Proof.
  pose proof (traffic_of_deleted_rule 0%nat deleted_rule_state
                (mkCounter 0 0 "a" 0)
                [EvWrite 0 100 false; EvTick 4000000000; EvRead 0 30 false]
                eq_refl eq_refl) as H.
  cbv zeta in H.
  destruct H as (H1 & _ & _ & t' & Hp' & _ & _ & GU & GD).
  - repeat (constructor; [vm_compute; done|]). constructor.
  - split; [rewrite H1; reflexivity|].
    rewrite (GetStats_value _ _ t' Hp'), GU, GD; cbn; try lia; try done.
Defined.

(* ===================================================================== *)
(** ** Further properties: who edits a rule *)
(* ===================================================================== *)

Lemma settings_insert_found id (rs : list SocksRule) i r r' :
  findRule id rs = Some (i, r) → settings r' = settings r →
  settings <$> <[i := r']> rs = settings <$> rs.
Proof.
  intros [Hi _]%findRule_Some E. rewrite list_fmap_insert, E.
  apply list_insert_id. by rewrite list_lookup_fmap, Hi.
Qed.

Lemma syncToRule_settings p s :
  settings <$> rules (syncToRule p s) = settings <$> rules s.
Proof.
  unfold syncToRule. cbn -[findRule Nat.modulo].
  destruct (heap s !! p) as [t|]; [|done].
  destruct (findRule _ _) as [[i r]|] eqn:Hf; [|done].
  destruct (_ =? _)%nat; cbn; by eapply settings_insert_found.
Qed.

Lemma io_step_settings s e :
  settings <$> rules (io_step s e) = settings <$> rules s.
Proof.
  destruct e as [c n err|c n err|d]; cbn [io_step]; [| |done].
  - unfold TrafficConnWrapper_Read. destruct (conns s !! c); [|done].
    cbn [snd]. destruct (n >? 0); [|done].
    unfold CountDownload. cbn -[syncToRule].
    destruct (heap s !! _); [|done]. case_match; [|done].
    by rewrite syncToRule_settings.
  - unfold TrafficConnWrapper_Write. destruct (conns s !! c); [|done].
    cbn [snd]. destruct (n >? 0); [|done].
    unfold CountUpload. cbn -[syncToRule].
    destruct (heap s !! _); [|done]. case_match; [|done].
    by rewrite syncToRule_settings.
Qed.

Lemma startServerLocked_settings id s :
  settings <$> rules (startServerLocked id s).2 = settings <$> rules s.
Proof.
  unfold startServerLocked, net_Listen, saveRules. cbn -[findRule].
  destruct (findRule id (rules s)) as [[i r]|] eqn:Hf; [|done].
  destruct (Running r); [done|]. cbn -[findRule].
  destruct (_ && _); [|done]. cbn -[findRule].
  destruct (fs_writable s); cbn; by eapply settings_insert_found.
Qed.

Lemma stopServerLocked_settings id s :
  settings <$> rules (stopServerLocked id s).2 = settings <$> rules s.
Proof.
  unfold stopServerLocked.
  destruct (findRule id (rules s)) as [[i r]|] eqn:Hf; [|done].
  destruct (Running r); cbn -[findRule teardown drainCounter]; [|done].
  rewrite teardown_rules.
  set (s1 := set_rules _ s).
  assert (Hf1 : findRule id (rules s1) = Some (i, set_Running false r)).
  { apply findRule_insert_same with (r := r); [done|].
    by apply findRule_Some in Hf as [_ ?]. }
  destruct (drainCounter_rules _ _ _ _ Hf1) as (up & down & ->).
  rewrite (settings_insert_found _ _ _ _ _ Hf1) by done.
  subst s1. cbn. by eapply settings_insert_found.
Qed.

Lemma shutdown_settings order s :
  settings <$> rules (shutdown order s) = settings <$> rules s.
Proof.
  unfold shutdown. cbv zeta. proj.
  assert (E : settings <$> rules (saveRules (Lock AppMu s)).2
              = settings <$> rules s)
    by (unfold saveRules; by case_match).
  revert E. generalize (saveRules (Lock AppMu s)).2 as s0.
  induction order as [|id order IH]; intros s0 E; [done|].
  cbn [foldl]. apply IH. by rewrite stopServerLocked_settings.
Qed.

Lemma call_step_settings s c :
  editing_call c = false →
  settings <$> rules (call_step s c) = settings <$> rules s.
Proof.
  destruct c as [| |rule|rule|id|id|id|id|id|id|e|order];
    cbn [call_step editing_call]; intros Hc; try discriminate.
  - done.
  - unfold StartServer.
    pose proof (startServerLocked_settings id (Lock AppMu s)) as E.
    by destruct (startServerLocked id (Lock AppMu s)) as [ok s'].
  - unfold StopServer.
    pose proof (stopServerLocked_settings id (Lock AppMu s)) as E.
    by destruct (stopServerLocked id (Lock AppMu s)) as [ok s'].
  - done.
  - unfold ResetTrafficStats, saveRules. cbn -[findRule].
    destruct (findRule id (rules s)) as [[i r]|] eqn:Hf; [|done].
    case_match; cbn; by eapply settings_insert_found.
  - unfold accept_on, StatsListener_Accept.
    repeat (case_match; cbn; try done).
  - apply io_step_settings.
  - apply shutdown_settings.
Qed.

(** X9.  Only start-up, [AddRule], [UpdateRule] and [DeleteRule] edit
    the rules.  Over any sequence of the other calls ([GetRules],
    [StartServer], [StopServer], [GetTrafficStats],
    [ResetTrafficStats], accepted clients, reads, writes, flushes,
    [shutdown]) the list keeps its length and its order, and every rule
    keeps its id, name, port, user name, password and its [noAuth] and
    [enableUDP] flags: such calls change at most the running flag and
    the two traffic totals. *)
Theorem settings_change_only_by_editing cs s :
  Forall (λ c, editing_call c = false) cs →
  settings <$> rules (run_calls cs s) = settings <$> rules s.
Proof.
  unfold run_calls. intros H. revert s.
  induction H as [|c cs Hc _ IH]; intros s; [done|].
  cbn [foldl]. rewrite IH. by apply call_step_settings.
Qed.

(** On [two_rules_state]: traffic with a flush, a reset, a stop and the
    shutdown. *)
Lemma settings_change_only_by_editing_witness :
  settings <$> rules
    (run_calls [CallIO (EvTick 4000000000); CallIO (EvWrite 0 9 false);
                CallResetTrafficStats "rule_2"; CallStopServer "rule_1";
                CallShutdown ["rule_2"]] two_rules_state)
  = [("rule_1", "a", 1080, "", "", true, false);
     ("rule_2", "b", 1081, "", "", true, false)].
Proof.
  rewrite (settings_change_only_by_editing
             [CallIO (EvTick 4000000000); CallIO (EvWrite 0 9 false);
              CallResetTrafficStats "rule_2"; CallStopServer "rule_1";
              CallShutdown ["rule_2"]] two_rules_state).
  - reflexivity.
  - repeat (constructor; [reflexivity|]). constructor.
Defined.

(** X21.  [Reset] on a counter throws away the bytes it holds: they
    never reach the rule.  After a [Reset], and reads and writes on the
    counter's connections that end before the next flush is due,
    [GetStats] reports exactly the bytes counted since the reset,
    whatever the counter held before, and the rules are as they were
    before the reset.  The reset does not renew the time of the last
    flush. *)
Theorem Reset_then_traffic p s t evs :
  heap s !! p = Some t →
  Forall (event_on p s) evs →
  Forall forward evs →
  clock s + elapsed evs - lastSync t <= sync_interval →
  total_up evs <= int64_max →
  total_down evs <= int64_max →
  let s' := run_io evs (Reset p s) in
  rules s' = rules s
  ∧ (GetStats p s').1 = (total_up evs, total_down evs)
  ∧ ∃ t', heap s' !! p = Some t' ∧ lastSync t' = lastSync t.
Proof.
  intros Hp Hev Hfw Hclock HU HD. cbv zeta.
  pose proof (lookup_lt_Some _ _ _ Hp) as Hlt.
  assert (E : Reset p s
              = Unlock (CounterMu p)
                  (set_heap (<[p := mkCounter 0 0 (ruleID t) (lastSync t)]>
                               (heap s)) (Lock (CounterMu p) s))).
  { unfold Reset. cbv zeta.
    change (heap (Lock (CounterMu p) s)) with (heap s). by rewrite Hp. }
  assert (Hp0 : heap (Reset p s) !! p
                = Some (mkCounter 0 0 (ruleID t) (lastSync t))).
  { rewrite E. proj. by apply list_lookup_insert_eq. }
  destruct (run_io_between_flushes p evs (Reset p s) _ Hp0)
    as (R1 & _ & _ & _ & t' & Hp' & _ & Hls & GU & GD).
  - eapply Forall_impl; [exact Hev|]. intros e He.
    apply (event_on_conns p s); [by rewrite E | done].
  - done.
  - by rewrite E.
  - cbn [uploadBytes downloadBytes lastSync] in *.
    split_and!.
    + by rewrite R1, E.
    + rewrite (GetStats_value p _ t' Hp'), GU, GD by lia. done.
    + by exists t'.
Qed.

(** On [traffic_state]: the counter holds 5 and 6 bytes when it is
    reset. *)
Lemma Reset_then_traffic_witness :
  (GetStats 0%nat (run_io [EvWrite 0 7 false] (Reset 0%nat traffic_state))).1
  = (7, 0).
Proof.
  pose proof (Reset_then_traffic 0%nat traffic_state
                (mkCounter 5 6 "rule_1" 4000000000) [EvWrite 0 7 false]
                eq_refl) as H.
  cbv zeta in H.
  destruct H as (_ & H & _).
  - repeat (constructor; [vm_compute; done|]). constructor.
  - repeat (constructor; [vm_compute; discriminate|]). constructor.
  - vm_compute. discriminate.
  - vm_compute. discriminate.
  - vm_compute. discriminate.
  - exact H.
Defined.

(* ===================================================================== *)
(** ** Further properties: the UDP test *)
(* ===================================================================== *)

Lemma TestUDP_state id re le s :
  (TestUDP id re le s).2 = logged [Acquire AppMu; Release AppMu] s.
Proof. unfold TestUDP. cbv zeta. cbn [snd]. apply Unlock_Lock. Qed.

(** X22.  [TestUDP] refuses without asking the operating system: on an
    id that no rule carries, on a rule that is not marked running and
    on a running rule without UDP it answers with the message of that
    case, whatever resolving the address or binding the port would
    give.  In every case, also when the port is probed, it leaves the
    application as it was: only the registry mutex was taken and
    released. *)
Theorem TestUDP_refuses id resolveErr listenErr s :
  (TestUDP id resolveErr listenErr s).2
  = logged [Acquire AppMu; Release AppMu] s
  ∧ (findRule id (rules s) = None →
     (TestUDP id resolveErr listenErr s).1 = "错误：未找到规则")
  ∧ (∀ i r, findRule id (rules s) = Some (i, r) →
       Running r = false →
       (TestUDP id resolveErr listenErr s).1
       = "错误：服务器未运行，请先启动服务器")
  ∧ (∀ i r, findRule id (rules s) = Some (i, r) →
       Running r = true → EnableUDP r = false →
       (TestUDP id resolveErr listenErr s).1
       = "错误：未启用UDP转发，请先启用UDP功能").
Proof.
  split; [apply TestUDP_state|].
  unfold TestUDP. cbv zeta. cbn [fst].
  change (rules (Lock AppMu s)) with (rules s).
  split_and!.
  - by intros ->.
  - intros i r -> Hr. by rewrite Hr.
  - intros i r -> Hr Hu. by rewrite Hr, Hu.
Qed.

(** On [two_rules_state], where [rule_1] runs without UDP; the
    operating system would refuse the port. *)
Lemma TestUDP_refuses_witness :
  (TestUDP "rule_9" None (Some "in use") two_rules_state).1
  = "错误：未找到规则"
  ∧ (TestUDP "rule_1" None (Some "in use") two_rules_state).1
    = "错误：未启用UDP转发，请先启用UDP功能".
Proof.
  split.
  - by apply (TestUDP_refuses "rule_9" None (Some "in use") two_rules_state).
  - destruct (TestUDP_refuses "rule_1" None (Some "in use") two_rules_state)
      as (_ & _ & _ & H).
    by apply (H 0%nat (mkRule "rule_1" "a" 1080 "" "" true true false 0 0)).
Defined.

(** [UpdateRule] on a running rule, with a rule that is marked
    running. *)
Lemma UpdateRule_running_post rule s i r :
  findRule (ID rule) (rules s) = Some (i, r) →
  Running r = true →
  Running rule = true →
  rules (UpdateRule rule s).2
  = <[i := set_traffic (UploadBytes r) (DownloadBytes r) rule]> (rules s)
  ∧ listeners (UpdateRule rule s).2 !! ID rule = None
  ∧ servers (UpdateRule rule s).2 !! ID rule = None.
Proof.
  intros Hf Hr Hrule.
  set (r1 := set_Running false r).
  set (s1 := set_rules (<[i := r1]> (rules s)) (Lock AppMu s)).
  set (s2 := teardown (ID rule) (drainCounter (ID rule) s1)).
  set (rule' := set_traffic (UploadBytes r) (DownloadBytes r) rule).
  set (s3 := set_rules (<[i := rule']> (rules s2)) s2).
  assert (Hf1 : findRule (ID rule) (rules s1) = Some (i, r1)).
  { apply findRule_insert_same with (r := r); [done|].
    by apply findRule_Some in Hf as [_ ?]. }
  destruct (drainCounter_rules _ _ _ _ Hf1) as (up & down & Hd).
  pose proof (teardown_unregisters (ID rule) (drainCounter (ID rule) s1))
    as (Hc & Hs & Hl).
  pose proof (teardown_rules (ID rule) (drainCounter (ID rule) s1)) as Htr.
  assert (Hrules3 : rules s3 = <[i := rule']> (rules s)).
  { subst s3 s2. cbn [rules set_rules]. rewrite Htr, Hd. subst s1.
    cbn [rules set_rules]. by rewrite !list_insert_insert_eq. }
  assert (Hf3 : findRule (ID rule) (rules s3) = Some (i, rule')).
  { rewrite Hrules3. by apply findRule_insert_same with (r := r). }
  assert (E : UpdateRule rule s = (true, Unlock AppMu (saveRules s3).2)).
  { unfold UpdateRule. cbv zeta.
    change (rules (Lock AppMu s)) with (rules s).
    rewrite Hf. cbv beta iota. rewrite Hr. cbv beta iota.
    rewrite (stopServerLocked_running (ID rule) (Lock AppMu s) i r Hf Hr).
    change (Running (set_traffic (UploadBytes r) (DownloadBytes r) rule))
      with (Running rule).
    rewrite Hrule. cbv beta iota.
    change (ID (set_traffic (UploadBytes r) (DownloadBytes r) rule))
      with (ID rule).
    cbn [fst snd andb]. change (rules (Lock AppMu s)) with (rules s).
    fold r1 s1 s2 rule' s3.
    rewrite (startServerLocked_running (ID rule) s3 i rule' Hf3 Hrule).
    reflexivity. }
  rewrite E. cbn [fst snd].
  destruct (saveRules_frame s3) as (R1 & R2 & R3 & _).
  change (rules (Unlock AppMu (saveRules s3).2)) with (rules (saveRules s3).2).
  change (listeners (Unlock AppMu (saveRules s3).2))
    with (listeners (saveRules s3).2).
  change (servers (Unlock AppMu (saveRules s3).2))
    with (servers (saveRules s3).2).
  rewrite R1, R2, R3.
  split_and!; [done | exact Hl | exact Hs].
Qed.

(** X23.  [TestUDP] goes by the rule's flags, not by what is running.
    A running rule is updated with a rule that is marked running and
    has UDP switched on; the instance was stopped by the update and is
    not running again.  If the operating system lets the port be
    bound, [TestUDP] then reports that the test of the rule's new port
    succeeded, although no server and no listener is registered for
    the id. *)
Theorem TestUDP_without_server rule s i r :
  findRule (ID rule) (rules s) = Some (i, r) →
  Running r = true →
  Running rule = true →
  EnableUDP rule = true →
  let s' := (UpdateRule rule s).2 in
  (TestUDP (ID rule) None None s').1
  = "UDP端口 " +:+ pretty (Port rule) +:+ " 测试成功：端口可用于UDP通信"
  ∧ servers s' !! ID rule = None
  ∧ listeners s' !! ID rule = None.
Proof.
  intros Hf Hr Hrule Hudp. cbv zeta.
  destruct (UpdateRule_running_post rule s i r Hf Hr Hrule) as (E & Hl & Hs).
  split_and!; [|done|done].
  unfold TestUDP. cbv zeta. cbn [fst].
  change (rules (Lock AppMu ?x)) with (rules x). rewrite E.
  rewrite (findRule_insert_same (ID rule) (rules s) i r
             (set_traffic (UploadBytes r) (DownloadBytes r) rule) Hf eq_refl).
  cbn [Running EnableUDP Port set_traffic]. by rewrite Hrule, Hudp.
Qed.

(** On [started_state]: [rule_1] is moved to port 1081 with UDP on. *)
Lemma TestUDP_without_server_witness :
  (TestUDP "rule_1" None None (UpdateRule edited_udp_rule started_state).2).1
  = "UDP端口 1081 测试成功：端口可用于UDP通信"
  ∧ servers (UpdateRule edited_udp_rule started_state).2 !! "rule_1" = None.
Proof.
  pose proof (TestUDP_without_server edited_udp_rule started_state 0%nat
                (mkRule "rule_1" "test" 1080 "" "" true true false 0 0)
                eq_refl eq_refl eq_refl eq_refl) as H.
  cbv zeta in H. destruct H as (H1 & H2 & _).
  split; [|exact H2].
  etransitivity; [exact H1|]. vm_compute. reflexivity.
Defined.

(* ===================================================================== *)
(** ** Further properties: a configuration that cannot be written *)
(* ===================================================================== *)

Lemma unwritten_refl s : unwritten s s.
Proof. by split. Qed.

Lemma unwritten_trans s s' s'' :
  unwritten s s' → unwritten s' s'' → unwritten s s''.
Proof.
  intros [A B] [C D]. split; [congruence|].
  intros H. rewrite D, B; [done | done | congruence].
Qed.

Lemma unwritten_same s s' :
  fs_writable s' = fs_writable s → cfg_file s' = cfg_file s → unwritten s s'.
Proof. by split. Qed.

Lemma saveRules_unwritten s : unwritten s (saveRules s).2.
Proof.
  unfold saveRules, unwritten.
  destruct (fs_writable s) eqn:E; cbn; by rewrite ?E.
Qed.

Lemma drainCounter_unwritten id s : unwritten s (drainCounter id s).
Proof.
  apply unwritten_same; unfold drainCounter; cbn -[findRule];
    repeat (case_match; cbn -[findRule]; try done).
Qed.

Lemma teardown_unwritten id s : unwritten s (teardown id s).
Proof.
  unfold teardown. cbv zeta.
  eapply unwritten_trans; [|apply saveRules_unwritten].
  apply unwritten_same; unfold StatsListener_Close, raw_Close; cbn;
    repeat (case_match; cbn; try done).
Qed.

Lemma stopServerLocked_unwritten id s : unwritten s (stopServerLocked id s).2.
Proof.
  unfold stopServerLocked.
  destruct (findRule id (rules s)) as [[i r]|]; [|apply unwritten_refl].
  destruct (Running r); cbn [negb fst snd]; [|apply unwritten_refl].
  eapply unwritten_trans; [|apply teardown_unwritten].
  eapply unwritten_trans; [|apply drainCounter_unwritten].
  by apply unwritten_same.
Qed.

Lemma startServerLocked_unwritten id s :
  unwritten s (startServerLocked id s).2.
Proof.
  unfold startServerLocked, net_Listen. cbn -[findRule saveRules].
  destruct (findRule id (rules s)) as [[i r]|]; [|apply unwritten_refl].
  destruct (Running r); [apply unwritten_refl|]. cbn -[findRule saveRules].
  destruct (_ && _); [|by apply unwritten_same]. cbn -[findRule saveRules].
  eapply unwritten_trans; [|apply saveRules_unwritten].
  by apply unwritten_same.
Qed.

Lemma syncToRule_unwritten p s : unwritten s (syncToRule p s).
Proof.
  apply unwritten_same; unfold syncToRule; cbn -[findRule Nat.modulo];
    repeat (case_match; cbn -[findRule Nat.modulo]; try done).
Qed.

Lemma io_step_unwritten s e : unwritten s (io_step s e).
Proof.
  destruct e as [c n err|c n err|d]; cbn [io_step];
    [| |by apply unwritten_same].
  - unfold TrafficConnWrapper_Read.
    destruct (conns s !! c); [|apply unwritten_refl].
    cbn [snd]. destruct (n >? 0); [|apply unwritten_refl].
    unfold CountDownload. cbv zeta.
    change (heap (Lock ?m s)) with (heap s).
    destruct (heap s !! _); [|by apply unwritten_same].
    case_match; [|by apply unwritten_same].
    match goal with
    | |- unwritten _ (Unlock _ (syncToRule ?p ?x)) =>
        apply (unwritten_trans s x); [by apply unwritten_same|];
        apply (unwritten_trans x (syncToRule p x));
          [apply syncToRule_unwritten | by apply unwritten_same]
    end.
  - unfold TrafficConnWrapper_Write.
    destruct (conns s !! c); [|apply unwritten_refl].
    cbn [snd]. destruct (n >? 0); [|apply unwritten_refl].
    unfold CountUpload. cbv zeta.
    change (heap (Lock ?m s)) with (heap s).
    destruct (heap s !! _); [|by apply unwritten_same].
    case_match; [|by apply unwritten_same].
    match goal with
    | |- unwritten _ (Unlock _ (syncToRule ?p ?x)) =>
        apply (unwritten_trans s x); [by apply unwritten_same|];
        apply (unwritten_trans x (syncToRule p x));
          [apply syncToRule_unwritten | by apply unwritten_same]
    end.
Qed.

Lemma shutdown_stops_unwritten order : ∀ s,
  unwritten s (foldl (λ s id, (stopServerLocked id s).2) s order).
Proof.
  induction order as [|id order IH]; intros s; [apply unwritten_refl|].
  cbn [foldl]. eapply unwritten_trans; [apply stopServerLocked_unwritten|].
  apply IH.
Qed.

Lemma unwritten_locked s s' :
  unwritten (Lock AppMu s) s' → unwritten s (Unlock AppMu s').
Proof. intros H. exact H. Qed.

Lemma call_step_unwritten s c : unwritten s (call_step s c).
Proof.
  destruct c as [| |rule|rule|id|id|id|id|id|id|e|order]; cbn [call_step].
  - apply unwritten_same; unfold startup, loadRules; cbn;
      repeat (case_match; simplify_eq; cbn; try done).
  - by apply unwritten_same.
  - unfold AddRule. cbv zeta. cbn [snd]. apply unwritten_locked.
    eapply unwritten_trans; [|apply saveRules_unwritten].
    by apply unwritten_same.
  - unfold UpdateRule. cbv zeta.
    change (rules (Lock AppMu s)) with (rules s).
    destruct (findRule (ID rule) (rules s)) as [[i r]|];
      [|by apply unwritten_same].
    cbn [fst snd]. apply unwritten_locked.
    eapply unwritten_trans; [|apply saveRules_unwritten].
    set (s1 := if Running r then _ else _).
    assert (H1 : unwritten (Lock AppMu s) s1).
    { subst s1. destruct (Running r); [|apply unwritten_refl].
      apply stopServerLocked_unwritten. }
    set (s2 := set_rules _ s1).
    assert (H2 : unwritten (Lock AppMu s) s2)
      by (eapply unwritten_trans; [exact H1 | by apply unwritten_same]).
    destruct (_ && _); [|exact H2].
    eapply unwritten_trans; [exact H2|]. apply startServerLocked_unwritten.
  - unfold DeleteRule. cbv zeta.
    change (rules (Lock AppMu s)) with (rules s).
    destruct (findRule id (rules s)) as [[i r]|]; [|by apply unwritten_same].
    cbn [fst snd]. apply unwritten_locked.
    eapply unwritten_trans; [|apply saveRules_unwritten].
    set (s1 := if Running r then _ else _).
    assert (H1 : unwritten (Lock AppMu s) s1).
    { subst s1. destruct (Running r); [|apply unwritten_refl].
      apply stopServerLocked_unwritten. }
    eapply unwritten_trans; [exact H1 | by apply unwritten_same].
  - unfold StartServer. cbv zeta.
    pose proof (startServerLocked_unwritten id (Lock AppMu s)) as H.
    by destruct (startServerLocked id (Lock AppMu s)).
  - unfold StopServer. cbv zeta.
    pose proof (stopServerLocked_unwritten id (Lock AppMu s)) as H.
    by destruct (stopServerLocked id (Lock AppMu s)).
  - by apply unwritten_same.
  - unfold ResetTrafficStats. cbv zeta.
    change (rules (Lock AppMu s)) with (rules s).
    destruct (findRule id (rules s)) as [[i r]|]; [|by apply unwritten_same].
    cbn [fst snd]. apply unwritten_locked.
    eapply unwritten_trans; [|apply saveRules_unwritten].
    by apply unwritten_same.
  - apply unwritten_same; unfold accept_on, StatsListener_Accept;
      repeat (case_match; cbn; try done).
  - apply io_step_unwritten.
  - unfold shutdown. cbv zeta. apply unwritten_locked.
    apply (unwritten_trans _ (foldl (λ s id, (stopServerLocked id s).2)
                                    (saveRules (Lock AppMu s)).2 order));
      [|by apply unwritten_same].
    eapply unwritten_trans; [apply saveRules_unwritten|].
    apply shutdown_stops_unwritten.
Qed.

Lemma run_calls_unwritten cs : ∀ s, unwritten s (run_calls cs s).
Proof.
  unfold run_calls.
  induction cs as [|c cs IH]; intros s; [apply unwritten_refl|].
  cbn [foldl]. eapply unwritten_trans; [apply call_step_unwritten | apply IH].
Qed.

(** X24.  A configuration that cannot be written.  If the directory of
    the configuration file cannot be written, then whatever calls are
    made, the file is never changed, and the calls do not report it:
    [AddRule] still returns the id and appends the rule,
    [ResetTrafficStats] on a known id still returns no error, and the
    file is as before after either. *)
Theorem unwritable_config_is_kept cs s :
  fs_writable s = false →
  let s' := run_calls cs s in
  cfg_file s' = cfg_file s
  ∧ fs_writable s' = false
  ∧ (∀ rule, (AddRule rule s').1 = assigned_id rule (length (rules s'))
             ∧ rules (AddRule rule s').2
               = rules s'
                 ++ [set_ID (assigned_id rule (length (rules s'))) rule]
             ∧ cfg_file (AddRule rule s').2 = cfg_file s)
  ∧ (∀ id i r, findRule id (rules s') = Some (i, r) →
               (ResetTrafficStats id s').1 = None
               ∧ cfg_file (ResetTrafficStats id s').2 = cfg_file s).
Proof.
  intros Hw. cbv zeta.
  destruct (run_calls_unwritten cs s) as [Gw Gf].
  specialize (Gf Hw). rewrite Hw in Gw.
  split_and!; [done | done | |].
  - intros rule. destruct (AddRule_spec rule (run_calls cs s)) as [A1 A2].
    split_and!; [done | done |].
    destruct (call_step_unwritten (run_calls cs s) (CallAddRule rule))
      as [_ H].
    cbn [call_step] in H. by rewrite H.
  - intros id i r Hf. split.
    + unfold ResetTrafficStats. cbv zeta.
      change (rules (Lock AppMu ?x)) with (rules x). by rewrite Hf.
    + destruct (call_step_unwritten (run_calls cs s)
                  (CallResetTrafficStats id)) as [_ H].
      cbn [call_step] in H. by rewrite H.
Qed.

(** On [one_rule_state] after [revoke_write]: a rule is
    added and started, a client writes, the instance is stopped. *)
Lemma unwritable_config_is_kept_witness :
  cfg_file
    (run_calls [CallAddRule (mkRule "" "b" 1081 "" "" true false false 0 0);
                CallStartServer "rule_2"; CallAccept "rule_2";
                CallIO (EvWrite 0 10 false); CallStopServer "rule_2"]
               (revoke_write one_rule_state))
  = cfg_file one_rule_state.
Proof.
  pose proof (unwritable_config_is_kept
                [CallAddRule (mkRule "" "b" 1081 "" "" true false false 0 0);
                 CallStartServer "rule_2"; CallAccept "rule_2";
                 CallIO (EvWrite 0 10 false); CallStopServer "rule_2"]
                (revoke_write one_rule_state) eq_refl) as H.
  cbv zeta in H. destruct H as (H & _). exact H.
Defined.

(* ===================================================================== *)
(** ** Adding a rule after a deletion *)
(* ===================================================================== *)

Lemma count_id_singleton id r : ID r = id → count_id id [r] = 1%nat.
Proof. intros H. unfold count_id. by rewrite filter_cons, decide_True. Qed.

(** C7.  [AddRule] numbers a rule that comes without an id by the
    length of the list, and does not look whether the id is in use.
    In any state with a rule in it: a rule without an id is added and
    gets [rule_<n+1>]; some rule that was there before is deleted, so
    the list has [n] entries again; the next rule added without an id
    gets [rule_<n+1>] too.  Both calls return that id, both rules are
    in the list, at least two entries carry the returned id, and the
    ids are not unique: what is claimed of [AddRule] does not hold of
    the second call, whatever the traffic fields of the rules. *)
Theorem AddRule_blank_id_reused blank1 blank2 id s i r :
  ID blank1 = "" →
  ID blank2 = "" →
  findRule id (rules s) = Some (i, r) →
  let new_id := rule_name (length (rules s) + 1) in
  let s1 := (AddRule blank1 s).2 in
  let s2 := (DeleteRule id s1).2 in
  let s3 := (AddRule blank2 s2).2 in
  (AddRule blank1 s).1 = new_id
  ∧ (DeleteRule id s1).1 = true
  ∧ (AddRule blank2 s2).1 = new_id
  ∧ rules s3
    = (take i (rules s) ++ drop (S i) (rules s))
      ++ [set_ID new_id blank1; set_ID new_id blank2]
  ∧ (2 ≤ count_id new_id (rules s3))%nat
  ∧ ¬ NoDup (ID <$> rules s3)
  ∧ ¬ addRule_claim blank2 s2.
Proof.
  intros Hb1 Hb2 Hf. cbv zeta.
  pose proof (findRule_lt _ _ _ _ Hf) as Hlt.
  set (n := length (rules s)) in *.
  destruct (AddRule_spec blank1 s) as [A1 A2]. fold n in A1, A2.
  assert (Ha1 : assigned_id blank1 n = rule_name (n + 1))
    by (unfold assigned_id; by rewrite bool_decide_eq_true_2).
  rewrite Ha1 in A1, A2.
  assert (Hf1 : findRule id (rules (AddRule blank1 s).2) = Some (i, r)).
  { rewrite A2. unfold findRule in *. by apply list_find_app_l. }
  destruct (DeleteRule_post id _ _ _ Hf1) as (D1 & D2 & _).
  assert (D3 : rules (DeleteRule id (AddRule blank1 s).2).2
               = (take i (rules s) ++ drop (S i) (rules s))
                 ++ [set_ID (rule_name (n + 1)) blank1]).
  { rewrite D2, A2.
    rewrite take_app_le, drop_app_le by (fold n; lia).
    by rewrite app_assoc. }
  assert (Hlen : length (rules (DeleteRule id (AddRule blank1 s).2).2) = n).
  { rewrite D3, !length_app, length_take, length_drop. fold n. cbn. lia. }
  destruct (AddRule_spec blank2 (DeleteRule id (AddRule blank1 s).2).2)
    as [B1 B2].
  rewrite Hlen in B1, B2.
  assert (Ha2 : assigned_id blank2 n = rule_name (n + 1))
    by (unfold assigned_id; by rewrite bool_decide_eq_true_2).
  rewrite Ha2 in B1, B2.
  assert (E3 : rules (AddRule blank2 (DeleteRule id (AddRule blank1 s).2).2).2
               = (take i (rules s) ++ drop (S i) (rules s))
                 ++ [set_ID (rule_name (n + 1)) blank1;
                     set_ID (rule_name (n + 1)) blank2]).
  { rewrite B2, D3. by rewrite <- app_assoc. }
  assert (Hcount : (2 ≤ count_id (rule_name (n + 1))
                          (rules (AddRule blank2
                                    (DeleteRule id (AddRule blank1 s).2).2).2))%nat).
  { rewrite E3, count_id_app.
    change [set_ID (rule_name (n + 1)) blank1; set_ID (rule_name (n + 1)) blank2]
      with ([set_ID (rule_name (n + 1)) blank1]
            ++ [set_ID (rule_name (n + 1)) blank2]).
    rewrite !count_id_app, !count_id_singleton by done. lia. }
  split_and!; [done | done | done | done | done | |].
  - rewrite E3, fmap_app. cbn [fmap list_fmap ID set_ID].
    intros Hnd. apply NoDup_app in Hnd as (_ & _ & Hnd).
    apply NoDup_cons in Hnd as [Hnot _]. apply Hnot, list_elem_of_here.
  - intros [Hone _]. rewrite B1 in Hone. lia.
Qed.

(** The sequence the rule editor produces: a first rule, a second one,
    the first is deleted, a third one is added; all three are sent
    without an id and without traffic. *)
Lemma AddRule_blank_id_reused_witness :
  let blank := mkRule "" "x" 1080 "" "" true false false 0 0 in
  let s := (AddRule blank (NewApp [] None 0)).2 in
  let s1 := (AddRule blank s).2 in
  let s2 := (DeleteRule "rule_1" s1).2 in
  (AddRule blank s).1 = "rule_2"
  ∧ (AddRule blank s2).1 = "rule_2"
  ∧ rules (AddRule blank s2).2
    = [mkRule "rule_2" "x" 1080 "" "" true false false 0 0;
       mkRule "rule_2" "x" 1080 "" "" true false false 0 0]
  ∧ ¬ addRule_claim blank s2.
Proof.
  cbv zeta.
  pose proof (AddRule_blank_id_reused
                (mkRule "" "x" 1080 "" "" true false false 0 0)
                (mkRule "" "x" 1080 "" "" true false false 0 0)
                "rule_1"
                (AddRule (mkRule "" "x" 1080 "" "" true false false 0 0)
                         (NewApp [] None 0)).2
                0%nat (mkRule "rule_1" "x" 1080 "" "" true false false 0 0)
                eq_refl eq_refl eq_refl) as H.
  cbv zeta in H. destruct H as (H1 & _ & H3 & H4 & _ & _ & H7).
  split_and!; [exact H1 | exact H3 | rewrite H4; reflexivity | exact H7].
Defined.
